(** * Rimu World product catalogue: the request handlers of [main.py]

    A shallow embedding of the FastAPI handlers over the [products] table
    and the files of the working directory.  A handler is a function from
    the world (the table and the files) to the world after the call and the
    value the handler returns or the exception it raises.  What the handlers
    ask of their surroundings is part of the model: SQLite's column
    constraints, the operating system's answer to [open] and [os.remove],
    FastAPI's reading of a form. *)

From Stdlib Require Import String Ascii List Decimal DecimalFacts DecimalNat DecimalString.
From Stdlib Require Import Sorting.Sorted Sorting.Permutation Arith Wf_nat.
From Corelib Require Import PrimFloat.
From stdpp Require Import gmap strings list.

Set Warnings "-inexact-float,-register-all".
Local Open Scope string_scope.
Local Open Scope list_scope.

(** ** The Python built-ins the handlers use *)

Module Py.

(** [if s:] for an [Optional[str]]: [None] and the empty string are false. *)
Definition truthy (s : option string) : bool :=
  match s with
  | None => false
  | Some "" => false
  | Some _ => true
  end.

(** [str(n)] for a non-negative [int]. *)
Definition str (n : nat) : string := NilEmpty.string_of_uint (Nat.to_uint n).

Fixpoint zeros (k : nat) : string :=
  match k with
  | O => ""
  | S k' => String "0" (zeros k')
  end.

(** [f"{n:04d}"] for a non-negative [int]: at least four digits,
    padded with zeros on the left. *)
Definition format_04d (n : nat) : string :=
  let d := str n in zeros (4 - String.length d) +:+ d.

(** [s.split(sep)] for a one-character separator. *)
Fixpoint split (sep : ascii) (s : string) : list string :=
  match s with
  | "" => [""]
  | String c rest =>
      let segs := split sep rest in
      if Ascii.eqb c sep then "" :: segs
      else match segs with
           | seg :: more => String c seg :: more
           | [] => [String c ""]
           end
  end.

(** [l[-1]] on a list of strings that [split] returned (never empty). *)
Definition last_item (l : list string) : string := List.last l "".

(** [s.lstrip(c)]: drops every leading occurrence of [c]. *)
Fixpoint lstrip (c : ascii) (s : string) : string :=
  match s with
  | "" => ""
  | String a rest => if Ascii.eqb a c then lstrip c rest else s
  end.

End Py.

(** ** JSON values and the [json] module

    [json.loads] and [json.dumps] belong to Python's standard library, not
    to this repository: the handlers are embedded over any codec, and the
    theorems hold for every one.  A number is identified by the text Python
    prints for it. *)

Inductive json : Type :=
| JNull
| JBool (b : bool)
| JNum (repr : string)
| JStr (s : string)
| JArr (items : list json)
| JObj (members : list (string * json)).

Class JsonCodec := {
  (** [json.loads]: [None] when it raises [JSONDecodeError]. *)
  json_loads : string -> option json;
  (** [json.dumps]. *)
  json_dumps : json -> string
}.

(** ** Exceptions and results

    [OSError] stands for the class and its subclasses
    ([FileNotFoundError] apart, which [os.remove] raises for a file that is
    not there), [OperationalError] and [IntegrityError] are those of
    [sqlite3]. *)

Inductive exn : Type :=
| HTTPException (status_code : nat) (detail : string)
| RequestValidationError
| IntegrityError
| JSONDecodeError
| AttributeError
| TypeError
| FileNotFoundError
| OSError
| OperationalError.

Inductive result (A : Type) : Type :=
| Ok (a : A)
| Raise (e : exn).
Arguments Ok {A} a.
Arguments Raise {A} e.

(** The status line FastAPI answers with. *)
Definition status {A} (r : result A) : nat :=
  match r with
  | Ok _ => 200
  | Raise (HTTPException c _) => c
  | Raise RequestValidationError => 422
  | Raise _ => 500
  end.

(** Operations of Python values that came out of [json.loads]. *)

(** [v.copy()]: lists and dicts have it. *)
Definition py_copy (v : json) : result json :=
  match v with
  | JArr _ | JObj _ => Ok v
  | _ => Raise AttributeError
  end.

(** [len(v)]. *)
Definition py_len (v : json) : result nat :=
  match v with
  | JArr l => Ok (List.length l)
  | JObj m => Ok (List.length m)
  | JStr s => Ok (String.length s)
  | _ => Raise TypeError
  end.

(** [v.append(x)]: only a list has it. *)
Definition py_append (v : json) (x : json) : result json :=
  match v with
  | JArr l => Ok (JArr (l ++ [x]))
  | _ => Raise AttributeError
  end.

Fixpoint chars (s : string) : list json :=
  match s with
  | "" => []
  | String c rest => JStr (String c "") :: chars rest
  end.

(** [for x in v]: the items of a list, the keys of a dict, the characters
    of a string. *)
Definition py_iter (v : json) : result (list json) :=
  match v with
  | JArr l => Ok l
  | JObj m => Ok (List.map (fun kv => JStr (fst kv)) m)
  | JStr s => Ok (chars s)
  | _ => Raise TypeError
  end.

(** ** The [products] table *)

(** A row, column by column as [init_db] creates them ([rowid] is the
    [id] column).  [created_at] is the insertion time in seconds: the text
    SQLite stores for it sorts the same way. *)
Record row : Type := {
  rowid : nat;
  product_id : string;
  name : string;
  type : string;
  category : option string;
  details : option string;
  price : float;
  sizes : option string;
  colors : option string;
  images : option string;
  created_at : nat
}.

(** The table in [rowid] order, with the counter SQLite keeps for
    [AUTOINCREMENT]. *)
Record table : Type := {
  rows : list row;
  seq : nat
}.

(** [init_db] on a fresh database file. *)
Definition init_db : table := {| rows := []; seq := 0 |}.

(** [SELECT COUNT( * ) FROM products] *)
Definition select_count (t : table) : nat := List.length (rows t).

(** [SELECT ... FROM products WHERE product_id = ?] followed by
    [fetchone()]. *)
Definition select_by_product_id (pid : string) (t : table) : option row :=
  List.find (fun r => String.eqb (product_id r) pid) (rows t).

(** The form fields both admin handlers write into a row. *)
Record form : Type := {
  f_name : string;
  f_type : string;
  f_category : string;
  f_details : string;
  f_price : float;
  f_sizes : string;
  f_colors : string
}.

(** What a [REAL] column gives back for the number written to it: SQLite
    keeps a number without a fraction as an integer, and the sign of a
    negative zero goes with that. *)
Definition real_column (x : float) : float :=
  if PrimFloat.is_zero x then PrimFloat.zero else x.

(** [INSERT INTO products (product_id, name, ..., images) VALUES (...)]:
    [id] comes from [AUTOINCREMENT], [created_at] from its default.  The
    [sqlite3] module binds a NaN as [NULL], which [NOT NULL] on [price]
    refuses, and the [UNIQUE] constraint on [product_id] refuses a second
    row with the same identifier: [IntegrityError] either way. *)
Definition insert (pid : string) (f : form) (imgs : string) (now : nat)
    (t : table) : result table :=
  if PrimFloat.is_nan (f_price f)
     || List.existsb (fun r => String.eqb (product_id r) pid) (rows t)
  then Raise IntegrityError
  else Ok {| rows := rows t ++
                     [{| rowid := S (seq t); product_id := pid;
                         name := f_name f; type := f_type f;
                         category := Some (f_category f);
                         details := Some (f_details f);
                         price := real_column (f_price f);
                         sizes := Some (f_sizes f);
                         colors := Some (f_colors f);
                         images := Some imgs;
                         created_at := now |}];
             seq := S (seq t) |}.

(** The [SET] clause of the [UPDATE] statement, on one row. *)
Definition set_fields (f : form) (imgs : string) (r : row) : row :=
  {| rowid := rowid r; product_id := product_id r;
     name := f_name f; type := f_type f;
     category := Some (f_category f);
     details := Some (f_details f);
     price := real_column (f_price f);
     sizes := Some (f_sizes f);
     colors := Some (f_colors f);
     images := Some imgs;
     created_at := created_at r |}.

(** The table after [UPDATE products SET ... WHERE product_id = ?] has
    gone through. *)
Definition update_where (pid : string) (f : form) (imgs : string)
    (t : table) : table :=
  {| rows := List.map (fun r => if String.eqb (product_id r) pid
                                then set_fields f imgs r else r) (rows t);
     seq := seq t |}.

(** [UPDATE products SET ... WHERE product_id = ?]: a NaN price is bound
    as [NULL], and [NOT NULL] refuses it on the first row the statement
    reaches. *)
Definition update (pid : string) (f : form) (imgs : string) (t : table)
    : result table :=
  if PrimFloat.is_nan (f_price f)
     && List.existsb (fun r => String.eqb (product_id r) pid) (rows t)
  then Raise IntegrityError
  else Ok (update_where pid f imgs t).

(** [DELETE FROM products WHERE product_id = ?] *)
Definition delete_where (pid : string) (t : table) : table :=
  {| rows := List.filter (fun r => negb (String.eqb (product_id r) pid)) (rows t);
     seq := seq t |}.

(** [ORDER BY created_at DESC], as a stable insertion sort: SQL leaves the
    order of rows with equal [created_at] open, and nothing below depends
    on it. *)
Fixpoint insert_desc (r : row) (l : list row) : list row :=
  match l with
  | [] => [r]
  | x :: xs => if Nat.leb (created_at x) (created_at r)
               then r :: x :: xs
               else x :: insert_desc r xs
  end.

Definition order_by_created_at_desc (l : list row) : list row :=
  List.fold_right insert_desc [] l.

(** ** The world: the table and the files of the working directory *)

Definition bytes : Type := list Byte.byte.

(** [DATABASE_PATH] *)
Definition DATABASE_PATH : string := "data/rimu_world.db".

(** The table is what the database file holds; the other files are a map
    from their paths, normalised and relative to the working directory, to
    their contents. *)
Record world : Type := {
  db : table;
  files : gmap string bytes
}.

(** The operating system, as far as the handlers ask it.  Whether a path
    can be opened and which file a path leads to depend on the directories
    and links of the machine, on the lengths and characters it admits in a
    name and on its permissions: the handlers are embedded over any host,
    and the theorems hold for every one. *)
Class Host := {
  (** [open(path, "wb")] returns a file, created or truncated, that takes
      the content: the path is that of the file then.  [false] when it
      raises ([FileNotFoundError] for a name that leads into a directory
      that is not there, [OSError] for a name too long, ...). *)
  opens : string -> bool;
  (** The file [os.remove(path)] unlinks when that file is there: [None]
      when the call raises whatever the files are (an empty path, a
      directory, no permission, ...). *)
  target : string -> option string
}.

(** An uploaded part of a multipart request. *)
Record UploadFile : Type := {
  filename : option string;
  content : bytes
}.

(** [os.remove(path)] on the files outside the database. *)
Definition os_remove {host : Host} (path : string) (fs : gmap string bytes)
    : result (gmap string bytes) :=
  match target path with
  | Some file =>
      match fs !! file with
      | Some _ => Ok (delete file fs)
      | None => Raise FileNotFoundError
      end
  | None => Raise OSError
  end.

(** [os.remove(path)] unlinks the database file. *)
Definition unlinks_database {host : Host} (path : string) : bool :=
  match target path with
  | Some file => String.eqb file DATABASE_PATH
  | None => false
  end.

(** ** A host to run the handlers with

    [posix] is a Linux working directory in which every directory a path
    names exists, [static/uploads] has no directory inside and nothing is
    a symbolic link: a path leads where its components say. *)

Module Posix.

Fixpoint has_char (c : ascii) (s : string) : bool :=
  match s with
  | "" => false
  | String a rest => Ascii.eqb a c || has_char c rest
  end.

(** The bytes of a name in UTF-8. *)
Fixpoint utf8_length (s : string) : nat :=
  match s with
  | "" => 0
  | String a rest =>
      (if Nat.ltb (nat_of_ascii a) 128 then 1 else 2) + utf8_length rest
  end.

Fixpoint after_prefix (p s : string) : option string :=
  match p, s with
  | "", _ => Some s
  | String a p', String b s' => if Ascii.eqb a b then after_prefix p' s' else None
  | _, _ => None
  end.

(** A file of [static/uploads] opens for writing when what follows the
    directory is one name: no slash, no NUL, at most 255 bytes. *)
Definition opens (path : string) : bool :=
  match after_prefix "static/uploads/" path with
  | Some fname =>
      negb (has_char "/"%char fname) && negb (has_char "000"%char fname)
      && Nat.leb 1 (String.length fname) && Nat.leb (utf8_length fname) 255
  | None => false
  end.

(** The components of a relative path: [split] as in [Py], here on
    slashes. *)
Fixpoint components (s : string) : list string :=
  match s with
  | "" => [""]
  | String c rest =>
      let segs := components rest in
      if Ascii.eqb c "/"%char then "" :: segs
      else match segs with
           | seg :: more => String c seg :: more
           | [] => [String c ""]
           end
  end.

(** Walking the components, the names walked so far last first: an empty
    component and [.] stay, [..] goes back up. *)
Fixpoint walk (comps : list string) (walked : list string) : list string :=
  match comps with
  | [] => walked
  | c :: rest =>
      if String.eqb c "" || String.eqb c "." then walk rest walked
      else if String.eqb c ".." then
        match walked with
        | up :: above => if String.eqb up ".." then walk rest (c :: walked)
                         else walk rest above
        | [] => walk rest [c]
        end
      else walk rest (c :: walked)
  end.

Fixpoint path_of (walked : list string) : string :=
  match walked with
  | [] => ""
  | [c] => c
  | c :: above => path_of above +:+ "/" +:+ c
  end.

(** [os.remove] needs a path that ends in the name of a file. *)
Definition target (path : string) : option string :=
  if has_char "000"%char path then None
  else
    let comps := components path in
    let final := List.last comps "" in
    if String.eqb final "" || String.eqb final "." || String.eqb final ".."
    then None
    else Some (path_of (walk comps [])).

End Posix.

#[export] Instance posix : Host :=
  {| opens := Posix.opens; target := Posix.target |}.

(** ** A codec to run the handlers with

    [py_json] follows Python's [json] module on texts whose numbers are
    integers and whose characters, also the escaped ones, lie below 256:
    default separators in [dumps], [ensure_ascii] escapes, strict control
    characters and last-wins duplicate keys in [loads].  The scenarios only
    hand it such texts; [wf] are the values it reads, and it reads back
    what it writes for them. *)

Module PyJson.

Definition dquote : ascii := "034"%char.
Definition backslash : ascii := "092"%char.

Definition hex_digit (n : nat) : ascii :=
  ascii_of_nat (if Nat.ltb n 10 then 48 + n else 87 + n).

(** One character of a string under [ensure_ascii=True]. *)
Definition escape_char (c : ascii) : string :=
  let n := nat_of_ascii c in
  if Ascii.eqb c dquote then String backslash (String dquote "")
  else if Ascii.eqb c backslash then String backslash (String backslash "")
  else if Nat.eqb n 10 then String backslash "n"
  else if Nat.eqb n 13 then String backslash "r"
  else if Nat.eqb n 9 then String backslash "t"
  else if Nat.eqb n 8 then String backslash "b"
  else if Nat.eqb n 12 then String backslash "f"
  else if Nat.ltb n 32 || Nat.ltb 126 n
       then String backslash
              ("u00" +:+ String (hex_digit (n / 16)) (String (hex_digit (n mod 16)) ""))
  else String c "".

Fixpoint escape (s : string) : string :=
  match s with
  | "" => ""
  | String c rest => escape_char c +:+ escape rest
  end.

Definition quote (s : string) : string :=
  String dquote (escape s +:+ String dquote "").

Fixpoint join (sep : string) (l : list string) : string :=
  match l with
  | [] => ""
  | [x] => x
  | x :: rest => x +:+ sep +:+ join sep rest
  end.

Fixpoint dumps (v : json) : string :=
  match v with
  | JNull => "null"
  | JBool true => "true"
  | JBool false => "false"
  | JNum r => r
  | JStr s => quote s
  | JArr l => "[" +:+ join ", " (List.map dumps l) +:+ "]"
  | JObj m =>
      "{" +:+ join ", " (List.map (fun kv => quote (fst kv) +:+ ": " +:+ dumps (snd kv)) m)
          +:+ "}"
  end.

Definition is_ws (c : ascii) : bool :=
  let n := nat_of_ascii c in
  Nat.eqb n 32 || Nat.eqb n 9 || Nat.eqb n 10 || Nat.eqb n 13.

Fixpoint skip_ws (s : string) : string :=
  match s with
  | "" => ""
  | String c rest => if is_ws c then skip_ws rest else s
  end.

Definition is_digit (c : ascii) : bool :=
  let n := nat_of_ascii c in Nat.leb 48 n && Nat.leb n 57.

Definition hex_value (c : ascii) : option nat :=
  let n := nat_of_ascii c in
  if Nat.leb 48 n && Nat.leb n 57 then Some (n - 48)
  else if Nat.leb 97 n && Nat.leb n 102 then Some (n - 87)
  else if Nat.leb 65 n && Nat.leb n 70 then Some (n - 55)
  else None.

Definition unescape (e : ascii) : option ascii :=
  if Ascii.eqb e dquote then Some dquote
  else if Ascii.eqb e backslash then Some backslash
  else match e with
       | "/"%char => Some "/"%char
       | "b"%char => Some "008"%char
       | "f"%char => Some "012"%char
       | "n"%char => Some "010"%char
       | "r"%char => Some "013"%char
       | "t"%char => Some "009"%char
       | _ => None
       end.

Fixpoint scan_string (s : string) : option (string * string) :=
  match s with
  | "" => None
  | String c rest =>
      if Ascii.eqb c dquote then Some ("", rest)
      else if Ascii.eqb c backslash then
        match rest with
        | String "u" (String h1 (String h2 (String h3 (String h4 rest')))) =>
            match hex_value h1, hex_value h2, hex_value h3, hex_value h4 with
            | Some a, Some b, Some c', Some d =>
                let n := ((a * 16 + b) * 16 + c') * 16 + d in
                if Nat.ltb n 256 then
                  match scan_string rest' with
                  | Some (body, after) => Some (String (ascii_of_nat n) body, after)
                  | None => None
                  end
                else None
            | _, _, _, _ => None
            end
        | String e rest' =>
            match unescape e, scan_string rest' with
            | Some c', Some (body, after) => Some (String c' body, after)
            | _, _ => None
            end
        | "" => None
        end
      else if Nat.ltb (nat_of_ascii c) 32 then None
      else match scan_string rest with
           | Some (body, after) => Some (String c body, after)
           | None => None
           end
  end.

Fixpoint scan_digits (s : string) : string * string :=
  match s with
  | "" => ("", "")
  | String c rest =>
      if is_digit c
      then let '(ds, after) := scan_digits rest in (String c ds, after)
      else ("", s)
  end.

(** [0], or digits that do not start with [0]. *)
Definition int_shape (ds : string) : bool :=
  match ds with
  | "" => false
  | String c rest => if Ascii.eqb c "0" then String.eqb rest "" else true
  end.

(** A fraction or an exponent follows. *)
Definition goes_on (after : string) : bool :=
  match after with
  | "" => false
  | String c _ => Ascii.eqb c "." || Ascii.eqb c "e" || Ascii.eqb c "E"
  end.

Definition scan_int (s : string) : option (string * string) :=
  let '(ds, after) := scan_digits s in
  if int_shape ds && negb (goes_on after) then Some (ds, after) else None.

Fixpoint strip_prefix (p s : string) : option string :=
  match p, s with
  | "", _ => Some s
  | String a p', String b s' => if Ascii.eqb a b then strip_prefix p' s' else None
  | _, _ => None
  end.

Fixpoint set_member (k : string) (v : json) (m : list (string * json))
    : list (string * json) :=
  match m with
  | [] => [(k, v)]
  | (k', v') :: rest =>
      if String.eqb k' k then (k', v) :: rest else (k', v') :: set_member k v rest
  end.

Fixpoint parse_value (fuel : nat) (s : string) : option (json * string) :=
  match fuel with
  | O => None
  | S fuel' =>
      match s with
      | "" => None
      | String c rest =>
          if Ascii.eqb c "[" then
            match skip_ws rest with
            | "" => None
            | String d after as rest' =>
                if Ascii.eqb d "]" then Some (JArr [], after)
                else match parse_items fuel' rest' with
                     | Some (l, after') => Some (JArr l, after')
                     | None => None
                     end
            end
          else if Ascii.eqb c "{" then
            match skip_ws rest with
            | "" => None
            | String d after as rest' =>
                if Ascii.eqb d "}" then Some (JObj [], after)
                else match parse_members fuel' rest' [] with
                     | Some (m, after') => Some (JObj m, after')
                     | None => None
                     end
            end
          else if Ascii.eqb c "-" then
            match scan_int rest with
            | Some (ds, after) =>
                if String.eqb ds "0" then Some (JNum "0", after)
                else Some (JNum (String "-" ds), after)
            | None => None
            end
          else if Ascii.eqb c dquote then
            match scan_string rest with
            | Some (body, after) => Some (JStr body, after)
            | None => None
            end
          else if is_digit c then
            match scan_int s with
            | Some (ds, after) => Some (JNum ds, after)
            | None => None
            end
          else match strip_prefix "null" s, strip_prefix "true" s,
                     strip_prefix "false" s with
               | Some after, _, _ => Some (JNull, after)
               | _, Some after, _ => Some (JBool true, after)
               | _, _, Some after => Some (JBool false, after)
               | _, _, _ => None
               end
      end
  end
with parse_items (fuel : nat) (s : string) : option (list json * string) :=
  match fuel with
  | O => None
  | S fuel' =>
      match parse_value fuel' s with
      | Some (v, after) =>
          match skip_ws after with
          | "" => None
          | String d after' =>
              if Ascii.eqb d "]" then Some ([v], after')
              else if Ascii.eqb d "," then
                match parse_items fuel' (skip_ws after') with
                | Some (l, after'') => Some (v :: l, after'')
                | None => None
                end
              else None
          end
      | None => None
      end
  end
with parse_members (fuel : nat) (s : string) (acc : list (string * json))
    : option (list (string * json) * string) :=
  match fuel with
  | O => None
  | S fuel' =>
      match s with
      | "" => None
      | String c rest =>
          if Ascii.eqb c dquote then
            match scan_string rest with
            | Some (k, after) =>
                match skip_ws after with
                | "" => None
                | String d after' =>
                    if Ascii.eqb d ":" then
                      match parse_value fuel' (skip_ws after') with
                      | Some (v, after'') =>
                          let acc' := set_member k v acc in
                          match skip_ws after'' with
                          | "" => None
                          | String e after3 =>
                              if Ascii.eqb e "}" then Some (acc', after3)
                              else if Ascii.eqb e ","
                                   then parse_members fuel' (skip_ws after3) acc'
                                   else None
                          end
                      | None => None
                      end
                    else None
                end
            | None => None
            end
          else None
      end
  end.

Definition loads (s : string) : option json :=
  match parse_value (S (String.length s)) (skip_ws s) with
  | Some (v, after) =>
      match skip_ws after with
      | "" => Some v
      | _ => None
      end
  | None => None
  end.

(** The values [loads] returns: integers as Python prints them, dicts
    without a repeated key. *)
Fixpoint all_digits (s : string) : bool :=
  match s with
  | "" => true
  | String c rest => is_digit c && all_digits rest
  end.

Definition int_repr (r : string) : bool :=
  match r with
  | "" => false
  | String c ds =>
      if Ascii.eqb c "-"
      then all_digits ds && int_shape ds && negb (String.eqb ds "0")
      else all_digits r && int_shape r
  end.

Fixpoint distinct (keys : list string) : bool :=
  match keys with
  | [] => true
  | k :: rest => negb (List.existsb (String.eqb k) rest) && distinct rest
  end.

Fixpoint wf (v : json) : bool :=
  match v with
  | JNum r => int_repr r
  | JArr l => List.forallb wf l
  | JObj m => distinct (List.map fst m) && List.forallb (fun kv => wf (snd kv)) m
  | _ => true
  end.

(** Where a value may end: at the end of the text, or before [,], []] or
    [}]. *)
Definition ends_token (rest : string) : bool :=
  match rest with
  | "" => true
  | String c _ => Ascii.eqb c "," || Ascii.eqb c "]" || Ascii.eqb c "}"
  end.

(** The fuel [parse_value] needs for the text of [v]. *)
Fixpoint cost (v : json) : nat :=
  match v with
  | JArr l => S (list_sum (List.map (fun e => S (cost e)) l))
  | JObj m => S (list_sum (List.map (fun kv => S (cost (snd kv))) m))
  | _ => 1
  end.

(** The text of a value starts with a character of its own. *)
Definition starts_value (s : string) : Prop :=
  exists c tail, s = String c tail /\ is_ws c = false
                 /\ Ascii.eqb c "]" = false /\ Ascii.eqb c "}" = false.

(** The text of one member of a dict. *)
Definition member_text (kv : string * json) : string :=
  quote (fst kv) +:+ ": " +:+ dumps (snd kv).

End PyJson.

#[export] Instance py_json : JsonCodec :=
  {| json_loads := PyJson.loads; json_dumps := PyJson.dumps |}.

(** ** The handlers *)

(** What the read handlers return for one row: [dict(row)] with the three
    JSON columns replaced by their decoded values. *)
Record product : Type := {
  p_id : nat;
  p_product_id : string;
  p_name : string;
  p_type : string;
  p_category : option string;
  p_details : option string;
  p_price : float;
  p_sizes : json;
  p_colors : json;
  p_images : json;
  p_created_at : nat
}.

(** The dict an admin handler returns. *)
Definition reply : Type := list (string * string).

Definition not_found {A} : result A :=
  Raise (HTTPException 404 "Product not found").

(** [generate_product_id] *)
Definition generate_product_id (t : table) : string :=
  let count := select_count t in
  "RW" +:+ Py.format_04d (count + 1).

(** [f"{product_id}_{index}.{ext}"] with [ext = image.filename.split('.')[-1]] *)
Definition upload_name (product_id : string) (index : nat) (image : UploadFile)
    : string :=
  let ext := Py.last_item (Py.split "."%char (default "" (filename image))) in
  product_id +:+ "_" +:+ Py.str index +:+ "." +:+ ext.

Definition filepath (fname : string) : string := "static/uploads/" +:+ fname.
Definition public_path (fname : string) : string := "/static/uploads/" +:+ fname.

(** [with open(filepath, "wb") as f: f.write(content)].  An [open] that
    fails raises [OSError] or one of its subclasses ([ValueError] for a
    NUL character in the path): the answer is 500 for all of them, and the
    model has one exception for them. *)
Definition write_file {host : Host} (path : string) (data : bytes)
    (fs : gmap string bytes) : result (gmap string bytes) :=
  if opens path then Ok (<[path := data]> fs) else Raise OSError.

(** The loop of [create_product] over [enumerate(images)], from index
    [idx] on: the files after the writes, and [image_paths] or the
    exception of the [open] that stopped the loop. *)
Fixpoint save_images {host : Host} (product_id : string) (idx : nat)
    (images : list UploadFile) (fs : gmap string bytes)
    (image_paths : list string)
    : gmap string bytes * result (list string) :=
  match images with
  | [] => (fs, Ok image_paths)
  | image :: rest =>
      if Py.truthy (filename image) then
        let fname := upload_name product_id idx image in
        match write_file (filepath fname) (content image) fs with
        | Raise e => (fs, Raise e)
        | Ok fs' =>
            save_images product_id (S idx) rest fs'
              (image_paths ++ [public_path fname])
        end
      else save_images product_id (S idx) rest fs image_paths
  end.

(** The loop of [update_product] over [enumerate(images)]: the index in a
    file name is [len(image_paths) + idx], read after the earlier
    iterations have appended to [image_paths]. *)
Fixpoint save_new_images {host : Host} (product_id : string) (idx : nat)
    (images : list UploadFile) (fs : gmap string bytes) (image_paths : json)
    : gmap string bytes * result json :=
  match images with
  | [] => (fs, Ok image_paths)
  | image :: rest =>
      if Py.truthy (filename image) then
        match py_len image_paths with
        | Raise e => (fs, Raise e)
        | Ok n =>
            let fname := upload_name product_id (n + idx) image in
            match write_file (filepath fname) (content image) fs with
            | Raise e => (fs, Raise e)
            | Ok fs' =>
                match py_append image_paths (JStr (public_path fname)) with
                | Raise e => (fs', Raise e)
                | Ok image_paths' =>
                    save_new_images product_id (S idx) rest fs' image_paths'
                end
            end
        end
      else save_new_images product_id (S idx) rest fs image_paths
  end.

(** [images and images[0].filename] *)
Definition has_uploads (images : option (list UploadFile)) : bool :=
  match images with
  | Some (first :: _) => Py.truthy (filename first)
  | _ => false
  end.

(** The loop of [delete_product]: every failure inside [try] is passed
    over, a missing file as much as an item that is no string. *)
Fixpoint remove_images {host : Host} (items : list json)
    (fs : gmap string bytes) : gmap string bytes :=
  match items with
  | [] => fs
  | image_path :: rest =>
      let attempt :=
        match image_path with
        | JStr p => os_remove (Py.lstrip "/"%char p) fs
        | _ => Raise AttributeError
        end in
      match attempt with
      | Ok fs' => remove_images rest fs'
      | Raise _ => remove_images rest fs
      end
  end.

(** Whether that loop unlinks the database file on its way. *)
Definition database_unlinked {host : Host} (items : list json) : bool :=
  List.existsb (fun image_path =>
                  match image_path with
                  | JStr p => unlinks_database (Py.lstrip "/"%char p)
                  | _ => false
                  end) items.

Section Handlers.

Context {codec : JsonCodec} {host : Host}.

(** [json.loads(column) if column else []] *)
Definition decode_column (column : option string) : result json :=
  if Py.truthy column then
    match json_loads (default "" column) with
    | Some v => Ok v
    | None => Raise JSONDecodeError
    end
  else Ok (JArr []).

(** The body of the loops of [get_products] and [get_product]. *)
Definition to_product (r : row) : result product :=
  match decode_column (sizes r) with
  | Raise e => Raise e
  | Ok sz =>
      match decode_column (colors r) with
      | Raise e => Raise e
      | Ok cl =>
          match decode_column (images r) with
          | Raise e => Raise e
          | Ok im =>
              Ok {| p_id := rowid r; p_product_id := product_id r;
                    p_name := name r; p_type := type r;
                    p_category := category r; p_details := details r;
                    p_price := price r;
                    p_sizes := sz; p_colors := cl; p_images := im;
                    p_created_at := created_at r |}
          end
      end
  end.

Fixpoint to_products (l : list row) : result (list product) :=
  match l with
  | [] => Ok []
  | r :: rest =>
      match to_product r with
      | Raise e => Raise e
      | Ok p =>
          match to_products rest with
          | Raise e => Raise e
          | Ok ps => Ok (p :: ps)
          end
      end
  end.

(** [GET /api/products] *)
Definition get_products (ty : option string) (w : world)
    : result (list product) :=
  let selected :=
    if Py.truthy ty
    then List.filter (fun r => String.eqb (type r) (default "" ty)) (rows (db w))
    else rows (db w) in
  to_products (order_by_created_at_desc selected).

(** [GET /api/products/{product_id}] *)
Definition get_product (pid : string) (w : world) : result product :=
  match select_by_product_id pid (db w) with
  | None => not_found
  | Some r => to_product r
  end.

(** [POST /api/admin/products], once the form is bound; [now] is the
    clock at the insertion. *)
Definition create_product (f : form) (imgs : list UploadFile) (now : nat)
    (w : world) : world * result reply :=
  let pid := generate_product_id (db w) in
  let '(fs, saved) := save_images pid 0 imgs (files w) [] in
  match saved with
  | Raise e => ({| db := db w; files := fs |}, Raise e)
  | Ok image_paths =>
      match insert pid f (json_dumps (JArr (List.map JStr image_paths))) now
                   (db w) with
      | Ok t =>
          ({| db := t; files := fs |},
           Ok [("message", "Product created successfully");
               ("product_id", pid)])
      | Raise e => ({| db := db w; files := fs |}, Raise e)
      end
  end.

(** [PUT /api/admin/products/{product_id}], once the form is bound. *)
Definition update_product (pid : string) (f : form)
    (imgs : option (list UploadFile)) (existing_images : string) (w : world)
    : world * result reply :=
  match select_by_product_id pid (db w) with
  | None => (w, not_found)
  | Some _ =>
      match json_loads existing_images with
      | None => (w, Raise JSONDecodeError)
      | Some existing_image_list =>
          match py_copy existing_image_list with
          | Raise e => (w, Raise e)
          | Ok image_paths =>
              let '(fs, saved) :=
                if has_uploads imgs
                then save_new_images pid 0 (default [] imgs) (files w) image_paths
                else (files w, Ok image_paths) in
              match saved with
              | Raise e => ({| db := db w; files := fs |}, Raise e)
              | Ok image_paths' =>
                  match update pid f (json_dumps image_paths') (db w) with
                  | Raise e => ({| db := db w; files := fs |}, Raise e)
                  | Ok t =>
                      ({| db := t; files := fs |},
                       Ok [("message", "Product updated successfully");
                           ("product_id", pid)])
                  end
              end
          end
      end
  end.

(** [DELETE /api/admin/products/{product_id}].  The connection is open
    while the loop runs: when the loop unlinks the database file, the
    [DELETE] that follows raises [OperationalError] (the database has
    become read-only), and the table is gone with the file: the world
    keeps the rows the database held. *)
Definition delete_product (pid : string) (w : world) : world * result reply :=
  let removed :=
    match select_by_product_id pid (db w) with
    | None => Ok (files w, false)
    | Some r =>
        match images r with
        | None => Raise TypeError
        | Some text =>
            match json_loads text with
            | None => Raise JSONDecodeError
            | Some v =>
                match py_iter v with
                | Raise e => Raise e
                | Ok items =>
                    Ok (remove_images items (files w), database_unlinked items)
                end
            end
        end
    end in
  match removed with
  | Raise e => (w, Raise e)
  | Ok (fs, unlinked) =>
      if unlinked
      then ({| db := db w; files := fs |}, Raise OperationalError)
      else ({| db := delete_where pid (db w); files := fs |},
            Ok [("message", "Product deleted successfully")])
  end.

End Handlers.

(** ** The admin check and the binding of the create form *)

(** [ADMIN_USERNAME] and [ADMIN_PASSWORD], read from the environment when
    the module is loaded. *)
Record settings : Type := {
  ADMIN_USERNAME : string;
  ADMIN_PASSWORD : string
}.

Definition settings_of (environ : gmap string string) : settings :=
  {| ADMIN_USERNAME := default "rimu_admin" (environ !! "ADMIN_USERNAME");
     ADMIN_PASSWORD := default "rimu2024secure" (environ !! "ADMIN_PASSWORD") |}.

Record HTTPBasicCredentials : Type := {
  username : string;
  password : string
}.

Fixpoint is_ascii (s : string) : bool :=
  match s with
  | "" => true
  | String c rest => Nat.ltb (nat_of_ascii c) 128 && is_ascii rest
  end.

(** [secrets.compare_digest] on two [str]: both have to be ASCII. *)
Definition compare_digest (a b : string) : result bool :=
  if is_ascii a && is_ascii b then Ok (String.eqb a b) else Raise TypeError.

(** [verify_admin] *)
Definition verify_admin (cfg : settings) (credentials : HTTPBasicCredentials)
    : result string :=
  match compare_digest (username credentials) (ADMIN_USERNAME cfg) with
  | Raise e => Raise e
  | Ok correct_username =>
      match compare_digest (password credentials) (ADMIN_PASSWORD cfg) with
      | Raise e => Raise e
      | Ok correct_password =>
          if negb (correct_username && correct_password)
          then Raise (HTTPException 401 "Invalid credentials")
          else Ok (username credentials)
      end
  end.

(** The multipart body of a create request: a field is [None] when the
    request carries no value for it ([price]: no number), [r_images] are the
    parts named [images] that FastAPI hands over as upload files (what it
    does with a part that has no file name depends on its version). *)
Record create_request : Type := {
  r_name : option string;
  r_type : option string;
  r_category : option string;
  r_details : option string;
  r_price : option float;
  r_sizes : option string;
  r_colors : option string;
  r_images : list UploadFile
}.

(** FastAPI takes a form field sent with an empty value as one that was
    not sent. *)
Definition form_value (field : option string) : option string :=
  match field with
  | Some "" => None
  | _ => field
  end.

(** The signature of [create_product]: [Form(...)] and [File(...)] are
    required, [Form("[]")] has a default. *)
Definition bind_create (q : create_request) : result (form * list UploadFile) :=
  match form_value (r_name q), form_value (r_type q),
        form_value (r_category q), form_value (r_details q),
        r_price q, r_images q with
  | Some n, Some t, Some c, Some d, Some p, (_ :: _) as imgs =>
      Ok ({| f_name := n; f_type := t; f_category := c; f_details := d;
             f_price := p;
             f_sizes := default "[]" (form_value (r_sizes q));
             f_colors := default "[]" (form_value (r_colors q)) |}, imgs)
  | _, _, _, _, _, _ => Raise RequestValidationError
  end.

Section Endpoints.

Context {codec : JsonCodec} {host : Host}.

(** [POST /api/admin/products] as FastAPI serves it: the [verify_admin]
    dependency, then the form, then the handler. *)
Definition post_admin_products (cfg : settings)
    (auth : option HTTPBasicCredentials) (q : create_request) (now : nat)
    (w : world) : world * result reply :=
  match auth with
  | None => (w, Raise (HTTPException 401 "Not authenticated"))
  | Some credentials =>
      match verify_admin cfg credentials with
      | Raise e => (w, Raise e)
      | Ok _ =>
          match bind_create q with
          | Raise e => (w, Raise e)
          | Ok (f, imgs) => create_product f imgs now w
          end
      end
  end.

(** ** Sequences of admin calls, one after the other *)

Inductive call : Type :=
| Create (f : form) (imgs : list UploadFile) (now : nat)
| Update (pid : string) (f : form) (imgs : option (list UploadFile))
         (existing_images : string)
| Delete (pid : string).

Definition serve (c : call) (w : world) : world * result reply :=
  match c with
  | Create f imgs now => create_product f imgs now w
  | Update pid f imgs existing_images =>
      update_product pid f imgs existing_images w
  | Delete pid => delete_product pid w
  end.

(** The call lost the database. *)
Definition lost (r : result reply) : bool :=
  match r with
  | Raise OperationalError => true
  | _ => false
  end.

(** The world after the calls.  Once a call has lost the database every
    later one raises before it does anything, until the service is started
    again: the world stays as that call left it. *)
Fixpoint run (cs : list call) (w : world) : world :=
  match cs with
  | [] => w
  | c :: rest =>
      if lost (snd (serve c w)) then fst (serve c w)
      else run rest (fst (serve c w))
  end.

End Endpoints.

(** The multipart body of an update request, as that of a create request;
    [u_images] are the upload files of the parts named [images], none of
    them when the field is left out. *)
Record update_request : Type := {
  u_name : option string;
  u_type : option string;
  u_category : option string;
  u_details : option string;
  u_price : option float;
  u_sizes : option string;
  u_colors : option string;
  u_images : list UploadFile;
  u_existing_images : option string
}.

(** The signature of [update_product]: the five [Form(...)] fields are
    required, [images] is [File(None)], the rest default to ["[]"]. *)
Definition bind_update (q : update_request)
    : result (form * option (list UploadFile) * string) :=
  match form_value (u_name q), form_value (u_type q),
        form_value (u_category q), form_value (u_details q), u_price q with
  | Some n, Some t, Some c, Some d, Some p =>
      Ok ({| f_name := n; f_type := t; f_category := c; f_details := d;
             f_price := p;
             f_sizes := default "[]" (form_value (u_sizes q));
             f_colors := default "[]" (form_value (u_colors q)) |},
          match u_images q with
          | [] => None
          | parts => Some parts
          end,
          default "[]" (form_value (u_existing_images q)))
  | _, _, _, _, _ => Raise RequestValidationError
  end.

Section AdminRoutes.

Context {codec : JsonCodec} {host : Host}.

(** [PUT /api/admin/products/{product_id}] as FastAPI serves it. *)
Definition put_admin_products (cfg : settings)
    (auth : option HTTPBasicCredentials) (pid : string) (q : update_request)
    (w : world) : world * result reply :=
  match auth with
  | None => (w, Raise (HTTPException 401 "Not authenticated"))
  | Some credentials =>
      match verify_admin cfg credentials with
      | Raise e => (w, Raise e)
      | Ok _ =>
          match bind_update q with
          | Raise e => (w, Raise e)
          | Ok (f, imgs, existing_images) =>
              update_product pid f imgs existing_images w
          end
      end
  end.

(** [DELETE /api/admin/products/{product_id}] as FastAPI serves it. *)
Definition delete_admin_products (cfg : settings)
    (auth : option HTTPBasicCredentials) (pid : string) (w : world)
    : world * result reply :=
  match auth with
  | None => (w, Raise (HTTPException 401 "Not authenticated"))
  | Some credentials =>
      match verify_admin cfg credentials with
      | Raise e => (w, Raise e)
      | Ok _ => delete_product pid w
      end
  end.

End AdminRoutes.

(** The world after [init_db] on a fresh database, whatever files exist. *)
Definition fresh_world (fs : gmap string bytes) : world :=
  {| db := init_db; files := fs |}.

Definition product_ids (w : world) : list string :=
  List.map product_id (rows (db w)).

(** ** Vocabulary of the statements *)

(** The uploads a loop persists: those with a file name. *)
Definition named (imgs : list UploadFile) : list UploadFile :=
List.filter (fun image => Py.truthy (filename image)) imgs.

(** Writing the files [names], with the contents of [uploads], in order. *)
Definition write_all (names : list string) (uploads : list UploadFile)
  (fs : gmap string bytes) : gmap string bytes :=
List.fold_left (fun acc nu => <[filepath nu.1 := content nu.2]> acc)
               (List.combine names uploads) fs.

(** Every file of [names] opens for writing in [static/uploads]. *)
Definition all_open {host : Host} (names : list string) : Prop :=
List.Forall (fun fname => opens (filepath fname) = true) names.

(** The column [column] deserializes to [v]: the empty array when the
    stored value is absent or empty, what [json.loads] gives otherwise. *)
Definition decoded {codec : JsonCodec} (column : option string) (v : json)
  : Prop :=
match column with
| None => v = JArr []
| Some "" => v = JArr []
| Some text => json_loads text = Some v
end.

(** The product [p] is the row [r] with its arrays deserialized. *)
Definition shows {codec : JsonCodec} (r : row) (p : product) : Prop :=
p_id p = rowid r /\ p_product_id p = product_id r /\ p_name p = name r
/\ p_type p = type r /\ p_category p = category r /\ p_details p = details r
/\ p_price p = price r /\ p_created_at p = created_at r
/\ decoded (sizes r) (p_sizes p) /\ decoded (colors r) (p_colors p)
/\ decoded (images r) (p_images p).


(** What the loop of [delete_product] iterates over: [json.loads(row[0])]. *)
Definition image_items {codec : JsonCodec} (r : row) : result (list json) :=
match images r with
| None => Raise TypeError
| Some text =>
    match json_loads text with
    | None => Raise JSONDecodeError
    | Some v => py_iter v
    end
end.

(** The paths [delete_product] hands to [os.remove]. *)
Fixpoint removal_targets (items : list json) : list string :=
match items with
| [] => []
| JStr p :: rest => Py.lstrip "/"%char p :: removal_targets rest
| _ :: rest => removal_targets rest
end.

(** [n] slashes. *)
Fixpoint slashes (n : nat) : string :=
  match n with
  | O => ""
  | S n' => String "/" (slashes n')
  end.

(** [q] is [p] without its leading slashes. *)
Definition stripped (p q : string) : Prop :=
(exists n, p = slashes n +:+ q) /\ String.prefix "/" q = false.


(** The strings a loop over the list or the dict [v] meets. *)
Definition listed (v : json) (p : string) : Prop :=
match v with
| JArr items => List.In (JStr p) items
| JObj members => List.In p (List.map fst members)
| _ => False
end.

(** Some string of [v], without its leading slashes, is a path whose
    [os.remove] unlinks [file]. *)
Definition unlinks {host : Host} (v : json) (file : string) : Prop :=
exists p q, listed v p /\ stripped p q /\ target q = Some file.

(** A Python list or dict. *)
Definition container (v : json) : bool :=
match v with
| JArr _ | JObj _ => true
| _ => false
end.

(** [enumerate(imgs)], counting from [start]. *)
Definition enumerate (start : nat) (imgs : list UploadFile)
  : list (nat * UploadFile) :=
List.combine (List.seq start (List.length imgs)) imgs.

(** The batch positions and uploads that carry a file name. *)
Definition named_at (start : nat) (imgs : list UploadFile)
  : list (nat * UploadFile) :=
List.filter (fun iu => Py.truthy (filename iu.2)) (enumerate start imgs).

(** The file names of a create: the position in the batch is the index. *)
Definition numbered (pid : string) (imgs : list UploadFile) : list string :=
List.map (fun iu => upload_name pid iu.1 iu.2) (named_at 0 imgs).

(** The file names of an update that retains [r] images: the [k]-th
    persisted upload, at position [i] of the batch, has index [r + k + i]. *)
Definition renumbered (pid : string) (r : nat) (imgs : list UploadFile)
  : list string :=
List.map (fun kiu => upload_name pid (r + kiu.1 + kiu.2.1) kiu.2.2)
         (List.combine (List.seq 0 (List.length (named_at 0 imgs)))
                       (named_at 0 imgs)).

(** The part of a file name after its last dot, the whole name without
    one: [filename.split('.')[-1]]. *)
Definition extension (fname : string) : string :=
Py.last_item (Py.split "."%char fname).

Fixpoint has_dot (s : string) : bool :=
match s with
| "" => false
| String c rest => Ascii.eqb c "."%char || has_dot rest
end.

(** The form [f] with other [sizes] and [colors]. *)
Definition with_arrays (f : form) (sz cl : string) : form :=
{| f_name := f_name f; f_type := f_type f; f_category := f_category f;
   f_details := f_details f; f_price := f_price f;
   f_sizes := sz; f_colors := cl |}.

(** ** Worlds and requests to run the handlers on *)

Definition tee : form :=
{| f_name := "Tee"; f_type := "apparel"; f_category := "tops";
   f_details := "Cotton tee"; f_price := 19.99%float;
   f_sizes := "[]"; f_colors := "[]" |}.

Definition boot : form :=
{| f_name := "Boot"; f_type := "shoes"; f_category := "winter";
   f_details := "Leather boot"; f_price := 89.5%float;
   f_sizes := "[]"; f_colors := "[]" |}.

Definition front_jpg : UploadFile :=
{| filename := Some "front.jpg"; content := [Byte.x01; Byte.x02] |}.

Definition side_png : UploadFile :=
{| filename := Some "side.png"; content := [Byte.x03] |}.

Definition back_png : UploadFile :=
{| filename := Some "back.png"; content := [Byte.x04] |}.

(** An upload file without a file name. *)
Definition blank_part : UploadFile :=
{| filename := Some ""; content := [] |}.

(** The text [["/static/uploads/RW0001_0.jpg"]]. *)
Definition keep_first : string :=
"[" +:+ PyJson.quote "/static/uploads/RW0001_0.jpg" +:+ "]".


(** An upload whose file name has a slash after its last dot. *)
Definition nested_jpg : UploadFile :=
{| filename := Some "front.d/x"; content := [Byte.x05] |}.

(** The form of [tee] with a price that is no number. *)
Definition tee_nan : form :=
{| f_name := "Tee"; f_type := "apparel"; f_category := "tops";
   f_details := "Cotton tee"; f_price := PrimFloat.nan;
   f_sizes := "[]"; f_colors := "[]" |}.

(** One product, [RW0001], with one image. *)
Definition one_tee : world :=
fst (create_product tee [front_jpg] 100 (fresh_world ∅)).

(** Three products created at times 100, 200 and 300. *)
Definition three_products : world :=
run [Create tee [blank_part] 100; Create boot [front_jpg] 200;
     Create boot [blank_part] 300] (fresh_world ∅).

Definition admin : HTTPBasicCredentials :=
{| username := "rimu_admin"; password := "rimu2024secure" |}.

(** The request of the scenario: name, type and price, nothing else. *)
Definition tee_only : create_request :=
{| r_name := Some "Tee"; r_type := Some "apparel"; r_category := None;
   r_details := None; r_price := Some 19.99%float;
   r_sizes := None; r_colors := None; r_images := [] |}.

(** The same with details and an upload file, still no category. *)
Definition tee_without_category : create_request :=
{| r_name := Some "Tee"; r_type := Some "apparel"; r_category := None;
   r_details := Some "Cotton tee"; r_price := Some 19.99%float;
   r_sizes := None; r_colors := None; r_images := [blank_part] |}.

Definition wrong_admin : HTTPBasicCredentials :=
{| username := "rimu_admin"; password := "guess" |}.

(** One product, [RW0001], with two images. *)
Definition two_images : world :=
fst (create_product tee [front_jpg; side_png] 100 (fresh_world ∅)).

(** The text [["/static/uploads/RW0001_1.png"]]. *)
Definition keep_second : string :=
"[" +:+ PyJson.quote "/static/uploads/RW0001_1.png" +:+ "]".

(** An update request with every required field and nothing else. *)
Definition plain_update : update_request :=
{| u_name := Some "Tee"; u_type := Some "apparel"; u_category := Some "tops";
   u_details := Some "Cotton tee"; u_price := Some 19.99%float;
   u_sizes := None; u_colors := None; u_images := [];
   u_existing_images := None |}.

(** The row of [one_tee]. *)
Definition tee_row : row :=
{| rowid := 1; product_id := "RW0001"; name := "Tee"; type := "apparel";
   category := Some "tops"; details := Some "Cotton tee";
   price := 19.99%float; sizes := Some "[]"; colors := Some "[]";
   images := Some keep_first; created_at := 100 |}.

(** * Properties *)

(** ** The codec: what [dumps] writes, [loads] reads back *)

Module PyJsonFacts.

Import PyJson.

Lemma append_cons (x : ascii) (a b : string) :
  String x a +:+ b = String x (a +:+ b).
Proof. reflexivity. Qed.

Lemma append_assoc (a b c : string) : (a +:+ b) +:+ c = a +:+ (b +:+ c).
Proof.
  induction a as [|x a IH]; [reflexivity|].
  now rewrite !append_cons, IH.
Qed.

Lemma append_nil_r (a : string) : a +:+ "" = a.
Proof. induction a as [|x a IH]; [reflexivity|]. now rewrite append_cons, IH. Qed.

Lemma length_append (a b : string) :
  String.length (a +:+ b) = String.length a + String.length b.
Proof.
  induction a as [|x a IH]; [reflexivity|].
  rewrite append_cons. cbn. now rewrite IH.
Qed.

Lemma scan_string_escape_char (c : ascii) (tail : string) :
  scan_string (escape_char c +:+ tail)
  = match scan_string tail with
    | Some (body, after) => Some (String c body, after)
    | None => None
    end.
Proof.
  destruct c as [[] [] [] [] [] [] [] []]; reflexivity.
Qed.

Lemma scan_string_escape (s rest : string) :
  scan_string (escape s +:+ String dquote rest) = Some (s, rest).
Proof.
  induction s as [|c s IH]; cbn [escape].
  - reflexivity.
  - rewrite append_assoc, scan_string_escape_char, IH. reflexivity.
Qed.


Lemma ends_token_cases (rest : string) :
  ends_token rest = true ->
  rest = "" \/ exists c tail, rest = String c tail
                             /\ (c = "," \/ c = "]" \/ c = "}")%char.
Proof.
  destruct rest as [|c tail]; [now left|]. cbn. intros H. right.
  exists c, tail. split; [reflexivity|].
  apply Bool.orb_true_iff in H. destruct H as [H|H].
  - apply Bool.orb_true_iff in H. destruct H as [H|H];
      apply Ascii.eqb_eq in H; tauto.
  - apply Ascii.eqb_eq in H. tauto.
Qed.

Lemma ends_token_scan (rest : string) :
  ends_token rest = true ->
  scan_digits rest = ("", rest) /\ goes_on rest = false /\ skip_ws rest = rest.
Proof.
  intros H. destruct (ends_token_cases rest H) as [-> | (c & tail & -> & Hc)].
  - repeat split.
  - destruct Hc as [-> | [-> | ->]]; repeat split.
Qed.

Lemma is_digit_plain (c : ascii) :
  is_digit c = true ->
  Ascii.eqb c "[" = false /\ Ascii.eqb c "{" = false /\ Ascii.eqb c "-" = false
  /\ Ascii.eqb c dquote = false /\ is_ws c = false
  /\ Ascii.eqb c "]" = false /\ Ascii.eqb c "}" = false.
Proof.
  destruct c as [[] [] [] [] [] [] [] []]; cbn; intros H;
    try discriminate H; repeat split.
Qed.

Lemma scan_digits_all (ds rest : string) :
  all_digits ds = true -> ends_token rest = true ->
  scan_digits (ds +:+ rest) = (ds, rest).
Proof.
  intros Hds Hrest. induction ds as [|c ds IH].
  - apply (ends_token_scan rest Hrest).
  - cbn in Hds. apply Bool.andb_true_iff in Hds. destruct Hds as [Hc Hds].
    rewrite append_cons. cbn [scan_digits]. rewrite Hc, (IH Hds). reflexivity.
Qed.

Lemma scan_int_shape (ds rest : string) :
  all_digits ds = true -> int_shape ds = true -> ends_token rest = true ->
  scan_int (ds +:+ rest) = Some (ds, rest).
Proof.
  intros Hds Hshape Hrest. unfold scan_int.
  rewrite (scan_digits_all _ _ Hds Hrest), Hshape.
  destruct (ends_token_scan rest Hrest) as (_ & -> & _). reflexivity.
Qed.

Lemma cost_pos (v : json) : 1 <= cost v.
Proof. destruct v; cbn; lia. Qed.

Lemma dumps_starts_value (v : json) : wf v = true -> starts_value (dumps v).
Proof.
  unfold starts_value. destruct v as [|[]|r|s|l|m]; cbn [wf dumps]; intros Hwf.
  - exists "n"%char, "ull". repeat split.
  - exists "t"%char, "rue". repeat split.
  - exists "f"%char, "alse". repeat split.
  - destruct r as [|c ds]; [discriminate|]. exists c, ds. split; [reflexivity|].
    cbn in Hwf. destruct (Ascii.eqb c "-") eqn:E.
    + apply Ascii.eqb_eq in E. subst c. repeat split.
    + apply Bool.andb_true_iff in Hwf. destruct Hwf as [Hd _].
      apply Bool.andb_true_iff in Hd. destruct Hd as [Hc _].
      destruct (is_digit_plain c Hc) as (_ & _ & _ & _ & ? & ? & ?). tauto.
  - unfold quote. eexists _, _. split; [reflexivity|]. repeat split.
  - eexists _, _. split; [reflexivity|]. repeat split.
  - eexists _, _. split; [reflexivity|]. repeat split.
Qed.

Lemma skip_ws_starts_value (s rest : string) :
  starts_value s -> skip_ws (s +:+ rest) = s +:+ rest.
Proof.
  intros (c & tail & -> & Hws & _). rewrite append_cons. cbn. now rewrite Hws.
Qed.

Lemma skip_ws_space (s : string) : skip_ws (String " " s) = skip_ws s.
Proof. reflexivity. Qed.

Lemma join_cons2 (sep x y : string) (l : list string) :
  join sep (x :: y :: l) = x +:+ sep +:+ join sep (y :: l).
Proof. reflexivity. Qed.

Lemma join_starts_value (v : json) (l : list json) :
  wf v = true -> starts_value (join ", " (List.map dumps (v :: l))).
Proof.
  intros Hwf. destruct (dumps_starts_value v Hwf) as (c & tail & E & H).
  destruct l as [|y l]; cbn [List.map].
  - cbn [join]. rewrite E. now exists c, tail.
  - rewrite join_cons2, E, append_cons. eexists _, _. split; [reflexivity | exact H].
Qed.

(** One step of the loops of the parser. *)

Lemma parse_items_last (f : nat) (s rest : string) (v : json) :
  parse_value f s = Some (v, String "]" rest) ->
  parse_items (S f) s = Some ([v], rest).
Proof. intros H. cbn [parse_items]. rewrite H. reflexivity. Qed.

Lemma parse_items_more (f : nat) (s tail rest : string) (v : json)
    (l : list json) :
  parse_value f s = Some (v, String "," (String " " tail)) ->
  parse_items f (skip_ws tail) = Some (l, rest) ->
  parse_items (S f) s = Some (v :: l, rest).
Proof.
  intros H1 H2. cbn [parse_items]. rewrite H1.
  change (skip_ws (String "," (String " " tail)))
    with (String "," (String " " tail)).
  change (Ascii.eqb "," "]") with false. change (Ascii.eqb "," ",") with true.
  cbv iota. rewrite skip_ws_space, H2. reflexivity.
Qed.

Lemma member_text_shape (k tail : string) :
  quote k +:+ ": " +:+ tail
  = String dquote (escape k +:+ String dquote (String ":" (String " " tail))).
Proof. unfold quote. rewrite append_cons, append_assoc. reflexivity. Qed.

Lemma parse_members_last (f : nat) (k tail rest : string) (v : json)
    (acc : list (string * json)) :
  parse_value f (skip_ws tail) = Some (v, String "}" rest) ->
  parse_members (S f) (quote k +:+ ": " +:+ tail) acc
  = Some (set_member k v acc, rest).
Proof.
  intros H. rewrite member_text_shape. cbn [parse_members].
  rewrite Ascii.eqb_refl, scan_string_escape.
  change (skip_ws (String ":" (String " " tail)))
    with (String ":" (String " " tail)).
  cbv iota. rewrite Ascii.eqb_refl, skip_ws_space, H. reflexivity.
Qed.

Lemma parse_members_more (f : nat) (k tail tail' rest : string) (v : json)
    (acc m : list (string * json)) :
  parse_value f (skip_ws tail) = Some (v, String "," (String " " tail')) ->
  parse_members f (skip_ws tail') (set_member k v acc) = Some (m, rest) ->
  parse_members (S f) (quote k +:+ ": " +:+ tail) acc = Some (m, rest).
Proof.
  intros H1 H2. rewrite member_text_shape. cbn [parse_members].
  rewrite Ascii.eqb_refl, scan_string_escape.
  change (skip_ws (String ":" (String " " tail)))
    with (String ":" (String " " tail)).
  cbv iota. rewrite Ascii.eqb_refl, skip_ws_space, H1.
  change (skip_ws (String "," (String " " tail')))
    with (String "," (String " " tail')).
  change (Ascii.eqb "," "}") with false. change (Ascii.eqb "," ",") with true.
  cbv iota zeta. rewrite skip_ws_space. exact H2.
Qed.

Lemma set_member_fresh (k : string) (v : json) (acc : list (string * json)) :
  ~ List.In k (List.map fst acc) -> set_member k v acc = acc ++ [(k, v)].
Proof.
  induction acc as [|[k' v'] acc IH]; cbn; intros Hno; [reflexivity|].
  destruct (String.eqb k' k) eqn:E.
  - apply String.eqb_eq in E. tauto.
  - f_equal. apply IH. tauto.
Qed.

Lemma distinct_NoDup (keys : list string) :
  distinct keys = true <-> List.NoDup keys.
Proof.
  induction keys as [|k rest IH]; cbn.
  - split; [constructor | reflexivity].
  - rewrite Bool.andb_true_iff, Bool.negb_true_iff, IH. split.
    + intros [Hk Hrest]. constructor; [|exact Hrest]. intros Hin.
      assert (List.existsb (String.eqb k) rest = true); [|congruence].
      apply List.existsb_exists. exists k. split; [exact Hin | apply String.eqb_refl].
    + intros H. inversion H as [|? ? Hk Hrest]; subst. split; [|exact Hrest].
      destruct (List.existsb (String.eqb k) rest) eqn:E; [|reflexivity].
      apply List.existsb_exists in E. destruct E as (x & Hin & E).
      apply String.eqb_eq in E. subst x. contradiction.
Qed.

Lemma member_starts_value (kv : string * json) (m : list (string * json)) :
  starts_value (join ", " (List.map member_text (kv :: m))).
Proof.
  destruct m as [|y m]; cbn [List.map].
  - cbn [join]. unfold member_text, quote. rewrite append_cons.
    eexists _, _. split; [reflexivity|]. repeat split.
  - rewrite join_cons2. unfold member_text at 1. unfold quote.
    rewrite !append_cons. eexists _, _. split; [reflexivity|]. repeat split.
Qed.

Section RoundTrip.

Variable F : nat.
Hypothesis parse_below :
  forall f, f < F -> forall v rest,
    wf v = true -> cost v <= f -> ends_token rest = true ->
    parse_value f (dumps v +:+ rest) = Some (v, rest).

Lemma parse_items_dumps (l : list json) :
  forall f rest, f <= F -> l <> [] -> List.forallb wf l = true ->
    list_sum (List.map (fun e => S (cost e)) l) <= f ->
    parse_items f (join ", " (List.map dumps l) +:+ String "]" rest)
    = Some (l, rest).
Proof.
  induction l as [|e l IH]; intros f rest Hf Hne Hwf Hcost; [contradiction|].
  cbn [List.forallb] in Hwf. apply Bool.andb_true_iff in Hwf.
  destruct Hwf as [He Hl]. cbn [List.map] in Hcost.
  change (list_sum (?a :: ?b)) with (a + list_sum b) in Hcost.
  destruct f as [|f]; [lia|].
  destruct l as [|y l].
  - apply parse_items_last. cbn [List.map join].
    apply parse_below; first [lia | assumption | reflexivity].
  - assert (Hy : wf y = true).
    { cbn in Hl. now apply Bool.andb_true_iff in Hl. }
    apply parse_items_more
      with (tail := join ", " (List.map dumps (y :: l)) +:+ String "]" rest).
    + cbn [List.map]. rewrite join_cons2, !append_assoc.
      apply parse_below; first [lia | assumption | reflexivity].
    + rewrite (skip_ws_starts_value _ _ (join_starts_value y l Hy)).
      apply IH; [lia | discriminate | exact Hl | lia].
Qed.


Lemma parse_members_dumps (m : list (string * json)) :
  forall f rest acc, f <= F -> m <> [] ->
    List.forallb (fun kv => wf (snd kv)) m = true ->
    List.NoDup (List.map fst acc ++ List.map fst m) ->
    list_sum (List.map (fun kv => S (cost (snd kv))) m) <= f ->
    parse_members f (join ", " (List.map member_text m) +:+ String "}" rest) acc
    = Some (acc ++ m, rest).
Proof.
  induction m as [|[k v] m IH]; intros f rest acc Hf Hne Hwf Hnd Hcost;
    [contradiction|].
  cbn [List.forallb snd] in Hwf. apply Bool.andb_true_iff in Hwf.
  destruct Hwf as [Hv Hm]. cbn [List.map snd] in Hcost.
  change (list_sum (?a :: ?b)) with (a + list_sum b) in Hcost.
  cbn [List.map fst] in Hnd.
  assert (Hfresh : ~ List.In k (List.map fst acc)).
  { apply List.NoDup_remove_2 in Hnd. intros Hin. apply Hnd.
    apply List.in_or_app. now left. }
  destruct f as [|f]; [lia|].
  destruct m as [|y m].
  - cbn [List.map join]. unfold member_text. cbn [fst snd].
    rewrite !append_assoc, <- (set_member_fresh k v acc Hfresh).
    apply parse_members_last.
    rewrite (skip_ws_starts_value _ _ (dumps_starts_value v Hv)).
    apply parse_below; first [lia | assumption | reflexivity].
  - cbn [List.map]. rewrite join_cons2. unfold member_text at 1. cbn [fst snd].
    rewrite !append_assoc.
    apply parse_members_more
      with (v := v)
           (tail' := join ", " (List.map member_text (y :: m)) +:+ String "}" rest).
    + rewrite (skip_ws_starts_value _ _ (dumps_starts_value v Hv)).
      apply parse_below; first [lia | assumption | reflexivity].
    + rewrite (skip_ws_starts_value _ _ (member_starts_value y m)).
      rewrite (set_member_fresh k v acc Hfresh).
      replace (acc ++ (k, v) :: y :: m) with ((acc ++ [(k, v)]) ++ y :: m)
        by (now rewrite <- List.app_assoc).
      apply IH; [lia | discriminate | exact Hm | | lia].
      rewrite List.map_app, <- List.app_assoc. exact Hnd.
Qed.

End RoundTrip.

Lemma parse_value_dumps (fuel : nat) :
  forall v rest, wf v = true -> cost v <= fuel -> ends_token rest = true ->
    parse_value fuel (dumps v +:+ rest) = Some (v, rest).
Proof.
  induction fuel as [fuel IH] using lt_wf_ind. intros v rest Hwf Hcost Hrest.
  destruct fuel as [|f]; [pose proof (cost_pos v); lia|].
  destruct v as [|[]|r|s|l|m].
  - reflexivity.
  - reflexivity.
  - reflexivity.
  - cbn [dumps]. cbn [wf] in Hwf. destruct r as [|c ds]; [discriminate|].
    unfold int_repr in Hwf. rewrite append_cons. cbn [parse_value].
    destruct (Ascii.eqb c "-") eqn:E.
    + apply Ascii.eqb_eq in E. subst c.
      apply Bool.andb_true_iff in Hwf. destruct Hwf as [Hwf Hz].
      apply Bool.andb_true_iff in Hwf. destruct Hwf as [Hd Hs].
      apply Bool.negb_true_iff in Hz.
      change (Ascii.eqb "-" "[") with false. change (Ascii.eqb "-" "{") with false.
      cbv iota. rewrite (scan_int_shape _ _ Hd Hs Hrest), Hz. reflexivity.
    + apply Bool.andb_true_iff in Hwf. destruct Hwf as [Hd Hs].
      pose proof Hd as Hd'. cbn [all_digits] in Hd'.
      apply Bool.andb_true_iff in Hd'. destruct Hd' as [Hc _].
      destruct (is_digit_plain c Hc) as (-> & -> & _ & -> & _).
      rewrite Hc. rewrite <- append_cons.
      rewrite (scan_int_shape _ _ Hd Hs Hrest). reflexivity.
  - cbn [dumps]. unfold quote. rewrite append_cons, append_assoc.
    cbn [parse_value].
    change (Ascii.eqb dquote "[") with false.
    change (Ascii.eqb dquote "{") with false.
    change (Ascii.eqb dquote "-") with false.
    rewrite Ascii.eqb_refl. cbv iota.
    rewrite append_cons, scan_string_escape. reflexivity.
  - cbn [dumps]. cbn [cost] in Hcost. cbn [wf] in Hwf.
    destruct l as [|e l]; [reflexivity|].
    rewrite !append_assoc. change ("[" +:+ ?x) with (String "[" x).
    change ("]" +:+ rest) with (String "]" rest).
    cbn [parse_value]. rewrite Ascii.eqb_refl.
    assert (He : wf e = true).
    { cbn in Hwf. now apply Bool.andb_true_iff in Hwf. }
    rewrite (skip_ws_starts_value _ _ (join_starts_value e l He)).
    destruct (join_starts_value e l He) as (c & tail & E & _ & Hc & _).
    rewrite E. rewrite append_cons, Hc. rewrite <- append_cons, <- E.
    rewrite (parse_items_dumps f); [reflexivity | | lia | discriminate | exact Hwf | lia].
    intros f' Hf'. apply IH. lia.
  - cbn [dumps]. cbn [cost] in Hcost. cbn [wf] in Hwf.
    apply Bool.andb_true_iff in Hwf. destruct Hwf as [Hkeys Hwf].
    destruct m as [|kv m]; [reflexivity|].
    rewrite !append_assoc. change ("{" +:+ ?x) with (String "{" x).
    change ("}" +:+ rest) with (String "}" rest).
    cbn [parse_value].
    change (Ascii.eqb "{" "[") with false. rewrite Ascii.eqb_refl. cbv iota.
    change (fun kv0 : string * json => quote (fst kv0) +:+ ": " +:+ dumps (snd kv0))
      with member_text.
    rewrite (skip_ws_starts_value _ _ (member_starts_value kv m)).
    destruct (member_starts_value kv m) as (c & tail & E & _ & _ & Hc).
    rewrite E. rewrite append_cons, Hc. rewrite <- append_cons, <- E.
    rewrite (parse_members_dumps f);
      [reflexivity | | lia | discriminate | exact Hwf | | lia].
    + intros f' Hf'. apply IH. lia.
    + cbn [List.map List.app]. now apply distinct_NoDup.
Qed.

(** Induction on a value with the hypothesis for every item below it. *)
Lemma json_deep_ind (P : json -> Prop)
    (Hnull : P JNull) (Hbool : forall b, P (JBool b))
    (Hnum : forall r, P (JNum r)) (Hstr : forall s, P (JStr s))
    (Harr : forall l, List.Forall P l -> P (JArr l))
    (Hobj : forall m, List.Forall (fun kv => P (snd kv)) m -> P (JObj m)) :
  forall v, P v.
Proof.
  exact (fix go (v : json) : P v :=
           match v with
           | JNull => Hnull
           | JBool b => Hbool b
           | JNum r => Hnum r
           | JStr s => Hstr s
           | JArr l =>
               Harr l ((fix all (l : list json) : List.Forall P l :=
                          match l with
                          | [] => @List.Forall_nil _ P
                          | e :: l' => @List.Forall_cons _ P e l' (go e) (all l')
                          end) l)
           | JObj m =>
               Hobj m ((fix all (m : list (string * json))
                          : List.Forall (fun kv => P (snd kv)) m :=
                          match m with
                          | [] => @List.Forall_nil _ _
                          | kv :: m' =>
                              @List.Forall_cons _ (fun kv => P (snd kv)) kv m'
                                (go (snd kv)) (all m')
                          end) m)
           end).
Qed.

Lemma join_length_items (l : list json) :
  List.Forall (fun v => wf v = true -> cost v <= String.length (dumps v)) l ->
  List.forallb wf l = true ->
  list_sum (List.map (fun e => S (cost e)) l)
  <= String.length (join ", " (List.map dumps l)) + 1.
Proof.
  induction 1 as [|e l He Hl IH]; intros Hwf; [cbn; lia|].
  cbn [List.forallb] in Hwf. apply Bool.andb_true_iff in Hwf.
  destruct Hwf as [Hwe Hwl]. cbn [List.map].
  change (list_sum (?a :: ?b)) with (a + list_sum b).
  specialize (He Hwe). specialize (IH Hwl). destruct l as [|y l].
  - cbn [List.map join]. cbn. lia.
  - cbn [List.map] in *. rewrite join_cons2, !length_append. cbn [String.length].
    lia.
Qed.

Lemma join_length_members (m : list (string * json)) :
  List.Forall (fun kv => wf (snd kv) = true ->
                         cost (snd kv) <= String.length (dumps (snd kv))) m ->
  List.forallb (fun kv => wf (snd kv)) m = true ->
  list_sum (List.map (fun kv => S (cost (snd kv))) m)
  <= String.length (join ", " (List.map member_text m)) + 1.
Proof.
  induction 1 as [|kv m He Hl IH]; intros Hwf; [cbn; lia|].
  cbn [List.forallb] in Hwf. apply Bool.andb_true_iff in Hwf.
  destruct Hwf as [Hwe Hwl]. cbn [List.map].
  change (list_sum (?a :: ?b)) with (a + list_sum b).
  specialize (He Hwe). specialize (IH Hwl).
  assert (Hkv : String.length (dumps (snd kv)) + 2 <= String.length (member_text kv)).
  { unfold member_text. rewrite !length_append. cbn [String.length]. lia. }
  destruct m as [|y m].
  - cbn [List.map join]. cbn [list_sum List.fold_right]. lia.
  - cbn [List.map] in *. rewrite join_cons2, !length_append. cbn [String.length].
    lia.
Qed.

Lemma cost_le_length (v : json) :
  wf v = true -> cost v <= String.length (dumps v).
Proof.
  induction v as [|b|r|s|l IH|m IH] using json_deep_ind; intros Hwf.
  - cbn. lia.
  - destruct b; cbn; lia.
  - destruct r; [discriminate | cbn; lia].
  - cbn. lia.
  - cbn [cost dumps]. cbn [wf] in Hwf. rewrite !length_append.
    pose proof (join_length_items l IH Hwf). cbn [String.length]. lia.
  - cbn [cost dumps]. cbn [wf] in Hwf. apply Bool.andb_true_iff in Hwf.
    destruct Hwf as [_ Hwf]. rewrite !length_append.
    pose proof (join_length_members m IH Hwf).
    change (fun kv : string * json => quote (fst kv) +:+ ": " +:+ dumps (snd kv))
      with member_text.
    cbn [String.length]. lia.
Qed.

(** What [dumps] writes, [loads] reads back. *)
Lemma loads_dumps (v : json) : wf v = true -> loads (dumps v) = Some v.
Proof.
  intros Hwf. unfold loads.
  pose proof (skip_ws_starts_value (dumps v) "" (dumps_starts_value v Hwf)) as Hs.
  rewrite append_nil_r in Hs. rewrite Hs.
  rewrite <- (append_nil_r (dumps v)) at 2.
  rewrite parse_value_dumps; [reflexivity | exact Hwf | | reflexivity].
  pose proof (cost_le_length v Hwf). lia.
Qed.

(** What [loads] returns is well formed. *)

Lemma scan_digits_digits (s ds after : string) :
  scan_digits s = (ds, after) -> all_digits ds = true.
Proof.
  revert ds after. induction s as [|c s IH]; cbn; intros ds after.
  - now intros [= <- _].
  - destruct (is_digit c) eqn:E.
    + destruct (scan_digits s) as [ds' after']. intros [= <- _].
      cbn. rewrite E. now apply (IH ds' after').
    + now intros [= <- _].
Qed.

Lemma scan_int_wf (s ds after : string) :
  scan_int s = Some (ds, after) -> all_digits ds = true /\ int_shape ds = true.
Proof.
  unfold scan_int. destruct (scan_digits s) as [ds' after'] eqn:E.
  destruct (int_shape ds') eqn:Hs; [|discriminate].
  destruct (goes_on after'); [discriminate|]. cbn. intros [= <- _].
  split; [now apply (scan_digits_digits s ds' after') | exact Hs].
Qed.

Lemma int_repr_digits (ds : string) :
  all_digits ds = true -> int_shape ds = true -> int_repr ds = true.
Proof.
  intros Hd Hs. destruct ds as [|c ds]; [discriminate|]. unfold int_repr.
  pose proof Hd as Hc. cbn in Hc. apply Bool.andb_true_iff in Hc.
  destruct (is_digit_plain c (proj1 Hc)) as (_ & _ & -> & _).
  now rewrite Hd, Hs.
Qed.

Lemma set_member_wf (k : string) (v : json) (acc : list (string * json)) :
  wf v = true ->
  List.NoDup (List.map fst acc) ->
  List.forallb (fun kv => wf (snd kv)) acc = true ->
  List.NoDup (List.map fst (set_member k v acc))
  /\ List.forallb (fun kv => wf (snd kv)) (set_member k v acc) = true.
Proof.
  intros Hv. induction acc as [|[k' v'] acc IH]; cbn; intros Hnd Hwf.
  - split; [repeat constructor; tauto | now rewrite Hv].
  - apply Bool.andb_true_iff in Hwf. destruct Hwf as [Hv' Hwf].
    inversion Hnd as [|? ? Hk' Hnd']; subst.
    destruct (String.eqb k' k) eqn:E; cbn.
    + split; [exact Hnd | now rewrite Hv, Hwf].
    + destruct (IH Hnd' Hwf) as [IH1 IH2]. rewrite Hv', IH2. split; [|reflexivity].
      constructor; [|exact IH1]. intros Hin. apply Hk'.
      clear - Hin E. induction acc as [|[k2 v2] acc IHa]; cbn in *.
      { destruct Hin as [<- | []]. rewrite String.eqb_refl in E. discriminate. }
      destruct (String.eqb k2 k) eqn:E2; cbn in Hin; [exact Hin|].
      destruct Hin as [<- | Hin]; [now left|]. right. apply IHa. exact Hin.
Qed.

Lemma parse_wf (fuel : nat) :
  (forall s v rest, parse_value fuel s = Some (v, rest) -> wf v = true)
  /\ (forall s l rest, parse_items fuel s = Some (l, rest) ->
                       List.forallb wf l = true)
  /\ (forall s acc m rest,
        parse_members fuel s acc = Some (m, rest) ->
        List.NoDup (List.map fst acc) ->
        List.forallb (fun kv => wf (snd kv)) acc = true ->
        List.NoDup (List.map fst m)
        /\ List.forallb (fun kv => wf (snd kv)) m = true).
Proof.
  induction fuel as [|f (IHv & IHi & IHm)].
  - repeat split; discriminate.
  - split; [|split].
    + intros s v rest. cbn [parse_value]. destruct s as [|c s]; [discriminate|].
      destruct (Ascii.eqb c "[").
      { destruct (skip_ws s) as [|d after] eqn:E; [discriminate|].
        destruct (Ascii.eqb d "]"); [now intros [= <- _]|].
        destruct (parse_items f (String d after)) as [[l after']|] eqn:Hl;
          [|discriminate].
        intros [= <- _]. cbn. eapply IHi. exact Hl. }
      destruct (Ascii.eqb c "{").
      { destruct (skip_ws s) as [|d after] eqn:E; [discriminate|].
        destruct (Ascii.eqb d "}"); [now intros [= <- _]|].
        destruct (parse_members f (String d after) []) as [[m after']|] eqn:Hm;
          [|discriminate].
        intros [= <- _]. cbn.
        destruct (IHm _ _ _ _ Hm) as [H1 H2]; [constructor | reflexivity |].
        apply distinct_NoDup in H1. now rewrite H1, H2. }
      destruct (Ascii.eqb c "-").
      { destruct (scan_int s) as [[ds after]|] eqn:E; [|discriminate].
        destruct (scan_int_wf _ _ _ E) as [Hd Hs].
        destruct (String.eqb ds "0") eqn:Z; intros [= <- _]; [reflexivity|].
        cbn. now rewrite Hd, Hs, Z. }
      destruct (Ascii.eqb c dquote).
      { destruct (scan_string s) as [[body after]|]; [|discriminate].
        now intros [= <- _]. }
      destruct (is_digit c).
      { destruct (scan_int (String c s)) as [[ds after]|] eqn:E; [|discriminate].
        destruct (scan_int_wf _ _ _ E) as [Hd Hs]. intros [= <- _].
        cbn [wf]. now apply int_repr_digits. }
      destruct (strip_prefix "null" (String c s)); [now intros [= <- _]|].
      destruct (strip_prefix "true" (String c s)); [now intros [= <- _]|].
      destruct (strip_prefix "false" (String c s)); [now intros [= <- _]|].
      discriminate.
    + intros s l rest. cbn [parse_items].
      destruct (parse_value f s) as [[v after]|] eqn:Hv; [|discriminate].
      apply IHv in Hv.
      destruct (skip_ws after) as [|d after']; [discriminate|].
      destruct (Ascii.eqb d "]"); [intros [= <- _]; cbn; now rewrite Hv|].
      destruct (Ascii.eqb d ","); [|discriminate].
      destruct (parse_items f (skip_ws after')) as [[l' after'']|] eqn:Hl;
        [|discriminate].
      intros [= <- _]. cbn. rewrite Hv. eapply IHi. exact Hl.
    + intros s acc m rest. cbn [parse_members].
      destruct s as [|c s]; [discriminate|].
      destruct (Ascii.eqb c dquote); [|discriminate].
      destruct (scan_string s) as [[k after]|]; [|discriminate].
      destruct (skip_ws after) as [|d after']; [discriminate|].
      destruct (Ascii.eqb d ":"); [|discriminate].
      destruct (parse_value f (skip_ws after')) as [[v after'']|] eqn:Hv;
        [|discriminate].
      apply IHv in Hv. cbv zeta.
      destruct (skip_ws after'') as [|e after3]; [discriminate|].
      intros H Hnd Hwf.
      destruct (set_member_wf k v acc Hv Hnd Hwf) as [H1 H2].
      destruct (Ascii.eqb e "}"); [now injection H as <- _|].
      destruct (Ascii.eqb e ","); [|discriminate].
      eapply IHm; eauto.
Qed.

Lemma loads_wf (s : string) (v : json) : loads s = Some v -> wf v = true.
Proof.
  unfold loads.
  destruct (parse_value (S (String.length s)) (skip_ws s)) as [[v' after]|] eqn:E;
    [|discriminate].
  destruct (skip_ws after); [|discriminate]. intros [= <-].
  eapply (proj1 (parse_wf _)). exact E.
Qed.

End PyJsonFacts.

(** ** Identifiers and the [UNIQUE] column *)

Section Identifiers.

Lemma uint_of_zeros (k : nat) (s : string) (d : uint) :
  NilEmpty.uint_of_string s = Some d ->
  exists d', NilEmpty.uint_of_string (Py.zeros k +:+ s) = Some d'
             /\ Nat.of_uint d' = Nat.of_uint d.
Proof.
  intros Hs. induction k as [|k IH]; simpl.
  - exists d. split; [exact Hs | reflexivity].
  - destruct IH as (d' & -> & E). exists (D0 d'). split; [reflexivity | exact E].
Qed.

(** The digits of [format_04d n] read back as [n]. *)
Lemma format_04d_value (n : nat) :
  option_map Nat.of_uint (NilEmpty.uint_of_string (Py.format_04d n)) = Some n.
Proof.
  unfold Py.format_04d, Py.str.
  destruct (uint_of_zeros (4 - String.length (NilEmpty.string_of_uint (Nat.to_uint n)))
              _ _ (NilEmpty.usu (Nat.to_uint n))) as (d' & -> & E).
  simpl. rewrite E. f_equal. apply Unsigned.of_to.
Qed.

Lemma format_04d_inj (a b : nat) : Py.format_04d a = Py.format_04d b -> a = b.
Proof.
  intros E. pose proof (format_04d_value a) as Ha.
  rewrite E, format_04d_value in Ha. congruence.
Qed.

Lemma generate_product_id_inj (t t' : table) :
  generate_product_id t = generate_product_id t' ->
  select_count t = select_count t'.
Proof.
  unfold generate_product_id. simpl. intros E.
  injection E as E. apply format_04d_inj in E. lia.
Qed.

Lemma zeros_length (k : nat) : String.length (Py.zeros k) = k.
Proof. induction k as [|k IH]; cbn; [reflexivity | now rewrite IH]. Qed.

Lemma format_04d_length (n : nat) : 4 <= String.length (Py.format_04d n).
Proof.
  unfold Py.format_04d. cbn zeta. rewrite PyJsonFacts.length_append, zeros_length.
  lia.
Qed.



End Identifiers.
Section TableLemmas.

Lemma existsb_product_id (pid : string) (l : list row) :
  List.existsb (fun r => String.eqb (product_id r) pid) l = true
  <-> List.In pid (List.map product_id l).
Proof.
  rewrite List.existsb_exists, List.in_map_iff. split.
  - intros (r & Hin & E). apply String.eqb_eq in E. eauto.
  - intros (r & E & Hin). exists r. split; [exact Hin|]. now apply String.eqb_eq.
Qed.

Lemma existsb_product_id_false (pid : string) (l : list row) :
  List.existsb (fun r => String.eqb (product_id r) pid) l = false
  <-> ~ List.In pid (List.map product_id l).
Proof.
  rewrite <- existsb_product_id.
  destruct (List.existsb _ l); split; intros; congruence.
Qed.

Lemma select_none (pid : string) (t : table) :
  select_by_product_id pid t = None
  <-> ~ List.In pid (List.map product_id (rows t)).
Proof.
  unfold select_by_product_id. rewrite <- existsb_product_id_false.
  induction (rows t) as [|r l IH]; simpl; [tauto|].
  destruct (String.eqb (product_id r) pid); simpl; [split; discriminate | exact IH].
Qed.

Lemma select_some (pid : string) (t : table) (r : row) :
  select_by_product_id pid t = Some r ->
  List.In r (rows t) /\ product_id r = pid.
Proof.
  unfold select_by_product_id. intros H. apply List.find_some in H.
  destruct H as [Hin E]. apply String.eqb_eq in E. tauto.
Qed.

Lemma select_some_existsb (pid : string) (t : table) (r : row) :
  select_by_product_id pid t = Some r ->
  List.existsb (fun r => String.eqb (product_id r) pid) (rows t) = true.
Proof.
  intros H. apply select_some in H. destruct H as [Hin E].
  apply existsb_product_id. rewrite <- E. now apply List.in_map.
Qed.


Lemma product_id_delete_where (pid : string) (t : table) :
  List.map product_id (rows (delete_where pid t))
  = List.filter (fun p => negb (String.eqb p pid)) (List.map product_id (rows t)).
Proof.
  unfold delete_where. simpl.
  induction (rows t) as [|r l IH]; simpl; [reflexivity|].
  destruct (String.eqb (product_id r) pid); simpl; now rewrite IH.
Qed.

Lemma delete_where_absent (pid : string) (t : table) :
  ~ List.In pid (List.map product_id (rows t)) -> delete_where pid t = t.
Proof.
  destruct t as [l s]. unfold delete_where. simpl. intros Hno. f_equal.
  induction l as [|r l IH]; simpl; [reflexivity|].
  simpl in Hno. destruct (String.eqb (product_id r) pid) eqn:E.
  - apply String.eqb_eq in E. tauto.
  - simpl. f_equal. apply IH. tauto.
Qed.

Lemma select_update_where (pid : string) (f : form) (imgs : string)
    (t : table) (r : row) :
  select_by_product_id pid t = Some r ->
  select_by_product_id pid (update_where pid f imgs t)
  = Some (set_fields f imgs r).
Proof.
  unfold select_by_product_id, update_where. cbn [rows].
  induction (rows t) as [|x l IH]; cbn; [discriminate|].
  destruct (String.eqb (product_id x) pid) eqn:E.
  - intros [= ->]. cbn. now rewrite E.
  - rewrite E. exact IH.
Qed.

(** What [INSERT] does. *)
Lemma insert_cases (pid : string) (f : form) (text : string) (now : nat)
    (t : table) :
  match insert pid f text now t with
  | Ok t' =>
      PrimFloat.is_nan (f_price f) = false
      /\ ~ List.In pid (List.map product_id (rows t))
      /\ seq t' = S (seq t)
      /\ rows t' = rows t ++
                   [{| rowid := S (seq t); product_id := pid;
                       name := f_name f; type := f_type f;
                       category := Some (f_category f);
                       details := Some (f_details f);
                       price := real_column (f_price f);
                       sizes := Some (f_sizes f);
                       colors := Some (f_colors f);
                       images := Some text;
                       created_at := now |}]
  | Raise e =>
      e = IntegrityError
      /\ (PrimFloat.is_nan (f_price f) = true
          \/ List.In pid (List.map product_id (rows t)))
  end.
Proof.
  unfold insert. destruct (PrimFloat.is_nan (f_price f)); cbn [orb].
  - split; [reflexivity | now left].
  - destruct (List.existsb _ (rows t)) eqn:E.
    + apply existsb_product_id in E. split; [reflexivity | now right].
    + apply existsb_product_id_false in E. cbn [rows seq]. tauto.
Qed.

(** What [UPDATE] does when a row has the identifier. *)
Lemma update_cases (pid : string) (f : form) (text : string) (t : table)
    (r : row) :
  select_by_product_id pid t = Some r ->
  update pid f text t
  = if PrimFloat.is_nan (f_price f) then Raise IntegrityError
    else Ok (update_where pid f text t).
Proof.
  intros H. unfold update. rewrite (select_some_existsb _ _ _ H).
  now rewrite Bool.andb_true_r.
Qed.

End TableLemmas.

(** ** The loops over the uploads *)

Section Loops.

Context {host : Host}.

Lemma named_at_cons (start : nat) (image : UploadFile) (rest : list UploadFile) :
  named_at start (image :: rest)
  = if Py.truthy (filename image)
    then (start, image) :: named_at (S start) rest
    else named_at (S start) rest.
Proof. reflexivity. Qed.

Lemma named_at_uploads (start : nat) (imgs : list UploadFile) :
  List.map snd (named_at start imgs) = named imgs.
Proof.
  revert start. induction imgs as [|image rest IH]; intros start; [reflexivity|].
  rewrite named_at_cons. unfold named. cbn [List.filter]. fold (named rest).
  destruct (Py.truthy (filename image)); cbn [List.map snd]; now rewrite IH.
Qed.

Lemma write_all_cons (n : string) (u : UploadFile) (names : list string)
    (uploads : list UploadFile) (fs : gmap string bytes) :
  write_all (n :: names) (u :: uploads) fs
  = write_all names uploads (<[filepath n := content u]> fs).
Proof. reflexivity. Qed.

(** The loop of [create_product]: it writes the named uploads in order
    under the names of their positions, up to the first that does not
    open. *)
Lemma save_images_spec (pid : string) (imgs : list UploadFile) (idx : nat)
    (fs : gmap string bytes) (acc : list string) :
  let names := List.map (fun iu => upload_name pid iu.1 iu.2) (named_at idx imgs) in
  match save_images pid idx imgs fs acc with
  | (fs', Ok paths) =>
      all_open names
      /\ fs' = write_all names (named imgs) fs
      /\ paths = acc ++ List.map public_path names
  | (fs', Raise e) =>
      e = OSError
      /\ exists k, k < List.length names
           /\ opens (filepath (List.nth k names "")) = false
           /\ all_open (List.firstn k names)
           /\ fs' = write_all (List.firstn k names) (List.firstn k (named imgs)) fs
  end.
Proof.
  revert idx fs acc. induction imgs as [|image rest IH]; intros idx fs acc.
  - cbn. rewrite List.app_nil_r. repeat split. constructor.
  - cbn zeta. rewrite named_at_cons. cbn [save_images named List.filter].
    fold (named rest). destruct (Py.truthy (filename image)); [|apply IH].
    cbn [List.map fst snd]. unfold write_file.
    destruct (opens (filepath (upload_name pid idx image))) eqn:O.
    + specialize (IH (S idx) (<[filepath (upload_name pid idx image) := content image]> fs)
                     (acc ++ [public_path (upload_name pid idx image)])).
      cbn zeta in IH.
      destruct (save_images pid (S idx) rest _ _) as [fs' [paths|e]].
      * destruct IH as (Ho & -> & ->). split; [now constructor|].
        split; [reflexivity|]. now rewrite <- List.app_assoc.
      * destruct IH as (-> & k & Hk & Hno & Ho & ->). split; [reflexivity|].
        exists (S k). cbn [List.length List.nth List.firstn].
        split; [lia|]. split; [exact Hno|]. split; [now constructor | reflexivity].
    + split; [reflexivity|]. exists 0. cbn [List.length List.nth List.firstn].
      split; [lia|]. split; [exact O|]. split; [constructor | reflexivity].
Qed.

Lemma all_open_nth (names : list string) (k : nat) :
  all_open names -> k < List.length names ->
  opens (filepath (List.nth k names "")) = true.
Proof.
  unfold all_open. rewrite List.Forall_forall. intros H Hk. apply H.
  now apply List.nth_In.
Qed.

Lemma combine_seq_shift {A B : Type} (g : nat -> A -> B) (xs : list A) :
  forall a m,
    List.map (fun kx => g (S kx.1) kx.2) (List.combine (List.seq a m) xs)
    = List.map (fun kx => g kx.1 kx.2) (List.combine (List.seq (S a) m) xs).
Proof.
  induction xs as [|x xs IH]; intros a [|m]; try reflexivity.
  cbn [List.seq List.combine List.map fst snd]. f_equal. apply IH.
Qed.

(** The names of an update batch, from its first named upload on. *)
Lemma renumbered_step (pid : string) (l : list json) (x : json) (idx : nat)
    (image : UploadFile) (na : list (nat * UploadFile)) :
  List.map (fun kiu => upload_name pid (List.length l + kiu.1 + kiu.2.1) kiu.2.2)
           (List.combine (List.seq 0 (List.length ((idx, image) :: na)))
                         ((idx, image) :: na))
  = upload_name pid (List.length l + idx) image
    :: List.map (fun kiu => upload_name pid (List.length (l ++ [x]) + kiu.1 + kiu.2.1)
                                        kiu.2.2)
                (List.combine (List.seq 0 (List.length na)) na).
Proof.
  cbn [List.length List.seq List.combine List.map fst snd].
  rewrite <- (combine_seq_shift
                (fun k iu => upload_name pid (List.length l + k + iu.1) iu.2)).
  rewrite List.length_app. cbn [List.length].
  replace (List.length l + 0 + idx) with (List.length l + idx) by lia.
  f_equal. apply List.map_ext. intros kx. f_equal. lia.
Qed.

(** The loop of [update_product] on a list: the [k]-th named upload, at
    position [i], gets the index [len + k + i]. *)
Lemma save_new_images_spec (pid : string) (imgs : list UploadFile) (idx : nat)
    (fs : gmap string bytes) (l : list json) :
  let names :=
    List.map (fun kiu => upload_name pid (List.length l + kiu.1 + kiu.2.1) kiu.2.2)
             (List.combine (List.seq 0 (List.length (named_at idx imgs)))
                           (named_at idx imgs)) in
  match save_new_images pid idx imgs fs (JArr l) with
  | (fs', Ok v) =>
      all_open names
      /\ fs' = write_all names (named imgs) fs
      /\ v = JArr (l ++ List.map (fun n => JStr (public_path n)) names)
  | (fs', Raise e) =>
      e = OSError
      /\ exists k, k < List.length names
           /\ opens (filepath (List.nth k names "")) = false
           /\ all_open (List.firstn k names)
           /\ fs' = write_all (List.firstn k names) (List.firstn k (named imgs)) fs
  end.
Proof.
  revert idx fs l. induction imgs as [|image rest IH]; intros idx fs l.
  - cbn. rewrite List.app_nil_r. repeat split. constructor.
  - cbn zeta. rewrite named_at_cons. cbn [save_new_images named List.filter].
    fold (named rest). destruct (Py.truthy (filename image)); [|apply IH].
    cbn [py_len py_append].
    rewrite (renumbered_step pid l
               (JStr (public_path (upload_name pid (List.length l + idx) image)))).
    unfold write_file.
    destruct (opens (filepath (upload_name pid (List.length l + idx) image))) eqn:O.
    + specialize (IH (S idx)
                     (<[filepath (upload_name pid (List.length l + idx) image)
                        := content image]> fs)
                     (l ++ [JStr (public_path (upload_name pid (List.length l + idx) image))])).
      cbn zeta in IH.
      destruct (save_new_images pid (S idx) rest _ _) as [fs' [v|e]].
      * destruct IH as (Ho & -> & ->). split; [now constructor|].
        split; [reflexivity|]. cbn [List.map]. now rewrite <- List.app_assoc.
      * destruct IH as (-> & k & Hk & Hno & Ho & ->). split; [reflexivity|].
        exists (S k). cbn [List.length List.nth List.firstn].
        split; [lia|]. split; [exact Hno|]. split; [now constructor | reflexivity].
    + split; [reflexivity|]. exists 0. cbn [List.length List.nth List.firstn].
      split; [lia|]. split; [exact O|]. split; [constructor | reflexivity].
Qed.

(** The exceptions of the loop of [update_product]. *)
Lemma save_new_images_raises (pid : string) (imgs : list UploadFile) (idx : nat)
    (fs : gmap string bytes) (v : json) (e : exn) :
  snd (save_new_images pid idx imgs fs v) = Raise e ->
  e = OSError \/ e = AttributeError \/ e = TypeError.
Proof.
  revert idx fs v. induction imgs as [|image rest IH]; intros idx fs v; cbn.
  - discriminate.
  - destruct (Py.truthy (filename image)); [|apply IH].
    destruct (py_len v) as [n|e1] eqn:L.
    + unfold write_file. destruct (opens _); [|cbn; intros [= <-]; tauto].
      destruct (py_append v _) as [v'|e2] eqn:A; [apply IH|].
      cbn. intros [= <-]. destruct v; cbn in A; inversion A; tauto.
    + cbn. intros [= <-]. destruct v; cbn in L; inversion L; tauto.
Qed.

Lemma save_new_images_container (pid : string) (imgs : list UploadFile)
    (idx : nat) (fs : gmap string bytes) (v : json) (e : exn) :
  container v = true ->
  snd (save_new_images pid idx imgs fs v) = Raise e ->
  (e = OSError /\ exists fname, opens (filepath fname) = false)
  \/ (e = AttributeError /\ exists m, v = JObj m).
Proof.
  revert idx fs v. induction imgs as [|image rest IH]; intros idx fs v Hc; cbn.
  - discriminate.
  - destruct (Py.truthy (filename image)); [|now apply IH].
    destruct v as [| | | |l|m]; try discriminate Hc; cbn [py_len py_append].
    + unfold write_file. destruct (opens _) eqn:O; [|cbn; intros [= <-]; eauto].
      intros H. apply IH in H; [|reflexivity].
      destruct H as [H | (_ & m & Hm)]; [now left | discriminate Hm].
    + unfold write_file. destruct (opens _) eqn:O; cbn; intros [= <-]; eauto.
Qed.

End Loops.
(** ** The admin calls, case by case *)

Section Calls.

Context {codec : JsonCodec} {host : Host}.

(** What [create_product] does: the uploads first, then the insertion. *)
Lemma create_product_cases (f : form) (imgs : list UploadFile) (now : nat)
    (w : world) :
  let pid := generate_product_id (db w) in
  let names := numbered pid imgs in
  match create_product f imgs now w with
  | (w', Ok r) =>
      r = [("message", "Product created successfully"); ("product_id", pid)]
      /\ ~ List.In pid (product_ids w)
      /\ PrimFloat.is_nan (f_price f) = false
      /\ all_open names
      /\ files w' = write_all names (named imgs) (files w)
      /\ seq (db w') = S (seq (db w))
      /\ rows (db w')
         = rows (db w) ++
           [{| rowid := S (seq (db w)); product_id := pid;
               name := f_name f; type := f_type f;
               category := Some (f_category f);
               details := Some (f_details f);
               price := real_column (f_price f);
               sizes := Some (f_sizes f);
               colors := Some (f_colors f);
               images := Some (json_dumps
                                 (JArr (List.map JStr (List.map public_path names))));
               created_at := now |}]
  | (w', Raise e) =>
      db w' = db w
      /\ ((e = IntegrityError
           /\ (PrimFloat.is_nan (f_price f) = true \/ List.In pid (product_ids w))
           /\ all_open names
           /\ files w' = write_all names (named imgs) (files w))
          \/ (e = OSError
              /\ exists k, k < List.length names
                   /\ opens (filepath (List.nth k names "")) = false
                   /\ all_open (List.firstn k names)
                   /\ files w' = write_all (List.firstn k names)
                                           (List.firstn k (named imgs)) (files w)))
  end.
Proof.
  intros pid names. unfold create_product. fold pid.
  pose proof (save_images_spec pid imgs 0 (files w) []) as H. cbn zeta in H.
  fold (numbered pid imgs) in H. fold names in H.
  destruct (save_images pid 0 imgs (files w) []) as [fs [paths|e]].
  - destruct H as (Ho & -> & ->). cbn [List.app].
    pose proof (insert_cases pid f
                  (json_dumps (JArr (List.map JStr (List.map public_path names))))
                  now (db w)) as Hi.
    destruct (insert pid f _ now (db w)) as [t|e].
    + destruct Hi as (Hnan & Hfresh & Hseq & Hrows). cbn [db files].
      repeat split; assumption.
    + destruct Hi as (-> & Hwhy). cbn [db files]. split; [reflexivity|].
      left. repeat split; assumption.
  - destruct H as (-> & k & Hk & Hno & Ho & ->). cbn [db files].
    split; [reflexivity|]. right. split; [reflexivity|]. exists k. tauto.
Qed.

(** A create goes through when its identifier is free, its price is a
    number and every file opens. *)
Lemma create_product_ok (f : form) (imgs : list UploadFile) (now : nat)
    (w : world) :
  ~ List.In (generate_product_id (db w)) (product_ids w) ->
  PrimFloat.is_nan (f_price f) = false ->
  all_open (numbered (generate_product_id (db w)) imgs) ->
  exists w',
    create_product f imgs now w
    = (w', Ok [("message", "Product created successfully");
               ("product_id", generate_product_id (db w))]).
Proof.
  intros Hfresh Hnan Ho.
  pose proof (create_product_cases f imgs now w) as H. cbn zeta in H.
  destruct (create_product f imgs now w) as [w' [r|e]].
  - destruct H as (-> & _). now exists w'.
  - exfalso. destruct H as (_ & [(_ & [Hn | Hin] & _) | (_ & k & Hk & Hno & _)]).
    + congruence.
    + contradiction.
    + rewrite (all_open_nth _ _ Ho Hk) in Hno. discriminate.
Qed.

(** The names and the uploads an update persists next to the list [l]. *)
Local Abbreviation update_names pid l imgs :=
  (if has_uploads imgs
   then renumbered pid (List.length l) (default [] imgs) else []).
Local Abbreviation update_persisted imgs :=
  (if has_uploads imgs then named (default [] imgs) else []).

(** What [update_product] does when the row exists and [existing_images]
    is a list: the uploads first, then the [UPDATE]. *)
Lemma update_product_list (pid : string) (f : form)
    (imgs : option (list UploadFile)) (existing_images : string) (w : world)
    (r0 : row) (l : list json) :
  select_by_product_id pid (db w) = Some r0 ->
  json_loads existing_images = Some (JArr l) ->
  let names := update_names pid l imgs in
  let persisted := update_persisted imgs in
  match update_product pid f imgs existing_images w with
  | (w', Ok r) =>
      r = [("message", "Product updated successfully"); ("product_id", pid)]
      /\ PrimFloat.is_nan (f_price f) = false
      /\ all_open names
      /\ files w' = write_all names persisted (files w)
      /\ db w' = update_where pid f
                   (json_dumps (JArr (l ++ List.map (fun n => JStr (public_path n)) names)))
                   (db w)
  | (w', Raise e) =>
      db w' = db w
      /\ ((e = IntegrityError /\ PrimFloat.is_nan (f_price f) = true
           /\ all_open names
           /\ files w' = write_all names persisted (files w))
          \/ (e = OSError
              /\ exists k, k < List.length names
                   /\ opens (filepath (List.nth k names "")) = false
                   /\ all_open (List.firstn k names)
                   /\ files w' = write_all (List.firstn k names)
                                           (List.firstn k persisted) (files w)))
  end.
Proof.
  intros Hsel Hload. cbn zeta. unfold update_product. rewrite Hsel, Hload.
  cbn [py_copy].
  assert (Hup : forall text,
             match update pid f text (db w) with
             | Ok t => PrimFloat.is_nan (f_price f) = false
                       /\ t = update_where pid f text (db w)
             | Raise e => e = IntegrityError /\ PrimFloat.is_nan (f_price f) = true
             end).
  { intros text. rewrite (update_cases _ _ _ _ _ Hsel).
    destruct (PrimFloat.is_nan (f_price f)); split; reflexivity. }
  destruct (has_uploads imgs).
  - pose proof (save_new_images_spec pid (default [] imgs) 0 (files w) l) as H.
    cbn zeta in H. fold (renumbered pid (List.length l) (default [] imgs)) in H.
    destruct (save_new_images pid 0 (default [] imgs) (files w) (JArr l))
      as [fs [v|e]].
    + destruct H as (Ho & -> & ->). specialize (Hup (json_dumps
        (JArr (l ++ List.map (fun n => JStr (public_path n))
                             (renumbered pid (List.length l) (default [] imgs)))))).
      destruct (update pid f _ (db w)) as [t|e]; cbn [db files].
      * destruct Hup as [Hnan ->]. repeat split; assumption.
      * destruct Hup as [-> Hnan]. split; [reflexivity|]. left.
        repeat split; assumption.
    + destruct H as (-> & k & Hk & Hno & Ho & ->). cbn [db files].
      split; [reflexivity|]. right. split; [reflexivity|]. exists k. tauto.
  - cbn [List.map]. rewrite List.app_nil_r. specialize (Hup (json_dumps (JArr l))).
    destruct (update pid f _ (db w)) as [t|e]; cbn [db files].
    + destruct Hup as [Hnan ->]. repeat split; try assumption; constructor.
    + destruct Hup as [-> Hnan]. split; [reflexivity|]. left.
      repeat split; try assumption; constructor.
Qed.

(** An update of an existing product with a list goes through when its
    price is a number and every file opens. *)
Lemma update_product_ok (pid : string) (f : form)
    (imgs : option (list UploadFile)) (existing_images : string) (w : world)
    (r0 : row) (l : list json) :
  select_by_product_id pid (db w) = Some r0 ->
  json_loads existing_images = Some (JArr l) ->
  PrimFloat.is_nan (f_price f) = false ->
  all_open (update_names pid l imgs) ->
  exists w',
    update_product pid f imgs existing_images w
    = (w', Ok [("message", "Product updated successfully"); ("product_id", pid)]).
Proof.
  intros Hsel Hload Hnan Ho.
  pose proof (update_product_list pid f imgs existing_images w r0 l Hsel Hload) as H.
  cbn zeta in H.
  destruct (update_product pid f imgs existing_images w) as [w' [r|e]].
  - destruct H as (-> & _). now exists w'.
  - exfalso. destruct H as (_ & [(_ & Hn & _) | (_ & k & Hk & Hno & _)]).
    + congruence.
    + rewrite (all_open_nth _ _ Ho Hk) in Hno. discriminate.
Qed.

(** The table after an update is the table before, or that table with
    the [UPDATE] gone through. *)
Lemma update_product_db (pid : string) (f : form)
    (imgs : option (list UploadFile)) (existing_images : string) (w : world) :
  match update_product pid f imgs existing_images w with
  | (w', Ok _) =>
      PrimFloat.is_nan (f_price f) = false
      /\ (exists r0, select_by_product_id pid (db w) = Some r0)
      /\ exists v v',
           json_loads existing_images = Some v /\ container v = true
           /\ (v' = v
               \/ exists fs fs', save_new_images pid 0 (default [] imgs) fs v
                                 = (fs', Ok v'))
           /\ db w' = update_where pid f (json_dumps v') (db w)
  | (w', Raise _) => db w' = db w
  end.
Proof.
  unfold update_product.
  destruct (select_by_product_id pid (db w)) as [r0|] eqn:Hsel; [|reflexivity].
  destruct (json_loads existing_images) as [v|]; [|reflexivity].
  destruct (py_copy v) as [paths|] eqn:C; [|reflexivity].
  assert (Hc : container v = true /\ paths = v).
  { destruct v; cbn in C; inversion C; subst; split; reflexivity. }
  destruct Hc as [Hc ->].
  destruct (if has_uploads imgs then _ else _) as [fs [v'|e]] eqn:S;
    [|reflexivity].
  rewrite (update_cases _ _ _ _ _ Hsel).
  destruct (PrimFloat.is_nan (f_price f)); [reflexivity|]. cbn [db].
  split; [reflexivity|]. split; [eauto|]. exists v, v'.
  split; [reflexivity|]. split; [exact Hc|]. split; [|reflexivity].
  destruct (has_uploads imgs); [right; eauto | left; congruence].
Qed.

(** The table after a delete. *)
Lemma delete_product_db (pid : string) (w : world) :
  match delete_product pid w with
  | (w', Ok r) =>
      r = [("message", "Product deleted successfully")]
      /\ db w' = delete_where pid (db w)
  | (w', Raise _) => db w' = db w
  end.
Proof.
  unfold delete_product.
  destruct (match select_by_product_id pid (db w) with
            | Some _ => _ | None => _ end) as [[fs unlinked]|e]; [|reflexivity].
  destruct unlinked; [reflexivity|]. split; reflexivity.
Qed.

(** The table after a call: as before, or with one statement gone
    through. *)
Lemma serve_db (c : call) (w : world) :
  db (fst (serve c w)) = db w
  \/ match c with
     | Create f _ now =>
         exists text,
           insert (generate_product_id (db w)) f text now (db w)
           = Ok (db (fst (serve c w)))
     | Update pid f _ _ =>
         exists text, db (fst (serve c w)) = update_where pid f text (db w)
     | Delete pid => db (fst (serve c w)) = delete_where pid (db w)
     end.
Proof.
  destruct c as [f imgs now | pid f imgs ex | pid]; cbn [serve].
  - unfold create_product.
    destruct (save_images _ 0 imgs (files w) []) as [fs [paths|e]];
      [|now left].
    destruct (insert _ f _ now (db w)) as [t|e] eqn:E; [|now left].
    right. eexists. exact E.
  - pose proof (update_product_db pid f imgs ex w) as H.
    destruct (update_product pid f imgs ex w) as [w' [r|e]]; cbn [fst];
      [|now left].
    destruct H as (_ & _ & v & v' & _ & _ & _ & ->). right. eauto.
  - pose proof (delete_product_db pid w) as H.
    destruct (delete_product pid w) as [w' [r|e]]; cbn [fst]; [|now left].
    right. apply H.
Qed.

(** What every call keeps, every sequence of calls keeps. *)
Lemma run_invariant (P : world -> Prop) :
  (forall c w, P w -> P (fst (serve c w))) ->
  forall cs w, P w -> P (run cs w).
Proof.
  intros Hstep cs. induction cs as [|c rest IH]; intros w Hw; [exact Hw|].
  cbn [run]. destruct (lost (snd (serve c w))); [|apply IH]; now apply Hstep.
Qed.

End Calls.

Section Uniqueness.

Context {codec : JsonCodec} {host : Host}.





End Uniqueness.
(** ** Uploaded files and the image list *)

Section UploadNames.

Context {host : Host}.

Lemma append_inv_head (p x y : string) : p +:+ x = p +:+ y -> x = y.
Proof.
  induction p as [|c p IH]; [trivial|].
  rewrite !PyJsonFacts.append_cons. intros [= E]. now apply IH.
Qed.

Lemma string_of_uint_digits (d : uint) :
  PyJson.all_digits (NilEmpty.string_of_uint d) = true.
Proof. induction d; cbn; trivial. Qed.

Lemma str_inj (a b : nat) : Py.str a = Py.str b -> a = b.
Proof.
  unfold Py.str. intros E.
  pose proof (NilEmpty.usu (Nat.to_uint a)) as Ha. rewrite E, NilEmpty.usu in Ha.
  injection Ha as Ha. rewrite <- (Unsigned.of_to a), <- (Unsigned.of_to b).
  now rewrite Ha.
Qed.

Lemma digits_dot_inj (d1 d2 x y : string) :
  PyJson.all_digits d1 = true -> PyJson.all_digits d2 = true ->
  d1 +:+ String "." x = d2 +:+ String "." y -> d1 = d2.
Proof.
  revert d2. induction d1 as [|c d1 IH]; intros [|c2 d2] H1 H2;
    rewrite ?PyJsonFacts.append_cons; cbn [String.append].
  - reflexivity.
  - intros [= <- _]. cbn in H2. discriminate.
  - intros [= -> _]. cbn in H1. discriminate.
  - cbn in H1, H2. apply Bool.andb_true_iff in H1, H2.
    intros [= <- E]. f_equal. now apply IH.
Qed.

Lemma upload_name_index (pid : string) (i j : nat) (a b : UploadFile) :
  upload_name pid i a = upload_name pid j b -> i = j.
Proof.
  unfold upload_name. intros E. apply append_inv_head in E.
  injection E as E. apply str_inj.
  apply (digits_dot_inj _ _ _ _ (string_of_uint_digits _)
           (string_of_uint_digits _) E).
Qed.

Lemma filepath_inj (a b : string) : filepath a = filepath b -> a = b.
Proof. apply append_inv_head. Qed.

Lemma write_all_other (names : list string) (us : list UploadFile)
    (fs : gmap string bytes) (n : string) :
  ~ List.In n names -> write_all names us fs !! filepath n = fs !! filepath n.
Proof.
  revert us fs. induction names as [|m names IH]; intros [|u us] fs Hno;
    try reflexivity.
  rewrite write_all_cons, IH by (cbn in Hno; tauto).
  apply lookup_insert_ne. intros E. apply filepath_inj in E. cbn in Hno. tauto.
Qed.

Lemma write_all_each (names : list string) (us : list UploadFile)
    (fs : gmap string bytes) :
  List.NoDup names -> List.length names = List.length us ->
  Forall2 (fun n u => write_all names us fs !! filepath n = Some (content u))
          names us.
Proof.
  revert us fs. induction names as [|n names IH]; intros [|u us] fs Hnd Hlen;
    try discriminate Hlen; [constructor|].
  inversion Hnd as [|? ? Hn Hnd']; subst. injection Hlen as Hlen.
  constructor.
  - rewrite write_all_cons, write_all_other by exact Hn.
    apply lookup_insert_eq.
  - rewrite write_all_cons. now apply IH.
Qed.

Lemma sorted_lt_NoDup (l : list nat) : StronglySorted lt l -> List.NoDup l.
Proof.
  induction 1 as [|x l Hs IH Hx]; constructor; [|exact IH].
  intros Hin. rewrite List.Forall_forall in Hx. specialize (Hx x Hin). lia.
Qed.

Lemma NoDup_by_index {X : Type} (ix : X -> nat) (h : X -> string) (xs : list X) :
  (forall x y, h x = h y -> ix x = ix y) ->
  List.NoDup (List.map ix xs) -> List.NoDup (List.map h xs).
Proof.
  intros Hix. induction xs as [|x xs IH]; cbn; intros Hnd; [constructor|].
  inversion Hnd as [|? ? Hx Hnd']; subst. constructor; [|now apply IH].
  intros Hin. apply Hx. apply List.in_map_iff in Hin.
  destruct Hin as (y & E & Hy). apply List.in_map_iff. exists y.
  split; [now apply Hix | exact Hy].
Qed.

Lemma named_at_sorted (start : nat) (imgs : list UploadFile) :
  StronglySorted lt (List.map fst (named_at start imgs))
  /\ List.Forall (fun iu => start <= iu.1) (named_at start imgs).
Proof.
  revert start. induction imgs as [|image rest IH]; intros start.
  - split; constructor.
  - rewrite named_at_cons. destruct (IH (S start)) as [Hs Hb].
    assert (Hb' : List.Forall (fun iu => start <= iu.1) (named_at (S start) rest)).
    { eapply List.Forall_impl; [|exact Hb]. cbn. intros; lia. }
    destruct (Py.truthy (filename image)); [|tauto]. split.
    + cbn [List.map fst]. constructor; [exact Hs|]. apply List.Forall_map.
      eapply List.Forall_impl; [|exact Hb]. cbn. intros; lia.
    + constructor; [cbn; lia | exact Hb'].
Qed.

Lemma renumbered_sorted (r : nat) (l : list (nat * UploadFile)) :
  forall a,
    StronglySorted lt (List.map fst l) ->
    StronglySorted lt
      (List.map (fun kiu : nat * (nat * UploadFile) => r + kiu.1 + kiu.2.1)
                (List.combine (List.seq a (List.length l)) l)).
Proof.
  induction l as [|[i0 u0] l IH]; intros a Hs; [constructor|].
  cbn [List.length List.seq List.combine List.map fst snd].
  cbn [List.map fst] in Hs. apply StronglySorted_inv in Hs.
  destruct Hs as [Hs Hi0]. constructor; [now apply IH|].
  apply List.Forall_forall. intros y Hy. apply List.in_map_iff in Hy.
  destruct Hy as ([k [i u]] & <- & Hin). cbn [fst snd].
  pose proof (List.in_combine_l _ _ _ _ Hin) as Hk. apply List.in_seq in Hk.
  pose proof (List.in_combine_r _ _ _ _ Hin) as Hi.
  rewrite List.Forall_forall in Hi0.
  specialize (Hi0 i (List.in_map fst _ _ Hi)). cbn in Hi0. lia.
Qed.

Lemma numbered_NoDup (pid : string) (imgs : list UploadFile) :
  List.NoDup (numbered pid imgs).
Proof.
  unfold numbered.
  apply (NoDup_by_index fst (fun iu => upload_name pid iu.1 iu.2)).
  - intros x y. apply upload_name_index.
  - apply sorted_lt_NoDup, named_at_sorted.
Qed.

Lemma renumbered_NoDup (pid : string) (r : nat) (imgs : list UploadFile) :
  List.NoDup (renumbered pid r imgs).
Proof.
  unfold renumbered.
  apply (NoDup_by_index (fun kiu : nat * (nat * UploadFile) => r + kiu.1 + kiu.2.1)
           (fun kiu => upload_name pid (r + kiu.1 + kiu.2.1) kiu.2.2)).
  - intros x y. apply upload_name_index.
  - apply sorted_lt_NoDup, renumbered_sorted, named_at_sorted.
Qed.

Lemma numbered_length (pid : string) (imgs : list UploadFile) :
  List.length (numbered pid imgs) = List.length (named imgs).
Proof.
  unfold numbered. now rewrite List.length_map, <- (named_at_uploads 0 imgs),
    List.length_map.
Qed.

Lemma renumbered_length (pid : string) (r : nat) (imgs : list UploadFile) :
  List.length (renumbered pid r imgs) = List.length (named imgs).
Proof.
  unfold renumbered. rewrite List.length_map, List.length_combine,
    List.length_seq, Nat.min_id, <- (named_at_uploads 0 imgs).
  now rewrite List.length_map.
Qed.

(** A file that is none of [names] is as it was. *)
Lemma write_all_frame (names : list string) (us : list UploadFile)
    (fs : gmap string bytes) (path : string) :
  (forall fname, List.In fname names -> path <> filepath fname) ->
  write_all names us fs !! path = fs !! path.
Proof.
  revert us fs. induction names as [|m names IH]; intros [|u us] fs Hno;
    try reflexivity.
  rewrite write_all_cons, IH by (intros n Hn; apply Hno; now right).
  apply lookup_insert_ne. intros E. apply (Hno m); [now left | now symmetry].
Qed.

End UploadNames.

Section Uploads.

Context {codec : JsonCodec} {host : Host}.

(** C3: an update of an existing product whose [existing_images] decodes
    to a list, with a price that is a number and files that open, goes
    through: every upload it persists is afterwards in [static/uploads]
    under its own name, no other file has changed, and the row stores the
    list as given, unchecked, followed by [/static/uploads/] and the name
    of each persisted file, in upload order; retaining one path and
    persisting one file gives a list of length two with the retained path
    first. *)
Theorem update_images_retained_then_new
    (pid : string) (f : form) (imgs : option (list UploadFile))
    (existing_images : string) (w : world) (r0 : row) (l : list json) :
  let persisted := if has_uploads imgs then named (default [] imgs) else [] in
  let names := if has_uploads imgs
               then renumbered pid (List.length l) (default [] imgs) else [] in
  select_by_product_id pid (db w) = Some r0 ->
  json_loads existing_images = Some (JArr l) ->
  PrimFloat.is_nan (f_price f) = false ->
  List.Forall (fun fname => opens ("static/uploads/" +:+ fname) = true) names ->
  exists w',
    update_product pid f imgs existing_images w
    = (w', Ok [("message", "Product updated successfully"); ("product_id", pid)])
    /\ Forall2 (fun fname upload =>
                  files w' !! ("static/uploads/" +:+ fname) = Some (content upload))
               names persisted
    /\ (forall path,
          (forall fname, List.In fname names -> path <> "static/uploads/" +:+ fname) ->
          files w' !! path = files w !! path)
    /\ (let stored := l ++ List.map (fun fname => JStr ("/static/uploads/" +:+ fname))
                                    names in
        (exists r, select_by_product_id pid (db w') = Some r
                   /\ images r = Some (json_dumps (JArr stored)))
        /\ List.length stored = List.length l + List.length persisted
        /\ forall x, l = [x] -> List.length persisted = 1 ->
             exists fname, stored = [x; JStr ("/static/uploads/" +:+ fname)]).
Proof.
  intros persisted names Hsel Hload Hnan Ho.
  pose proof (update_product_list pid f imgs existing_images w r0 l Hsel Hload) as H.
  cbn zeta in H. fold names persisted in H.
  destruct (update_product_ok pid f imgs existing_images w r0 l Hsel Hload Hnan Ho)
    as [w' Hrun].
  rewrite Hrun in H. destruct H as (_ & _ & _ & Hfiles & Hdb).
  assert (Hlen : List.length names = List.length persisted).
  { subst names persisted. destruct (has_uploads imgs);
      [apply renumbered_length | reflexivity]. }
  assert (Hnd : List.NoDup names).
  { subst names. destruct (has_uploads imgs);
      [apply renumbered_NoDup | constructor]. }
  exists w'. split; [exact Hrun|]. split; [|split].
  - rewrite Hfiles. now apply write_all_each.
  - intros path Hpath. rewrite Hfiles. now apply write_all_frame.
  - cbn zeta. split; [|split].
    + rewrite Hdb. eexists.
      split; [apply select_update_where; exact Hsel | reflexivity].
    + now rewrite List.length_app, List.length_map, Hlen.
    + intros x -> H1. rewrite <- Hlen in H1.
      destruct names as [|n [|? ?]]; try discriminate H1. now exists n.
Qed.

End Uploads.


(** ** Reading: list and get *)

Section Ordering.

Lemma insert_desc_perm (r : row) (l : list row) :
  Permutation (insert_desc r l) (r :: l).
Proof.
  induction l as [|x xs IH]; cbn; [reflexivity|].
  destruct (Nat.leb (created_at x) (created_at r)); [reflexivity|].
  rewrite IH. apply perm_swap.
Qed.

Lemma order_by_created_at_desc_perm (l : list row) :
  Permutation (order_by_created_at_desc l) l.
Proof.
  induction l as [|r l IH]; cbn; [reflexivity|].
  rewrite insert_desc_perm. now constructor.
Qed.



End Ordering.

Section Reading.

Context {codec : JsonCodec} {host : Host}.

Lemma decode_column_cases (column : option string) :
  match decode_column column with
  | Ok v => decoded column v
  | Raise e => e = JSONDecodeError
  end.
Proof.
  unfold decode_column, decoded.
  destruct column as [[|c text]|]; cbn; try reflexivity.
  now destruct (json_loads (String c text)).
Qed.

Lemma to_product_cases (r : row) :
  match to_product r with
  | Ok p => shows r p
  | Raise e => e = JSONDecodeError
  end.
Proof.
  unfold to_product.
  pose proof (decode_column_cases (sizes r)) as Hs.
  pose proof (decode_column_cases (colors r)) as Hc.
  pose proof (decode_column_cases (images r)) as Hi.
  destruct (decode_column (sizes r)); [|exact Hs].
  destruct (decode_column (colors r)); [|exact Hc].
  destruct (decode_column (images r)); [|exact Hi].
  unfold shows. cbn. tauto.
Qed.




End Reading.
(** ** Get and update of an identifier without a row *)

Section NotFound.

Context {codec : JsonCodec} {host : Host}.

Lemma update_product_status (pid : string) (f : form)
    (imgs : option (list UploadFile)) (existing_images : string) (w : world)
    (r : row) :
  select_by_product_id pid (db w) = Some r ->
  status (snd (update_product pid f imgs existing_images w)) = 200
  \/ status (snd (update_product pid f imgs existing_images w)) = 500.
Proof.
  intros Hsel. unfold update_product. rewrite Hsel.
  destruct (json_loads existing_images) as [v|]; [|now right].
  destruct (py_copy v) as [paths|e] eqn:C.
  - assert (Hup : forall fs text,
               status (snd (match update pid f text (db w) with
                            | Ok t => ({| db := t; files := fs |},
                                       Ok [("message", "Product updated successfully");
                                           ("product_id", pid)])
                            | Raise e => ({| db := db w; files := fs |}, Raise e)
                            end)) = 200
               \/ status (snd (match update pid f text (db w) with
                               | Ok t => ({| db := t; files := fs |},
                                          Ok [("message", "Product updated successfully");
                                              ("product_id", pid)])
                               | Raise e => ({| db := db w; files := fs |}, Raise e)
                               end)) = 500).
    { intros fs text. rewrite (update_cases _ _ _ _ _ Hsel).
      destruct (PrimFloat.is_nan (f_price f)); [now right | now left]. }
    destruct (has_uploads imgs).
    + pose proof (save_new_images_raises pid (default [] imgs) 0 (files w) paths) as H.
      destruct (save_new_images pid 0 (default [] imgs) (files w) paths)
        as [fs [paths'|e]]; [apply Hup|].
      destruct (H e eq_refl) as [-> | [-> | ->]]; now right.
    + apply Hup.
  - destruct v; cbn in C; inversion C; now right.
Qed.

(** C6: when no row has the identifier, get fails with 404 and so does
    update, which hands back the world as it was, no file written; when a
    row has it, neither answers 404. *)
Theorem not_found_exactly_when_absent (pid : string) (f : form)
    (imgs : option (list UploadFile)) (existing_images : string) (w : world) :
  match select_by_product_id pid (db w) with
  | None =>
      ~ List.In pid (product_ids w)
      /\ get_product pid w = Raise (HTTPException 404 "Product not found")
      /\ status (get_product pid w) = 404
      /\ update_product pid f imgs existing_images w
         = (w, Raise (HTTPException 404 "Product not found"))
      /\ status (snd (update_product pid f imgs existing_images w)) = 404
  | Some r =>
      List.In r (rows (db w)) /\ product_id r = pid
      /\ status (get_product pid w) <> 404
      /\ status (snd (update_product pid f imgs existing_images w)) <> 404
  end.
Proof.
  destruct (select_by_product_id pid (db w)) as [r|] eqn:Hsel.
  - destruct (select_some _ _ _ Hsel) as [Hin Hpid].
    split; [exact Hin|]. split; [exact Hpid|]. split.
    + unfold get_product. rewrite Hsel.
      pose proof (to_product_cases r) as H.
      destruct (to_product r) as [p|e]; [cbn; lia | subst e; cbn; lia].
    + destruct (update_product_status pid f imgs existing_images w r Hsel)
        as [-> | ->]; lia.
  - split; [now apply select_none|].
    unfold get_product, update_product. rewrite Hsel. repeat split.
Qed.

End NotFound.

(** ** What an update leaves alone *)

Section UpdateFrame.

Context {codec : JsonCodec} {host : Host}.

Lemma update_where_frame (pid : string) (f : form) (imgs : string)
    (l : list row) :
  Forall2
    (fun a b =>
       rowid b = rowid a /\ product_id b = product_id a
       /\ created_at b = created_at a
       /\ (product_id a <> pid -> b = a)
       /\ (product_id a = pid ->
           name b = f_name f /\ type b = f_type f
           /\ category b = Some (f_category f)
           /\ details b = Some (f_details f)
           /\ price b = real_column (f_price f)
           /\ sizes b = Some (f_sizes f) /\ colors b = Some (f_colors f)
           /\ images b = Some imgs))
    l (List.map (fun r => if String.eqb (product_id r) pid
                          then set_fields f imgs r else r) l).
Proof.
  induction l as [|a l IH]; cbn; constructor; [|exact IH].
  destruct (String.eqb (product_id a) pid) eqn:E.
  - apply String.eqb_eq in E. cbn. repeat split. intros Hne. contradiction.
  - apply String.eqb_neq in E. repeat split; try reflexivity; contradiction.
Qed.

(** C9: a successful update leaves [product_id] and [created_at] (and
    [id]) of every row as they were, row by row in table order; it
    rewrites name, type, category, details, price, sizes, colors and
    images of the rows with the identifier and no other row.  The price
    is the number of the form as a [REAL] column keeps it. *)
Theorem update_keeps_identity (pid : string) (f : form)
    (imgs : option (list UploadFile)) (existing_images : string)
    (w w' : world) (r : reply) :
  update_product pid f imgs existing_images w = (w', Ok r) ->
  seq (db w') = seq (db w)
  /\ exists stored,
       Forall2
         (fun a b =>
            rowid b = rowid a /\ product_id b = product_id a
            /\ created_at b = created_at a
            /\ (product_id a <> pid -> b = a)
            /\ (product_id a = pid ->
                name b = f_name f /\ type b = f_type f
                /\ category b = Some (f_category f)
                /\ details b = Some (f_details f)
                /\ price b = real_column (f_price f)
                /\ sizes b = Some (f_sizes f) /\ colors b = Some (f_colors f)
                /\ images b = Some stored))
         (rows (db w)) (rows (db w')).
Proof.
  intros Hrun. pose proof (update_product_db pid f imgs existing_images w) as H.
  rewrite Hrun in H. destruct H as (_ & _ & v & v' & _ & _ & _ & ->).
  cbn [db update_where seq rows]. split; [reflexivity|].
  exists (json_dumps v'). apply update_where_frame.
Qed.

End UpdateFrame.

(** ** Delete *)

Section Delete.

Context {codec : JsonCodec} {host : Host}.

Lemma lstrip_stripped (p : string) : stripped p (Py.lstrip "/" p).
Proof.
  split.
  - induction p as [|c p (n & IH)]; [now exists 0|]. cbn [Py.lstrip].
    destruct (Ascii.eqb c "/") eqn:E.
    + apply Ascii.eqb_eq in E. subst c. exists (S n). cbn [slashes].
      rewrite PyJsonFacts.append_cons. now f_equal.
    + now exists 0.
  - induction p as [|c p IH]; [reflexivity|]. cbn [Py.lstrip].
    destruct (Ascii.eqb c "/") eqn:E; [exact IH|].
    apply Ascii.eqb_neq in E. unfold String.prefix.
    destruct (Ascii.ascii_dec _ c) as [<-|]; [contradiction | reflexivity].
Qed.

Lemma stripped_lstrip (p q : string) : stripped p q -> q = Py.lstrip "/" p.
Proof.
  intros [(n & ->) Hq]. induction n as [|n IH].
  - change (slashes 0 +:+ q) with q. destruct q as [|c q]; [reflexivity|].
    cbn [Py.lstrip]. unfold String.prefix in Hq.
    destruct (Ascii.ascii_dec "/" c) as [<-|Hc].
    + now destruct q.
    + assert (Ascii.eqb c "/" = false) as -> by (apply Ascii.eqb_neq; congruence).
      reflexivity.
  - cbn [slashes]. rewrite PyJsonFacts.append_cons. cbn [Py.lstrip].
    now rewrite Ascii.eqb_refl.
Qed.

(** The strings the loop of [delete_product] meets in a list or a dict. *)
Lemma py_iter_listed (v : json) :
  container v = true ->
  exists items, py_iter v = Ok items
                /\ forall p, List.In (JStr p) items <-> listed v p.
Proof.
  destruct v as [| | | |l|m]; try discriminate; intros _; cbn [py_iter listed].
  - exists l. split; [reflexivity | tauto].
  - eexists. split; [reflexivity|]. intros p. rewrite !List.in_map_iff. split.
    + intros (kv & [= <-] & Hin). eauto.
    + intros (kv & <- & Hin). eauto.
Qed.

Lemma remove_images_none (items : list json) (fs : gmap string bytes)
    (file : string) :
  fs !! file = None -> remove_images items fs !! file = None.
Proof.
  revert fs. induction items as [|x rest IH]; intros fs Hfs; cbn; [exact Hfs|].
  destruct x as [| | |p| |]; try (now apply IH).
  unfold os_remove. destruct (target (Py.lstrip "/" p)) as [k|]; [|now apply IH].
  destruct (fs !! k); apply IH; [|exact Hfs].
  rewrite lookup_delete. case_decide; [reflexivity | exact Hfs].
Qed.

(** Every target is gone after the loop, whether its removal failed or
    not. *)
Lemma remove_images_target (items : list json) (fs : gmap string bytes)
    (p file : string) :
  List.In (JStr p) items -> target (Py.lstrip "/" p) = Some file ->
  remove_images items fs !! file = None.
Proof.
  revert fs. induction items as [|x rest IH]; intros fs Hin Ht; cbn in *; [tauto|].
  destruct Hin as [-> | Hin].
  - unfold os_remove. rewrite Ht.
    destruct (fs !! file) eqn:E; apply remove_images_none;
      [apply lookup_delete_eq | exact E].
  - destruct x as [| | |p'| |]; try (now apply IH).
    destruct (os_remove _ fs); now apply IH.
Qed.

(** No other file is touched. *)
Lemma remove_images_other (items : list json) (fs : gmap string bytes)
    (file : string) :
  (forall p, List.In (JStr p) items -> target (Py.lstrip "/" p) <> Some file) ->
  remove_images items fs !! file = fs !! file.
Proof.
  revert fs. induction items as [|x rest IH]; intros fs Hno; cbn in *;
    [reflexivity|].
  assert (Hrest : forall p, List.In (JStr p) rest ->
                            target (Py.lstrip "/" p) <> Some file) by eauto.
  destruct x as [| | |p| |]; try (now apply IH).
  unfold os_remove. destruct (target (Py.lstrip "/" p)) as [k|] eqn:Ht;
    [|now apply IH].
  destruct (fs !! k); rewrite IH by exact Hrest; [|reflexivity].
  apply lookup_delete_ne. intros ->. apply (Hno p); [now left | exact Ht].
Qed.



(** Without a row delete changes nothing and reports success. *)
Lemma delete_product_absent (pid : string) (w : world) :
  select_by_product_id pid (db w) = None ->
  delete_product pid w = (w, Ok [("message", "Product deleted successfully")]).
Proof.
  intros Hsel. unfold delete_product. rewrite Hsel. f_equal.
  apply select_none in Hsel. rewrite (delete_where_absent _ _ Hsel).
  now destruct w.
Qed.

End Delete.

(** ** Stores built through the handlers *)

Section LawfulCodec.

Context {codec : JsonCodec} {host : Host}.

(** The values of [json] that stand for Python values, and the two laws of
    the [json] module the handlers rely on: what [loads] returns is such a
    value, and [loads] reads back what [dumps] writes for one. *)
Variable json_wf : json -> bool.
Hypothesis json_wf_str : forall s, json_wf (JStr s) = true.
Hypothesis json_wf_arr : forall l, json_wf (JArr l) = List.forallb json_wf l.
Hypothesis json_loads_wf : forall s v, json_loads s = Some v -> json_wf v = true.
Hypothesis json_loads_dumps :
  forall v, json_wf v = true -> json_loads (json_dumps v) = Some v.

(** Every images column holds the text of a list or a dict. *)
Local Abbreviation images_encoded w :=
  (List.Forall (fun r => exists v, images r = Some (json_dumps v)
                                   /\ json_wf v = true /\ container v = true)
               (rows (db w))).






End LawfulCodec.
(** ** Create: the arrays and the form *)

Section Create.

Context {codec : JsonCodec} {host : Host}.

Lemma to_products_raise (l : list row) (r : row) :
  List.In r l -> to_product r = Raise JSONDecodeError ->
  to_products l = Raise JSONDecodeError.
Proof.
  intros Hin Hr. induction l as [|x l IH]; [contradiction|]. cbn.
  pose proof (to_product_cases x) as Hx.
  destruct (to_product x) as [p|e] eqn:E; [|now subst e].
  destruct Hin as [-> | Hin]; [congruence|]. now rewrite IH.
Qed.

Lemma decode_column_refused (text : string) :
  text <> "" -> json_loads text = None ->
  decode_column (Some text) = Raise JSONDecodeError.
Proof.
  intros Hne Hl. unfold decode_column.
  destruct text as [|c text]; [contradiction|]. cbn. now rewrite Hl.
Qed.

Lemma find_absent (pid : string) (l : list row) :
  ~ List.In pid (List.map product_id l) ->
  List.find (fun r => String.eqb (product_id r) pid) l = None.
Proof.
  intros H. apply existsb_product_id_false in H.
  induction l as [|x l IH]; [reflexivity|]. cbn in *.
  destruct (String.eqb (product_id x) pid); [discriminate | now apply IH].
Qed.

Lemma find_app {A : Type} (p : A -> bool) (l l' : list A) :
  List.find p (l ++ l')
  = match List.find p l with
    | Some x => Some x
    | None => List.find p l'
    end.
Proof.
  induction l as [|x l IH]; [reflexivity|]. cbn. now destruct (p x).
Qed.

(** The row a create has appended is the one its identifier selects. *)
Lemma select_appended (t : table) (l : list row) (new : row) :
  ~ List.In (product_id new) (List.map product_id l) ->
  rows t = l ++ [new] ->
  select_by_product_id (product_id new) t = Some new.
Proof.
  intros Hfresh Hrows. unfold select_by_product_id. rewrite Hrows, find_app.
  rewrite (find_absent _ _ Hfresh). cbn. now rewrite String.eqb_refl.
Qed.

(** C4, as the code has it: create does not look into [sizes] and
    [colors].  Its answer and the files it writes are the same for any
    two pairs of texts, and an insertion that goes through stores both
    texts as they came; when one of them is a text that [json.loads]
    refuses, it is the reads of the new row, by its identifier and in the
    list, that fail. *)
Theorem create_stores_arrays_unchecked (f : form) (imgs : list UploadFile)
    (now : nat) (w : world) (sz cl : string) :
  snd (create_product (with_arrays f sz cl) imgs now w)
  = snd (create_product f imgs now w)
  /\ files (fst (create_product (with_arrays f sz cl) imgs now w))
     = files (fst (create_product f imgs now w))
  /\ match create_product (with_arrays f sz cl) imgs now w with
     | (w', Ok _) =>
         (exists new, rows (db w') = rows (db w) ++ [new]
                      /\ product_id new = generate_product_id (db w)
                      /\ sizes new = Some sz /\ colors new = Some cl)
         /\ ((sz <> "" /\ json_loads sz = None)
             \/ (cl <> "" /\ json_loads cl = None) ->
             get_product (generate_product_id (db w)) w' = Raise JSONDecodeError
             /\ get_products None w' = Raise JSONDecodeError)
     | (w', Raise _) => db w' = db w
     end.
Proof.
  assert (Hsame : forall g,
             create_product g imgs now w
             = let '(fs, saved) := save_images (generate_product_id (db w)) 0 imgs
                                               (files w) [] in
               match saved with
               | Raise e => ({| db := db w; files := fs |}, Raise e)
               | Ok image_paths =>
                   match insert (generate_product_id (db w)) g
                                (json_dumps (JArr (List.map JStr image_paths)))
                                now (db w) with
                   | Ok t => ({| db := t; files := fs |},
                              Ok [("message", "Product created successfully");
                                  ("product_id", generate_product_id (db w))])
                   | Raise e => ({| db := db w; files := fs |}, Raise e)
                   end
               end) by reflexivity.
  split; [|split].
  - rewrite !Hsame.
    destruct (save_images _ 0 imgs (files w) []) as [fs [paths|e]]; [|reflexivity].
    unfold insert. cbn [with_arrays f_price].
    now destruct (PrimFloat.is_nan (f_price f) || List.existsb _ (rows (db w))).
  - rewrite !Hsame.
    destruct (save_images _ 0 imgs (files w) []) as [fs [paths|e]]; [|reflexivity].
    unfold insert. cbn [with_arrays f_price].
    now destruct (PrimFloat.is_nan (f_price f) || List.existsb _ (rows (db w))).
  - pose proof (create_product_cases (with_arrays f sz cl) imgs now w) as H.
    cbn zeta in H.
    destruct (create_product (with_arrays f sz cl) imgs now w) as [w' [r|e]];
      [|apply H].
    destruct H as (_ & Hfresh & _ & _ & _ & _ & Hrows).
    cbn [with_arrays f_name f_type f_category f_details f_price f_sizes f_colors]
      in Hrows.
    split; [eexists; split; [exact Hrows | repeat split]|].
    intros Hbad.
    match type of Hrows with _ = _ ++ [?x] => set (new := x) in * end.
    assert (Hnew : to_product new = Raise JSONDecodeError).
    { unfold to_product. cbn [new sizes colors].
      destruct Hbad as [[Hne Hl] | [Hne Hl]].
      - now rewrite (decode_column_refused sz Hne Hl).
      - pose proof (decode_column_cases (Some sz)) as Hs.
        destruct (decode_column (Some sz)); [|now subst].
        now rewrite (decode_column_refused cl Hne Hl). }
    split.
    + unfold get_product.
      change (generate_product_id (db w)) with (product_id new).
      now rewrite (select_appended (db w') (rows (db w)) new Hfresh Hrows).
    + unfold get_products. cbn [Py.truthy].
      apply (to_products_raise _ new); [|exact Hnew].
      apply (Permutation_in _ (Permutation_sym
               (order_by_created_at_desc_perm (rows (db w'))))).
      rewrite Hrows. apply List.in_or_app. right. now left.
Qed.

Lemma save_images_none_named (pid : string) (imgs : list UploadFile) :
  named imgs = [] -> numbered pid imgs = [].
Proof.
  intros H. unfold numbered.
  pose proof (named_at_uploads 0 imgs) as E. rewrite H in E.
  now destruct (named_at 0 imgs).
Qed.

(** C5, as the code has it: the create form requires category, details
    and an images part next to name, type and price, an empty value being
    none: a request that lacks one of them is refused with a validation
    error and changes nothing, and a request with all of them, its upload
    files named, hands them to the handler.  When the handler runs on an
    empty store with upload files that carry no file name and a price that
    is a number, the product is created as [RW0001] without a file, its
    images column is the empty list, and get returns it with the price
    given and an empty images array. *)
Theorem create_requires_whole_form (cfg : settings)
    (credentials : HTTPBasicCredentials) (now : nat) :
  verify_admin cfg credentials = Ok (username credentials) ->
  (forall q w,
     r_name q = None \/ r_name q = Some "" \/ r_type q = None \/ r_type q = Some ""
     \/ r_category q = None \/ r_category q = Some ""
     \/ r_details q = None \/ r_details q = Some ""
     \/ r_price q = None \/ r_images q = [] ->
     post_admin_products cfg (Some credentials) q now w
     = (w, Raise RequestValidationError)
     /\ status (snd (post_admin_products cfg (Some credentials) q now w)) = 422)
  /\ (forall n t c d p image rest w,
        n <> "" -> t <> "" -> c <> "" -> d <> "" ->
        List.Forall (fun upload => exists fname, filename upload = Some fname
                                                 /\ fname <> "")
                    (image :: rest) ->
        post_admin_products cfg (Some credentials)
          {| r_name := Some n; r_type := Some t; r_category := Some c;
             r_details := Some d; r_price := Some p;
             r_sizes := None; r_colors := None; r_images := image :: rest |}
          now w
        = create_product {| f_name := n; f_type := t; f_category := c;
                            f_details := d; f_price := p;
                            f_sizes := "[]"; f_colors := "[]" |}
                         (image :: rest) now w)
  /\ (forall n t c d p imgs fs0,
        named imgs = [] ->
        PrimFloat.is_nan p = false ->
        json_loads "[]" = Some (JArr []) ->
        json_loads (json_dumps (JArr [])) = Some (JArr []) ->
        exists w',
          create_product {| f_name := n; f_type := t; f_category := c;
                            f_details := d; f_price := p;
                            f_sizes := "[]"; f_colors := "[]" |}
                         imgs now (fresh_world fs0)
          = (w', Ok [("message", "Product created successfully");
                     ("product_id", "RW0001")])
          /\ files w' = fs0
          /\ (exists r, rows (db w') = [r]
                        /\ images r = Some (json_dumps (JArr [])))
          /\ exists p', get_product "RW0001" w' = Ok p'
                        /\ p_name p' = n /\ p_type p' = t
                        /\ p_category p' = Some c
                        /\ p_price p' = real_column p
                        /\ p_images p' = JArr []).
Proof.
  intros Hadmin. split; [|split].
  - intros q w Hq.
    assert (Hb : bind_create q = Raise RequestValidationError).
    { unfold bind_create, form_value.
      destruct (r_name q) as [[|? ?]|], (r_type q) as [[|? ?]|],
        (r_category q) as [[|? ?]|], (r_details q) as [[|? ?]|],
        (r_price q), (r_images q); try reflexivity.
      repeat (destruct Hq as [Hq | Hq]; [discriminate Hq|]). discriminate Hq. }
    unfold post_admin_products. rewrite Hadmin, Hb. split; reflexivity.
  - intros n t c d p image rest w Hn Ht Hc Hd _.
    unfold post_admin_products. rewrite Hadmin.
    unfold bind_create, form_value.
    cbn [r_name r_type r_category r_details r_price r_sizes r_colors r_images].
    destruct n; [contradiction|]. destruct t; [contradiction|].
    destruct c; [contradiction|]. destruct d; [contradiction|]. reflexivity.
  - intros n t c d p imgs fs0 Hnamed Hnan Hempty Hround.
    set (f := {| f_name := n; f_type := t; f_category := c; f_details := d;
                 f_price := p; f_sizes := "[]"; f_colors := "[]" |}).
    pose proof (create_product_cases f imgs now (fresh_world fs0)) as H.
    cbn zeta in H.
    change (generate_product_id (db (fresh_world fs0))) with "RW0001" in H.
    rewrite (save_images_none_named "RW0001" imgs Hnamed) in H.
    destruct (create_product_ok f imgs now (fresh_world fs0)) as [w' Hrun].
    + cbn. tauto.
    + exact Hnan.
    + change (generate_product_id (db (fresh_world fs0))) with "RW0001".
      rewrite (save_images_none_named "RW0001" imgs Hnamed). constructor.
    + change (generate_product_id (db (fresh_world fs0))) with "RW0001" in Hrun.
      rewrite Hrun in H. destruct H as (_ & _ & _ & _ & Hfiles & _ & Hrows).
      cbn [fresh_world db files rows List.app List.map] in Hrows, Hfiles.
      exists w'. split; [exact Hrun|]. split; [exact Hfiles|].
      split; [eexists; split; [exact Hrows | reflexivity]|].
      unfold get_product, select_by_product_id. rewrite Hrows. cbn.
      unfold to_product, decode_column. cbn. rewrite Hempty.
      destruct (json_dumps (JArr [])) as [|a s] eqn:E.
      * cbn. eexists. split; [reflexivity|]. cbn. tauto.
      * cbn. rewrite Hround. eexists. split; [reflexivity|]. cbn. tauto.
Qed.

End Create.
(** ** The handlers run: scenarios of the specification *)

Section Scenarios.

(** C2: on update the index in a file name is [len(image_paths) + idx],
    and [image_paths] has grown by the time the second upload is named:
    with one retained image and two uploads the files are numbered 1 and
    3, not 1 and 2. *)
Theorem update_numbers_uploads_with_a_gap :
  let w' := fst (update_product "RW0001" tee (Some [side_png; back_png])
                                keep_first one_tee) in
  snd (update_product "RW0001" tee (Some [side_png; back_png]) keep_first one_tee)
  = Ok [("message", "Product updated successfully"); ("product_id", "RW0001")]
  /\ files w' !! "static/uploads/RW0001_1.png" = Some (content side_png)
  /\ files w' !! "static/uploads/RW0001_2.png" = None
  /\ files w' !! "static/uploads/RW0001_3.png" = Some (content back_png)
  /\ option_map images (select_by_product_id "RW0001" (db w'))
     = Some (Some (json_dumps
          (JArr [JStr "/static/uploads/RW0001_0.jpg";
                 JStr "/static/uploads/RW0001_1.png";
                 JStr "/static/uploads/RW0001_3.png"]))).
Proof. vm_compute. repeat split. Qed.

(** The create half of the naming: a batch of three parts, the second
    without a file name, is numbered by position, 0 and 2. *)
Example create_numbers_uploads_by_position :
  let w' := fst (create_product tee [front_jpg; blank_part; side_png] 100
                                (fresh_world ∅)) in
  files w' !! "static/uploads/RW0001_0.jpg" = Some (content front_jpg)
  /\ files w' !! "static/uploads/RW0001_1.png" = None
  /\ files w' !! "static/uploads/RW0001_2.png" = Some (content side_png).
Proof. vm_compute. repeat split. Qed.

(** What SQLite and the file system refuse: a price that is no number
    stops the insertion after the file is written, a file name that leads
    into a directory stops the loop before anything is inserted. *)
Example create_refused_by_the_surroundings :
  (let answer := create_product tee_nan [front_jpg] 100 (fresh_world ∅) in
   snd answer = Raise IntegrityError
   /\ rows (db (fst answer)) = []
   /\ files (fst answer) !! "static/uploads/RW0001_0.jpg"
      = Some (content front_jpg))
  /\ (let answer := create_product tee [front_jpg; nested_jpg; side_png] 100
                                   (fresh_world ∅) in
      snd answer = Raise OSError
      /\ rows (db (fst answer)) = []
      /\ files (fst answer) !! "static/uploads/RW0001_0.jpg"
         = Some (content front_jpg)
      /\ files (fst answer) !! "static/uploads/RW0001_2.png" = None).
Proof. vm_compute. repeat split. Qed.


Lemma update_images_retained_then_new_witness :
  exists w',
    update_product "RW0001" tee (Some [side_png]) keep_first one_tee
    = (w', Ok [("message", "Product updated successfully"); ("product_id", "RW0001")])
    /\ files w' !! "static/uploads/RW0001_1.png" = Some (content side_png)
    /\ exists r, select_by_product_id "RW0001" (db w') = Some r
                 /\ images r
                    = Some (json_dumps
                              (JArr [JStr "/static/uploads/RW0001_0.jpg";
                                     JStr "/static/uploads/RW0001_1.png"])).
Proof.
  destruct (update_images_retained_then_new "RW0001" tee (Some [side_png])
              keep_first one_tee tee_row [JStr "/static/uploads/RW0001_0.jpg"])
    as (w' & Hrun & Hfiles & _ & (r & Hsel & Himg) & _).
  - vm_compute. reflexivity.
  - vm_compute. reflexivity.
  - vm_compute. reflexivity.
  - vm_compute. repeat constructor.
  - exists w'. split; [exact Hrun|]. split.
    + inversion Hfiles as [|? ? ? ? Hfile _]; subst. exact Hfile.
    + exists r. split; [exact Hsel | exact Himg].
Defined.

(** The update of C3 seen through get: the retained path, then the new
    one. *)
Example update_then_get_images :
  option_map p_images
    (match get_product "RW0001"
             (fst (update_product "RW0001" tee (Some [side_png]) keep_first
                                  one_tee)) with
     | Ok p => Some p
     | Raise _ => None
     end)
  = Some (JArr [JStr "/static/uploads/RW0001_0.jpg";
                JStr "/static/uploads/RW0001_1.png"]).
Proof. vm_compute. reflexivity. Qed.

(** C4, as claimed, fails: a text that is no JSON is inserted as it came,
    and only the reads of the row fail afterwards. *)
Lemma create_accepts_malformed_sizes :
  json_loads "{oops" = None
  /\ exists w' r,
       create_product (with_arrays tee "{oops" "[]") [blank_part] 100
                      (fresh_world ∅)
       = (w', Ok [("message", "Product created successfully");
                  ("product_id", "RW0001")])
       /\ rows (db w') = [r] /\ sizes r = Some "{oops"
       /\ get_product "RW0001" w' = Raise JSONDecodeError
       /\ get_products None w' = Raise JSONDecodeError.
Proof.
  split; [vm_compute; reflexivity|].
  eexists. eexists. split; [vm_compute; reflexivity|].
  vm_compute. repeat split.
Qed.

Lemma create_stores_arrays_unchecked_witness :
  let w' := fst (create_product (with_arrays boot "{oops" "[]") [front_jpg] 200
                                one_tee) in
  snd (create_product (with_arrays boot "{oops" "[]") [front_jpg] 200 one_tee)
  = snd (create_product boot [front_jpg] 200 one_tee)
  /\ get_product "RW0002" w' = Raise JSONDecodeError
  /\ get_products None w' = Raise JSONDecodeError.
Proof.
  intros w'.
  pose proof (create_stores_arrays_unchecked boot [front_jpg] 200 one_tee
                "{oops" "[]") as (Hsame & _ & H).
  split; [exact Hsame|].
  assert (E : create_product (with_arrays boot "{oops" "[]") [front_jpg] 200 one_tee
              = (w', Ok [("message", "Product created successfully");
                         ("product_id", "RW0002")])).
  { vm_compute. reflexivity. }
  rewrite E in H. destruct H as [_ H]. apply H. left.
  split; [discriminate | vm_compute; reflexivity].
Defined.

(** C5, as claimed, fails: without category (and details, and an images
    part) the request is refused before the handler runs. *)
Lemma create_without_category_is_refused :
  verify_admin (settings_of ∅) admin = Ok "rimu_admin"
  /\ post_admin_products (settings_of ∅) (Some admin) tee_only 100 (fresh_world ∅)
     = (fresh_world ∅, Raise RequestValidationError)
  /\ status (snd (post_admin_products (settings_of ∅) (Some admin) tee_only 100
                    (fresh_world ∅))) = 422
  /\ post_admin_products (settings_of ∅) (Some admin) tee_without_category 100
                         (fresh_world ∅)
     = (fresh_world ∅, Raise RequestValidationError)
  /\ get_product "RW0001" (fresh_world ∅)
     = Raise (HTTPException 404 "Product not found").
Proof. vm_compute. repeat split. Qed.

Lemma create_requires_whole_form_witness :
  (post_admin_products (settings_of ∅) (Some admin) tee_only 100 (fresh_world ∅)
   = (fresh_world ∅, Raise RequestValidationError))
  /\ (post_admin_products (settings_of ∅) (Some admin)
        {| r_name := Some "Tee"; r_type := Some "apparel";
           r_category := Some "tops"; r_details := Some "Cotton tee";
           r_price := Some 19.99%float; r_sizes := None; r_colors := None;
           r_images := [front_jpg] |} 100 (fresh_world ∅)
      = create_product tee [front_jpg] 100 (fresh_world ∅))
  /\ (exists w',
        create_product tee [blank_part] 100 (fresh_world ∅)
        = (w', Ok [("message", "Product created successfully");
                   ("product_id", "RW0001")])
        /\ files w' = ∅
        /\ (exists r, rows (db w') = [r] /\ images r = Some "[]")
        /\ exists p', get_product "RW0001" w' = Ok p'
                      /\ p_name p' = "Tee" /\ p_type p' = "apparel"
                      /\ p_category p' = Some "tops"
                      /\ p_price p' = 19.99%float /\ p_images p' = JArr []).
Proof.
  destruct (@create_requires_whole_form py_json posix (settings_of ∅) admin 100)
    as (Hrefused & Hbound & Hcreated).
  - vm_compute. reflexivity.
  - split; [|split].
    + apply Hrefused. right. right. right. right. left. reflexivity.
    + apply (Hbound "Tee" "apparel" "tops" "Cotton tee" 19.99%float front_jpg []
               (fresh_world ∅)); try discriminate.
      constructor; [|constructor]. exists "front.jpg". split; [reflexivity|].
      discriminate.
    + apply (Hcreated "Tee" "apparel" "tops" "Cotton tee" 19.99%float
               [blank_part] ∅).
      * reflexivity.
      * vm_compute. reflexivity.
      * vm_compute. reflexivity.
      * vm_compute. reflexivity.
Defined.


(** The list above, computed: the two boots, the later one first. *)
Example list_shoes_newest_first :
  option_map (List.map (fun p => (p_product_id p, p_type p, p_created_at p)))
    (match get_products (Some "shoes") three_products with
     | Ok ps => Some ps
     | Raise _ => None
     end)
  = Some [("RW0003", "shoes", 300); ("RW0002", "shoes", 200)].
Proof. vm_compute. reflexivity. Qed.

Lemma update_keeps_identity_witness :
  exists w',
    update_product "RW0002" tee (Some [side_png]) "[]" three_products
    = (w', Ok [("message", "Product updated successfully"); ("product_id", "RW0002")])
    /\ seq (db w') = seq (db three_products)
    /\ List.map (fun r => (rowid r, product_id r, created_at r)) (rows (db w'))
       = [(1, "RW0001", 100); (2, "RW0002", 200); (3, "RW0003", 300)].
Proof.
  eexists. split; [vm_compute; reflexivity|].
  split.
  - eapply (update_keeps_identity "RW0002" tee (Some [side_png]) "[]"
              three_products).
    vm_compute. reflexivity.
  - vm_compute. reflexivity.
Defined.



(** Deleting a product of [three_products], and an identifier that is
    not there. *)
Example delete_removes_row_and_files :
  (let w' := fst (delete_product "RW0002" three_products) in
   snd (delete_product "RW0002" three_products)
   = Ok [("message", "Product deleted successfully")]
   /\ List.map product_id (rows (db w')) = ["RW0001"; "RW0003"]
   /\ files three_products !! "static/uploads/RW0002_0.jpg"
      = Some (content front_jpg)
   /\ files w' !! "static/uploads/RW0002_0.jpg" = None)
  /\ delete_product "RW0404" three_products
     = (three_products, Ok [("message", "Product deleted successfully")]).
Proof. vm_compute. repeat split. Qed.

End Scenarios.
(** * Further properties of the handlers *)

(** ** The admin check *)

Section AdminCheck.

Context {codec : JsonCodec} {host : Host}.

(** X1: when the configured pair and the supplied pair are ASCII,
    [verify_admin] returns the user name exactly when both the user name and
    the password are the configured ones, and raises 401 otherwise. *)
Theorem verify_admin_accepts_exactly (cfg : settings)
    (c : HTTPBasicCredentials) :
  is_ascii (ADMIN_USERNAME cfg) = true -> is_ascii (ADMIN_PASSWORD cfg) = true ->
  is_ascii (username c) = true -> is_ascii (password c) = true ->
  (username c = ADMIN_USERNAME cfg /\ password c = ADMIN_PASSWORD cfg ->
   verify_admin cfg c = Ok (username c))
  /\ (username c <> ADMIN_USERNAME cfg \/ password c <> ADMIN_PASSWORD cfg ->
      verify_admin cfg c = Raise (HTTPException 401 "Invalid credentials")).
Proof.
  intros HU HP Hu Hp. unfold verify_admin, compare_digest.
  rewrite Hu, HU, Hp, HP. cbn [andb]. split.
  - intros [-> ->]. now rewrite !String.eqb_refl.
  - intros [H | H]; apply String.eqb_neq in H; rewrite H; cbn;
      [reflexivity | now rewrite Bool.andb_false_r].
Qed.

Lemma verify_admin_raises (cfg : settings) (c : HTTPBasicCredentials) (e : exn) :
  verify_admin cfg c = Raise e ->
  e = TypeError \/ e = HTTPException 401 "Invalid credentials".
Proof.
  unfold verify_admin, compare_digest.
  destruct (is_ascii (username c) && is_ascii (ADMIN_USERNAME cfg));
    [|intros [= <-]; now left].
  destruct (is_ascii (password c) && is_ascii (ADMIN_PASSWORD cfg));
    [|intros [= <-]; now left].
  destruct (negb _); [intros [= <-]; now right | discriminate].
Qed.

(** X2: a request without credentials, or with credentials the check does
    not accept, changes nothing on any of the three admin routes; the
    answer is 401 when all four strings are ASCII. *)
Theorem admin_routes_reject_unauthorized (cfg : settings)
    (auth : option HTTPBasicCredentials) (qc : create_request)
    (qu : update_request) (pid : string) (now : nat) (w : world) :
  (forall c, auth = Some c -> verify_admin cfg c <> Ok (username c)) ->
  let answers := [post_admin_products cfg auth qc now w;
                  put_admin_products cfg auth pid qu w;
                  delete_admin_products cfg auth pid w] in
  List.Forall (fun a => fst a = w /\ (status (snd a) = 401 \/ status (snd a) = 500))
              answers
  /\ ((forall c, auth = Some c ->
         is_ascii (ADMIN_USERNAME cfg) = true /\ is_ascii (ADMIN_PASSWORD cfg) = true
         /\ is_ascii (username c) = true /\ is_ascii (password c) = true) ->
      List.Forall (fun a => status (snd a) = 401) answers).
Proof.
  intros Hbad answers. subst answers.
  unfold post_admin_products, put_admin_products, delete_admin_products.
  destruct auth as [c|].
  - specialize (Hbad c eq_refl).
    destruct (verify_admin cfg c) as [u|e] eqn:E.
    + exfalso. apply Hbad. f_equal.
      unfold verify_admin in E.
      destruct (compare_digest (username c) (ADMIN_USERNAME cfg)); [|discriminate].
      destruct (compare_digest (password c) (ADMIN_PASSWORD cfg)); [|discriminate].
      destruct (negb _); [discriminate | now injection E].
    + destruct (verify_admin_raises cfg c e E) as [-> | ->].
      * split; [repeat constructor; cbn; tauto|].
        intros Ha. destruct (Ha c eq_refl) as (HU & HP & Hu & Hp).
        exfalso. unfold verify_admin, compare_digest in E.
        rewrite Hu, HU, Hp, HP in E. cbn in E.
        destruct (negb _); discriminate.
      * split; [|intros _]; repeat constructor; cbn; tauto.
  - split; [|intros _]; repeat constructor; cbn; tauto.
Qed.

End AdminCheck.


(** ** The files the handlers write and remove *)

Section Files.

Context {codec : JsonCodec} {host : Host}.

(** X3: create writes one file per part that carries a file name, named
    by the position of the part in the batch, in order and up to the first
    that does not open.  When all open, all are written whether or not the
    insertion that follows goes through: a row it inserts lists the public
    paths of these files, and a refused insertion leaves the table as it
    was and the files written.  When one does not open, the parts before
    it are written and nothing is inserted. *)
Theorem create_writes_by_position (f : form) (imgs : list UploadFile)
    (now : nat) (w : world) :
  let pid := generate_product_id (db w) in
  let names := numbered pid imgs in
  List.length names = List.length (named imgs)
  /\ match create_product f imgs now w with
     | (w', Ok _) =>
         all_open names
         /\ files w' = write_all names (named imgs) (files w)
         /\ exists new,
              rows (db w') = rows (db w) ++ [new]
              /\ images new
                 = Some (json_dumps
                           (JArr (List.map JStr (List.map public_path names))))
     | (w', Raise e) =>
         db w' = db w
         /\ ((e = IntegrityError /\ all_open names
              /\ files w' = write_all names (named imgs) (files w))
             \/ (e = OSError
                 /\ exists k, k < List.length names
                      /\ opens (filepath (List.nth k names "")) = false
                      /\ files w' = write_all (List.firstn k names)
                                              (List.firstn k (named imgs))
                                              (files w)))
     end
  /\ (all_open names ->
      files (fst (create_product f imgs now w))
      = write_all names (named imgs) (files w)).
Proof.
  intros pid names. split; [apply numbered_length|].
  pose proof (create_product_cases f imgs now w) as H. cbn zeta in H.
  fold pid names in H.
  destruct (create_product f imgs now w) as [w' [r|e]]; cbn [fst].
  - destruct H as (_ & _ & _ & Ho & Hfiles & _ & Hrows).
    split; [|intros _; exact Hfiles].
    split; [exact Ho|]. split; [exact Hfiles|].
    eexists. split; [exact Hrows | reflexivity].
  - destruct H as (Hdb & [(-> & _ & Ho & Hfiles) | (-> & k & Hk & Hno & Ho & Hfiles)]).
    + split; [|intros _; exact Hfiles]. split; [exact Hdb|]. left. tauto.
    + split.
      * split; [exact Hdb|]. right. split; [reflexivity|]. exists k. tauto.
      * intros Hall. rewrite (all_open_nth _ _ Hall Hk) in Hno. discriminate.
Qed.

(** X4: an update that persists uploads next to [r] retained images gives
    the [k]-th persisted upload, at position [i] of the batch, the index
    [r + k + i].  When these files open it writes them all, and with a
    price that is a number it stores the retained list followed by their
    public paths; a price that is no number is refused after the files are
    written, the table as it was. *)
Theorem update_writes_renumbered (pid : string) (f : form)
    (imgs : list UploadFile) (existing_images : string) (w : world) (r0 : row)
    (l : list json) :
  select_by_product_id pid (db w) = Some r0 ->
  json_loads existing_images = Some (JArr l) ->
  has_uploads (Some imgs) = true ->
  let names := renumbered pid (List.length l) imgs in
  all_open names ->
  let w' := fst (update_product pid f (Some imgs) existing_images w) in
  files w' = write_all names (named imgs) (files w)
  /\ List.length names = List.length (named imgs)
  /\ (PrimFloat.is_nan (f_price f) = false ->
      snd (update_product pid f (Some imgs) existing_images w)
      = Ok [("message", "Product updated successfully"); ("product_id", pid)]
      /\ exists r, select_by_product_id pid (db w') = Some r
                   /\ images r
                      = Some (json_dumps
                                (JArr (l ++ List.map (fun n => JStr (public_path n))
                                                     names))))
  /\ (PrimFloat.is_nan (f_price f) = true ->
      snd (update_product pid f (Some imgs) existing_images w)
      = Raise IntegrityError
      /\ db w' = db w).
Proof.
  intros Hsel Hload Hup names Ho w'. subst w'.
  pose proof (update_product_list pid f (Some imgs) existing_images w r0 l
                Hsel Hload) as H.
  cbn zeta in H. rewrite Hup in H. cbn [default from_option id] in H.
  fold names in H.
  destruct (update_product pid f (Some imgs) existing_images w) as [w' [r|e]];
    cbn [fst snd].
  - destruct H as (-> & Hnan & _ & Hfiles & Hdb).
    split; [exact Hfiles|]. split; [apply renumbered_length|]. split.
    + intros _. split; [reflexivity|]. rewrite Hdb. eexists.
      split; [apply select_update_where; exact Hsel | reflexivity].
    + intros Hn. congruence.
  - destruct H as (Hdb & [(-> & Hnan & _ & Hfiles) | (-> & k & Hk & Hno & _)]).
    + split; [exact Hfiles|]. split; [apply renumbered_length|]. split.
      * intros Hn. congruence.
      * intros _. split; [reflexivity | exact Hdb].
    + rewrite (all_open_nth _ _ Ho Hk) in Hno. discriminate.
Qed.

End Files.

Section Confinement.

Context {codec : JsonCodec} {host : Host}.

Lemma prefix_append (p t : string) : String.prefix p (p +:+ t) = true.
Proof.
  induction p as [|c p IH]; [now destruct t|].
  rewrite PyJsonFacts.append_cons. cbn [String.prefix].
  destruct (Ascii.ascii_dec c c); [exact IH | contradiction].
Qed.

Lemma filepath_prefix (pid : string) (index : nat) (image : UploadFile) :
  String.prefix ("static/uploads/" +:+ pid +:+ "_")
                (filepath (upload_name pid index image)) = true.
Proof.
  unfold filepath, upload_name.
  rewrite <- !PyJsonFacts.append_assoc. rewrite !PyJsonFacts.append_assoc.
  replace ("static/uploads/" +:+ pid +:+ "_" +:+ Py.str index +:+ "." +:+
           Py.last_item (Py.split "." (default "" (filename image))))
    with (("static/uploads/" +:+ pid +:+ "_") +:+ Py.str index +:+ "." +:+
          Py.last_item (Py.split "." (default "" (filename image))))
    by (now rewrite !PyJsonFacts.append_assoc).
  apply prefix_append.
Qed.

Lemma insert_upload_other (pid : string) (index : nat) (image : UploadFile)
    (fs : gmap string bytes) (path : string) :
  String.prefix ("static/uploads/" +:+ pid +:+ "_") path = false ->
  <[filepath (upload_name pid index image) := content image]> fs !! path
  = fs !! path.
Proof.
  intros Hp. apply lookup_insert_ne. intros <-.
  rewrite filepath_prefix in Hp. discriminate.
Qed.

Lemma write_file_other (pid : string) (index : nat) (image : UploadFile)
    (fs fs' : gmap string bytes) (path : string) :
  String.prefix ("static/uploads/" +:+ pid +:+ "_") path = false ->
  write_file (filepath (upload_name pid index image)) (content image) fs = Ok fs' ->
  fs' !! path = fs !! path.
Proof.
  intros Hp. unfold write_file. destruct (opens _); [|discriminate].
  intros [= <-]. now apply insert_upload_other.
Qed.

Lemma save_images_other (pid : string) (imgs : list UploadFile) (idx : nat)
    (fs : gmap string bytes) (acc : list string) (path : string) :
  String.prefix ("static/uploads/" +:+ pid +:+ "_") path = false ->
  fst (save_images pid idx imgs fs acc) !! path = fs !! path.
Proof.
  intros Hp. revert idx fs acc.
  induction imgs as [|image rest IH]; intros idx fs acc; cbn; [reflexivity|].
  destruct (Py.truthy (filename image)); [|apply IH].
  destruct (write_file _ _ fs) as [fs'|e] eqn:W; [|reflexivity].
  rewrite IH. now apply (write_file_other pid idx image).
Qed.

Lemma save_new_images_other (pid : string) (imgs : list UploadFile) (idx : nat)
    (fs : gmap string bytes) (v : json) (path : string) :
  String.prefix ("static/uploads/" +:+ pid +:+ "_") path = false ->
  fst (save_new_images pid idx imgs fs v) !! path = fs !! path.
Proof.
  intros Hp. revert idx fs v.
  induction imgs as [|image rest IH]; intros idx fs v; cbn; [reflexivity|].
  destruct (Py.truthy (filename image)); [|apply IH].
  destruct (py_len v) as [n|e]; [|reflexivity].
  destruct (write_file _ _ fs) as [fs'|e] eqn:W; [|reflexivity].
  apply (write_file_other pid (n + idx) image _ _ path Hp) in W.
  destruct (py_append v _) as [v'|e]; cbn [fst]; [now rewrite IH | exact W].
Qed.

(** X5: create and update write nowhere but under
    [static/uploads/<product_id>_]: every other path holds after the call
    what it held before, whatever the call answers. *)
Theorem writes_stay_under_product_prefix (f : form) (imgs : list UploadFile)
    (now : nat) (pid : string) (uploads : option (list UploadFile))
    (existing_images : string) (w : world) (path : string) :
  (String.prefix ("static/uploads/" +:+ generate_product_id (db w) +:+ "_") path
   = false ->
   files (fst (create_product f imgs now w)) !! path = files w !! path)
  /\ (String.prefix ("static/uploads/" +:+ pid +:+ "_") path = false ->
      files (fst (update_product pid f uploads existing_images w)) !! path
      = files w !! path).
Proof.
  split; intros Hp.
  - unfold create_product.
    pose proof (save_images_other _ imgs 0 (files w) [] path Hp) as H.
    destruct (save_images _ 0 imgs (files w) []) as [fs [paths|e]];
      cbn [fst] in H; [|exact H].
    now destruct (insert _ _ _ _ _).
  - unfold update_product.
    destruct (select_by_product_id pid (db w)); [|reflexivity].
    destruct (json_loads existing_images) as [v|]; [|reflexivity].
    destruct (py_copy v) as [paths|]; [|reflexivity].
    assert (Hfs : forall fs text,
               files (fst (match update pid f text (db w) with
                           | Ok t => ({| db := t; files := fs |},
                                      Ok [("message", "Product updated successfully");
                                          ("product_id", pid)])
                           | Raise e => ({| db := db w; files := fs |}, Raise e)
                           end)) = fs).
    { intros fs text. now destruct (update pid f text (db w)). }
    destruct (has_uploads uploads).
    + pose proof (save_new_images_other pid (default [] uploads) 0 (files w)
                    paths path Hp) as H.
      destruct (save_new_images pid 0 (default [] uploads) (files w) paths)
        as [fs [paths'|e]]; cbn [fst] in H; [|exact H].
      now rewrite Hfs.
    + now rewrite Hfs.
Qed.

(** X6: what a delete removes, in any store.  When the images column of
    the row holds a text that [json.loads] reads as a list or a dict, the
    files gone after the call are those that [os.remove] unlinks for one of
    its strings, leading slashes stripped; every other file holds what it
    held before, whatever the call answers. *)
Theorem delete_removes_what_is_listed (pid : string) (w : world) (r : row)
    (text : string) (v : json) (file : string) :
  select_by_product_id pid (db w) = Some r ->
  images r = Some text ->
  json_loads text = Some v ->
  container v = true ->
  (unlinks v file -> files (fst (delete_product pid w)) !! file = None)
  /\ (~ unlinks v file ->
      files (fst (delete_product pid w)) !! file = files w !! file).
Proof.
  intros Hsel Himg Hload Hc. unfold delete_product. rewrite Hsel, Himg, Hload.
  destruct (py_iter_listed v Hc) as (items & -> & Hitems).
  destruct (database_unlinked items); cbn [fst files]; split.
  all: try (intros (p & q & Hp & Hq & Ht); apply stripped_lstrip in Hq; subst q;
            apply (remove_images_target items (files w) p);
            [now apply Hitems | exact Ht]).
  all: intros Hno; apply remove_images_other; intros p Hp Ht; apply Hno;
    exists p, (Py.lstrip "/" p); (split; [now apply Hitems|]);
    split; [apply lstrip_stripped | exact Ht].
Qed.

End Confinement.

(** ** The extension of an uploaded file *)

Section Extension.

Lemma split_dot_cases (s : string) :
  exists seg more,
    Py.split "." s = seg :: more
    /\ has_dot (List.last (seg :: more) "") = false
    /\ (has_dot s = false -> more = [] /\ seg = s)
    /\ (has_dot s = true ->
        more <> [] /\ exists stem, s = stem +:+ "." +:+ List.last (seg :: more) "").
Proof.
  induction s as [|c rest (seg & more & Hsplit & Hlast & Hno & Hyes)].
  - exists "", []. repeat split; discriminate.
  - cbn [Py.split has_dot]. rewrite Hsplit.
    destruct (Ascii.eqb c ".") eqn:E.
    + apply Ascii.eqb_eq in E. subst c. exists "", (seg :: more).
      split; [reflexivity|]. split; [exact Hlast|].
      split; [discriminate|]. intros _. split; [discriminate|].
      change (List.last ("" :: seg :: more) "") with (List.last (seg :: more) "").
      destruct (has_dot rest) eqn:D.
      * destruct (Hyes eq_refl) as (_ & stem & Hs).
        exists (String "." stem). rewrite PyJsonFacts.append_cons. now f_equal.
      * destruct (Hno eq_refl) as (-> & ->). now exists "".
    + exists (String c seg), more. split; [reflexivity|]. cbn [orb].
      destruct more as [|seg2 more].
      * cbn [List.last] in *. split; [cbn; now rewrite E|].
        split.
        -- intros D. destruct (Hno D) as (_ & ->). tauto.
        -- intros D. destruct (Hyes D) as (Hne & _). contradiction.
      * change (List.last (String c seg :: seg2 :: more) "")
          with (List.last (seg :: seg2 :: more) "").
        split; [exact Hlast|]. split.
        -- intros D. destruct (Hno D) as (Hnil & _). discriminate.
        -- intros D. split; [discriminate|].
           destruct (Hyes D) as (_ & stem & Hs).
           exists (String c stem). rewrite PyJsonFacts.append_cons. now f_equal.
Qed.

(** X7: the extension taken from a file name contains no dot; it is the
    whole name when the name has no dot, and otherwise the name is some
    stem, a dot and the extension. *)
Theorem extension_after_last_dot (fname : string) :
  has_dot (extension fname) = false
  /\ (has_dot fname = false -> extension fname = fname)
  /\ (has_dot fname = true ->
      exists stem, fname = stem +:+ "." +:+ extension fname).
Proof.
  unfold extension, Py.last_item.
  destruct (split_dot_cases fname) as (seg & more & -> & Hlast & Hno & Hyes).
  split; [exact Hlast|]. split.
  - intros D. destruct (Hno D) as (-> & ->). reflexivity.
  - intros D. now destruct (Hyes D).
Qed.

End Extension.
(** ** How the calls compose *)

Section Composition.

Context {codec : JsonCodec} {host : Host}.

Lemma select_absent_after_delete (pid : string) (t : table) :
  select_by_product_id pid (delete_where pid t) = None.
Proof.
  apply select_none. rewrite product_id_delete_where. intros Hin.
  apply List.filter_In in Hin. destruct Hin as [_ E].
  now rewrite String.eqb_refl in E.
Qed.

Lemma delete_product_ok (pid : string) (w w' : world) (r : reply) :
  delete_product pid w = (w', Ok r) ->
  db w' = delete_where pid (db w)
  /\ r = [("message", "Product deleted successfully")].
Proof.
  intros Hrun. pose proof (delete_product_db pid w) as H. rewrite Hrun in H.
  tauto.
Qed.

(** X8: once a delete has succeeded the identifier is gone: get and update
    answer 404 and change nothing, and a second delete succeeds again
    without changing anything. *)
Theorem delete_then_gone (pid : string) (w w' : world) (r : reply) :
  delete_product pid w = (w', Ok r) ->
  get_product pid w' = Raise (HTTPException 404 "Product not found")
  /\ (forall f imgs existing_images,
        update_product pid f imgs existing_images w'
        = (w', Raise (HTTPException 404 "Product not found")))
  /\ delete_product pid w' = (w', Ok [("message", "Product deleted successfully")]).
Proof.
  intros H. apply delete_product_ok in H. destruct H as [Hdb _].
  assert (Hsel : select_by_product_id pid (db w') = None).
  { rewrite Hdb. apply select_absent_after_delete. }
  split; [|split].
  - unfold get_product. now rewrite Hsel.
  - intros f imgs ex. unfold update_product. now rewrite Hsel.
  - now apply delete_product_absent.
Qed.

Lemma filter_other_ids_length (g : nat -> string) (k n : nat) :
  (forall a b, g a = g b -> a = b) ->
  List.length (List.filter (fun p => negb (String.eqb p (g k)))
                           (List.map g (List.seq 0 n)))
  = n - (if Nat.ltb k n then 1 else 0).
Proof.
  intros Hinj. induction n as [|n IH]; [reflexivity|].
  rewrite List.seq_S, List.map_app, List.filter_app, List.length_app, IH.
  cbn [List.map List.filter Nat.add].
  destruct (String.eqb (g n) (g k)) eqn:E.
  - apply String.eqb_eq, Hinj in E. subst k.
    rewrite Nat.ltb_irrefl. cbn [negb List.length].
    destruct (Nat.ltb_spec n (S n)); lia.
  - assert (n <> k) by (intros ->; now rewrite String.eqb_refl in E).
    cbn [negb List.length].
    destruct (Nat.ltb_spec k n), (Nat.ltb_spec k (S n)); lia.
Qed.

(** X9: the next identifier is counted, not remembered.  In a store that
    holds the products 1 to [n], deleting one that is not the last makes
    the next create fail, the table unchanged: on the [UNIQUE] column when
    its files open, since the identifier of the count is still taken.
    Deleting the last one makes the next create, with a price that is a
    number and files that open, give its identifier to the new product. *)
Theorem create_after_delete (w w' : world) (n k : nat) (r : reply)
    (f : form) (imgs : list UploadFile) (now : nat) :
  product_ids w
  = List.map (fun j => "RW" +:+ Py.format_04d (j + 1)) (List.seq 0 n) ->
  k < n ->
  delete_product ("RW" +:+ Py.format_04d (k + 1)) w = (w', Ok r) ->
  (k + 1 < n ->
   (exists e, snd (create_product f imgs now w') = Raise e
              /\ (all_open (numbered (generate_product_id (db w')) imgs) ->
                  e = IntegrityError))
   /\ db (fst (create_product f imgs now w')) = db w')
  /\ (k + 1 = n ->
      PrimFloat.is_nan (f_price f) = false ->
      all_open (numbered ("RW" +:+ Py.format_04d (k + 1)) imgs) ->
      snd (create_product f imgs now w')
      = Ok [("message", "Product created successfully");
            ("product_id", "RW" +:+ Py.format_04d (k + 1))]).
Proof.
  intros Hids Hk Hdel. apply delete_product_ok in Hdel. destruct Hdel as [Hdb _].
  set (g := fun j => "RW" +:+ Py.format_04d (j + 1)) in *.
  assert (Hinj : forall a b, g a = g b -> a = b).
  { intros a b E. injection E as E. apply format_04d_inj in E. lia. }
  assert (Hids' : product_ids w'
                  = List.filter (fun p => negb (String.eqb p (g k)))
                                (List.map g (List.seq 0 n))).
  { unfold product_ids. rewrite Hdb, product_id_delete_where. now rewrite <- Hids. }
  assert (Hgen : generate_product_id (db w') = g (n - 1)).
  { unfold generate_product_id, select_count.
    rewrite <- (List.length_map product_id). fold (product_ids w').
    rewrite Hids', (filter_other_ids_length g k n Hinj).
    destruct (Nat.ltb_spec k n); [|lia]. unfold g. reflexivity. }
  split.
  - intros Hlt.
    assert (Htaken : List.In (generate_product_id (db w')) (product_ids w')).
    { rewrite Hgen, Hids'. apply List.filter_In. split.
      - apply List.in_map, List.in_seq. lia.
      - apply Bool.negb_true_iff, String.eqb_neq. intros E. apply Hinj in E. lia. }
    pose proof (create_product_cases f imgs now w') as H. cbn zeta in H.
    destruct (create_product f imgs now w') as [w2 [r2|e]]; cbn [fst snd].
    + exfalso. destruct H as (_ & Hfresh & _). contradiction.
    + destruct H as (Hdb2 & Hwhy). split; [|exact Hdb2].
      exists e. split; [reflexivity|]. intros Ho.
      destruct Hwhy as [(-> & _) | (_ & j & Hj & Hno & _)]; [reflexivity|].
      rewrite (all_open_nth _ _ Ho Hj) in Hno. discriminate.
  - intros Heq Hnan Ho. subst n.
    replace (k + 1 - 1) with k in Hgen by lia.
    destruct (create_product_ok f imgs now w') as [w2 ->].
    + rewrite Hgen, Hids'. intros Hin. apply List.filter_In in Hin.
      destruct Hin as [_ E]. now rewrite String.eqb_refl in E.
    + exact Hnan.
    + rewrite Hgen. exact Ho.
    + cbn [snd]. now rewrite Hgen.
Qed.

(** X10: an update that fails leaves the table as it was.  It fails with
    404 when no row has the identifier, with a decode error when
    [existing_images] is no JSON text, and with an attribute error when that
    text is neither a list nor a dict, all three before any file is
    written; with an attribute error when it is a dict and uploads are to
    be appended to it; with the error of [open] when the file of an upload
    does not open; and on the [NOT NULL] column when the price is no
    number. *)
Theorem update_failure_keeps_table (pid : string) (f : form)
    (imgs : option (list UploadFile)) (existing_images : string)
    (w w' : world) (e : exn) :
  update_product pid f imgs existing_images w = (w', Raise e) ->
  db w' = db w
  /\ ((e = HTTPException 404 "Product not found"
       /\ select_by_product_id pid (db w) = None /\ w' = w)
      \/ (e = JSONDecodeError /\ json_loads existing_images = None /\ w' = w)
      \/ (e = AttributeError
          /\ exists v, json_loads existing_images = Some v
                       /\ ((container v = false /\ w' = w)
                           \/ ((exists m, v = JObj m) /\ has_uploads imgs = true)))
      \/ (e = OSError /\ has_uploads imgs = true
          /\ exists fname, opens (filepath fname) = false)
      \/ (e = IntegrityError /\ PrimFloat.is_nan (f_price f) = true)).
Proof.
  unfold update_product.
  destruct (select_by_product_id pid (db w)) as [r0|] eqn:Hsel;
    [|intros [= <- <-]; split; [reflexivity | left; tauto]].
  destruct (json_loads existing_images) as [v|];
    [|intros [= <- <-]; split; [reflexivity | right; left; tauto]].
  destruct (py_copy v) as [paths|e0] eqn:C.
  - assert (Hc : container paths = true /\ paths = v).
    { destruct v; cbn in C; inversion C; subst; split; reflexivity. }
    destruct Hc as [Hc ->].
    assert (Hup : forall fs text,
               match update pid f text (db w) with
               | Ok t => ({| db := t; files := fs |},
                          Ok [("message", "Product updated successfully");
                              ("product_id", pid)])
               | Raise e => ({| db := db w; files := fs |}, Raise e)
               end = (w', Raise e) ->
               db w' = db w
               /\ e = IntegrityError /\ PrimFloat.is_nan (f_price f) = true).
    { intros fs text. rewrite (update_cases _ _ _ _ _ Hsel).
      destruct (PrimFloat.is_nan (f_price f)); [|discriminate].
      intros [= <- <-]. repeat split. }
    destruct (has_uploads imgs) eqn:U.
    + pose proof (save_new_images_container pid (default [] imgs) 0 (files w) v) as H.
      destruct (save_new_images pid 0 (default [] imgs) (files w) v)
        as [fs [paths'|e1]].
      * intros Hrun. apply Hup in Hrun. destruct Hrun as (Hdb & -> & Hnan).
        split; [exact Hdb|]. right; right; right; right. tauto.
      * intros [= <- <-]. split; [reflexivity|].
        destruct (H e1 Hc eq_refl) as [(-> & Hno) | (-> & Hm)].
        -- right; right; right; left. tauto.
        -- right; right; left. split; [reflexivity|]. exists v. tauto.
    + intros Hrun. apply Hup in Hrun. destruct Hrun as (Hdb & -> & Hnan).
      split; [exact Hdb|]. right; right; right; right. tauto.
  - intros [= <- <-]. split; [reflexivity|]. right; right; left.
    assert (e0 = AttributeError /\ container v = false) as [-> Hc].
    { destruct v; cbn in C; inversion C; split; reflexivity. }
    split; [reflexivity|]. exists v. tauto.
Qed.

Lemma select_update_where_other (pid pid' : string) (f : form) (imgs : string)
    (t : table) :
  pid' <> pid ->
  select_by_product_id pid' (update_where pid f imgs t)
  = select_by_product_id pid' t.
Proof.
  intros Hne. unfold select_by_product_id, update_where. cbn [rows].
  induction (rows t) as [|x l IH]; [reflexivity|]. cbn [List.map List.find].
  destruct (String.eqb (product_id x) pid) eqn:E.
  - apply String.eqb_eq in E. cbn [set_fields product_id].
    assert (String.eqb (product_id x) pid' = false) as ->
      by (apply String.eqb_neq; congruence).
    exact IH.
  - destruct (String.eqb (product_id x) pid'); [reflexivity | exact IH].
Qed.

Lemma select_delete_where_other (pid pid' : string) (t : table) :
  pid' <> pid ->
  select_by_product_id pid' (delete_where pid t) = select_by_product_id pid' t.
Proof.
  intros Hne. unfold select_by_product_id, delete_where. cbn [rows].
  induction (rows t) as [|x l IH]; [reflexivity|]. cbn [List.filter List.find].
  destruct (String.eqb (product_id x) pid) eqn:E; cbn [negb].
  - apply String.eqb_eq in E.
    assert (String.eqb (product_id x) pid' = false) as ->
      by (apply String.eqb_neq; congruence).
    exact IH.
  - cbn [List.find]. destruct (String.eqb (product_id x) pid');
      [reflexivity | exact IH].
Qed.


Lemma select_insert_other (pid pid' : string) (f : form) (imgs : string)
    (now : nat) (t t' : table) :
  pid' <> pid -> insert pid f imgs now t = Ok t' ->
  select_by_product_id pid' t' = select_by_product_id pid' t.
Proof.
  intros Hne E. pose proof (insert_cases pid f imgs now t) as H.
  rewrite E in H. destruct H as (_ & _ & _ & Hrows).
  unfold select_by_product_id. rewrite Hrows, find_app.
  destruct (List.find _ (rows t)); [reflexivity|]. cbn.
  now apply String.eqb_neq in Hne; rewrite String.eqb_sym, Hne.
Qed.

(** X11: a call leaves every other product alone: get of an identifier
    that the call is not about (for a create: that it does not assign)
    answers after the call what it answered before, unless the call is a
    delete that has lost the database. *)
Theorem other_products_untouched (c : call) (w : world) (pid' : string) :
  match c with
  | Create _ _ _ => pid' <> generate_product_id (db w)
  | Update pid _ _ _ => pid' <> pid
  | Delete pid => pid' <> pid /\ snd (serve c w) <> Raise OperationalError
  end ->
  get_product pid' (fst (serve c w)) = get_product pid' w.
Proof.
  unfold get_product. intros Hne.
  destruct (serve_db c w) as [-> | H]; [reflexivity|].
  destruct c as [f imgs now | pid f imgs ex | pid].
  - destruct H as (text & E).
    now rewrite (select_insert_other _ _ _ _ _ _ _ Hne E).
  - destruct H as (text & ->). now rewrite select_update_where_other.
  - rewrite H. now rewrite select_delete_where_other.
Qed.


End Composition.
(** ** Invariants of the stores the handlers build *)

Section Invariants.

Context {codec : JsonCodec} {host : Host}.

(** X13: the identifier [generate_product_id] returns is [RW] followed by
    at least four characters that read back, as a decimal number, as the
    row count plus one; two tables get the same identifier exactly when
    they hold the same number of rows. *)
Theorem next_product_id_reads_back (t t' : table) :
  (exists digits,
     generate_product_id t = "RW" +:+ digits
     /\ 4 <= String.length digits
     /\ option_map Nat.of_uint (NilEmpty.uint_of_string digits)
        = Some (select_count t + 1))
  /\ (generate_product_id t = generate_product_id t'
      <-> select_count t = select_count t').
Proof.
  split.
  - exists (Py.format_04d (select_count t + 1)). split; [reflexivity|].
    split; [apply format_04d_length | apply format_04d_value].
  - split; [apply generate_product_id_inj|].
    unfold generate_product_id. cbn zeta. now intros ->.
Qed.



Lemma sorted_snoc {A : Type} (R : A -> A -> Prop) (l : list A) (y : A) :
  StronglySorted R l -> List.Forall (fun x => R x y) l ->
  StronglySorted R (l ++ [y]).
Proof.
  induction 1 as [|x l Hs IH Hx]; intros Hy; cbn.
  - repeat constructor.
  - inversion Hy as [|? ? Hxy Hly]; subst. constructor; [now apply IH|].
    apply List.Forall_app. split; [exact Hx | repeat constructor; exact Hxy].
Qed.

Lemma sorted_filter {A : Type} (R : A -> A -> Prop) (p : A -> bool) (l : list A) :
  StronglySorted R l -> StronglySorted R (List.filter p l).
Proof.
  induction 1 as [|x l Hs IH Hx]; cbn; [constructor|].
  destruct (p x); [|exact IH]. constructor; [exact IH|].
  apply List.Forall_forall. intros y Hy. apply List.filter_In in Hy.
  rewrite List.Forall_forall in Hx. now apply Hx.
Qed.

Lemma sorted_map_rowid (g : row -> row) (l : list row) :
  (forall r, rowid (g r) = rowid r) ->
  StronglySorted (fun a b => rowid a < rowid b) l ->
  StronglySorted (fun a b => rowid a < rowid b) (List.map g l).
Proof.
  intros Hg. induction 1 as [|x l Hs IH Hx]; cbn; [constructor|].
  constructor; [exact IH|]. apply List.Forall_map.
  eapply List.Forall_impl; [|exact Hx]. intros r Hr. cbn. now rewrite !Hg.
Qed.


Lemma serve_rowids (c : call) (w : world) :
  StronglySorted (fun a b => rowid a < rowid b) (rows (db w))
  /\ List.Forall (fun r => 1 <= rowid r <= seq (db w)) (rows (db w)) ->
  StronglySorted (fun a b => rowid a < rowid b) (rows (db (fst (serve c w))))
  /\ List.Forall (fun r => 1 <= rowid r <= seq (db (fst (serve c w))))
                 (rows (db (fst (serve c w))))
  /\ seq (db w) <= seq (db (fst (serve c w)))
  /\ List.Forall (fun r => List.In (rowid r) (List.map rowid (rows (db w)))
                           \/ seq (db w) < rowid r)
                 (rows (db (fst (serve c w)))).
Proof.
  intros [Hs Hb].
  assert (Hold : List.Forall
                   (fun r => List.In (rowid r) (List.map rowid (rows (db w)))
                             \/ seq (db w) < rowid r) (rows (db w))).
  { apply List.Forall_forall. intros r Hr. left. now apply List.in_map. }
  destruct (serve_db c w) as [-> | H]; [repeat split; auto|].
  destruct c as [f imgs now | p f imgs ex | p].
  - destruct H as (text & E).
    pose proof (insert_cases (generate_product_id (db w)) f text now (db w)) as Hi.
    rewrite E in Hi. destruct Hi as (_ & _ & -> & ->).
    split; [|split; [|split; [lia|]]].
    + apply sorted_snoc; [exact Hs|].
      eapply List.Forall_impl; [|exact Hb]. cbn. intros; lia.
    + apply List.Forall_app. split.
      * eapply List.Forall_impl; [|exact Hb]. cbn. intros; lia.
      * constructor; [cbn; lia | constructor].
    + apply List.Forall_app. split; [exact Hold|].
      constructor; [right; cbn; lia | constructor].
  - destruct H as (text & ->). cbn [update_where rows seq].
    split; [|split; [|split; [lia|]]].
    + apply sorted_map_rowid; [|exact Hs].
      intros x. now destruct (String.eqb (product_id x) p).
    + apply List.Forall_map. eapply List.Forall_impl; [|exact Hb].
      intros x Hx. cbn beta. now destruct (String.eqb (product_id x) p).
    + apply List.Forall_map. eapply List.Forall_impl; [|exact Hold].
      intros x Hx. cbn beta. now destruct (String.eqb (product_id x) p).
  - rewrite H. cbn [delete_where rows seq].
    split; [|split; [|split; [lia|]]].
    + now apply sorted_filter.
    + apply List.Forall_forall. intros r Hr. apply List.filter_In in Hr.
      rewrite List.Forall_forall in Hb. now apply Hb.
    + apply List.Forall_forall. intros r Hr. apply List.filter_In in Hr.
      rewrite List.Forall_forall in Hold. now apply Hold.
Qed.

(** X15: in every store that admin calls built from the empty table the
    [id] column grows strictly along the table and stays within the
    [AUTOINCREMENT] counter; a further call never lowers the counter, and
    the [id] of every row after it is the [id] of a row before it or lies
    above the counter: no two rows share an [id], and the [id] of a deleted
    row is not given out again. *)
Theorem row_ids_strictly_increase (cs : list call) (fs0 : gmap string bytes)
    (c : call) :
  let w := run cs (fresh_world fs0) in
  StronglySorted (fun a b => rowid a < rowid b) (rows (db w))
  /\ List.Forall (fun r => 1 <= rowid r <= seq (db w)) (rows (db w))
  /\ seq (db w) <= seq (db (fst (serve c w)))
  /\ List.Forall (fun r => List.In (rowid r) (List.map rowid (rows (db w)))
                           \/ seq (db w) < rowid r)
                 (rows (db (fst (serve c w)))).
Proof.
  intros w.
  assert (Hw : StronglySorted (fun a b => rowid a < rowid b) (rows (db w))
               /\ List.Forall (fun r => 1 <= rowid r <= seq (db w)) (rows (db w))).
  { apply (run_invariant
             (fun w => StronglySorted (fun a b => rowid a < rowid b) (rows (db w))
                       /\ List.Forall (fun r => 1 <= rowid r <= seq (db w))
                                      (rows (db w)))).
    - intros c0 w0 Hw0. destruct (serve_rowids c0 w0 Hw0) as (? & ? & _). tauto.
    - split; constructor. }
  destruct (serve_rowids c w Hw) as (_ & _ & Hseq & Hids).
  destruct Hw as [Hs Hb]. repeat split; assumption.
Qed.

End Invariants.

(** ** Every upload under its own name *)

Section OwnNames.

Context {codec : JsonCodec} {host : Host}.

(** X16: no upload of a create overwrites another of the same batch: the
    names of the batch differ, and when the files open every part that
    carried a file name is found after the call, with its own content, at
    the path named by its position. *)
Theorem create_keeps_every_upload (f : form) (imgs : list UploadFile)
    (now : nat) (w : world) :
  let pid := generate_product_id (db w) in
  List.NoDup (numbered pid imgs)
  /\ (all_open (numbered pid imgs) ->
      Forall2
        (fun name u =>
           files (fst (create_product f imgs now w)) !! filepath name
           = Some (content u))
        (numbered pid imgs) (named imgs)).
Proof.
  intros pid. split; [apply numbered_NoDup|]. intros Ho.
  pose proof (create_product_cases f imgs now w) as H. cbn zeta in H.
  fold pid in H.
  assert (Hfiles : files (fst (create_product f imgs now w))
                   = write_all (numbered pid imgs) (named imgs) (files w)).
  { destruct (create_product f imgs now w) as [w' [r|e]]; cbn [fst].
    - apply H.
    - destruct H as (_ & [(_ & _ & _ & Hf) | (_ & k & Hk & Hno & _)]);
        [exact Hf|].
      rewrite (all_open_nth _ _ Ho Hk) in Hno. discriminate. }
  rewrite Hfiles.
  apply write_all_each; [apply numbered_NoDup | apply numbered_length].
Qed.

Lemma update_product_files (pid : string) (f : form) (imgs : list UploadFile)
    (existing_images : string) (w : world) (r0 : row) (l : list json) :
  select_by_product_id pid (db w) = Some r0 ->
  json_loads existing_images = Some (JArr l) ->
  has_uploads (Some imgs) = true ->
  all_open (renumbered pid (List.length l) imgs) ->
  files (fst (update_product pid f (Some imgs) existing_images w))
  = write_all (renumbered pid (List.length l) imgs) (named imgs) (files w).
Proof.
  intros Hsel Hload Hup Ho.
  pose proof (update_product_list pid f (Some imgs) existing_images w r0 l
                Hsel Hload) as H.
  cbn zeta in H. rewrite Hup in H. cbn [default from_option id] in H.
  destruct (update_product pid f (Some imgs) existing_images w) as [w' [r|e]];
    cbn [fst].
  - apply H.
  - destruct H as (_ & [(_ & _ & _ & Hf) | (_ & k & Hk & Hno & _)]);
      [exact Hf|].
    rewrite (all_open_nth _ _ Ho Hk) in Hno. discriminate.
Qed.

(** X17: nor does an upload of an update overwrite another of the same
    batch: the names differ, and when the row exists, [existing_images] is
    a list and the files open, every part that carried a file name is found
    afterwards, with its own content, at the path of its index. *)
Theorem update_keeps_every_upload (pid : string) (f : form)
    (imgs : list UploadFile) (existing_images : string) (w : world) (r0 : row)
    (l : list json) :
  select_by_product_id pid (db w) = Some r0 ->
  json_loads existing_images = Some (JArr l) ->
  has_uploads (Some imgs) = true ->
  all_open (renumbered pid (List.length l) imgs) ->
  List.NoDup (renumbered pid (List.length l) imgs)
  /\ Forall2
       (fun name u =>
          files (fst (update_product pid f (Some imgs) existing_images w))
            !! filepath name
          = Some (content u))
       (renumbered pid (List.length l) imgs) (named imgs).
Proof.
  intros Hsel Hload Hup Ho. split; [apply renumbered_NoDup|].
  rewrite (update_product_files pid f imgs existing_images w r0 l Hsel Hload Hup Ho).
  apply write_all_each; [apply renumbered_NoDup | apply renumbered_length].
Qed.

(** X18: an update can overwrite an image it retains.  The first upload
    gets the number of retained images as its index; when the retained list
    already names the path of that index and the file opens, the file there
    holds the upload afterwards, and with a price that is a number the
    stored list names the path twice. *)
Theorem update_can_overwrite_retained (pid : string) (f : form)
    (a : UploadFile) (existing_images : string) (w : world) (r0 : row)
    (l : list json) :
  select_by_product_id pid (db w) = Some r0 ->
  json_loads existing_images = Some (JArr l) ->
  Py.truthy (filename a) = true ->
  List.In (JStr (public_path (upload_name pid (List.length l) a))) l ->
  opens (filepath (upload_name pid (List.length l) a)) = true ->
  let w' := fst (update_product pid f (Some [a]) existing_images w) in
  let path := public_path (upload_name pid (List.length l) a) in
  files w' !! filepath (upload_name pid (List.length l) a) = Some (content a)
  /\ (PrimFloat.is_nan (f_price f) = false ->
      exists r, select_by_product_id pid (db w') = Some r
                /\ images r = Some (json_dumps (JArr (l ++ [JStr path])))
                /\ List.In (JStr path) l).
Proof.
  intros Hsel Hload Ha Hin Hopen w' path. subst w' path.
  assert (Hup : has_uploads (Some [a]) = true) by exact Ha.
  assert (Hnames : renumbered pid (List.length l) [a]
                   = [upload_name pid (List.length l) a]).
  { unfold renumbered. rewrite named_at_cons, Ha. cbn.
    now rewrite !Nat.add_0_r. }
  assert (Ho : all_open (renumbered pid (List.length l) [a])).
  { rewrite Hnames. constructor; [exact Hopen | constructor]. }
  split.
  - rewrite (update_product_files pid f [a] existing_images w r0 l Hsel Hload Hup Ho).
    rewrite Hnames. unfold named. cbn [List.filter]. rewrite Ha.
    rewrite write_all_cons. apply lookup_insert_eq.
  - intros Hnan.
    pose proof (update_product_list pid f (Some [a]) existing_images w r0 l
                  Hsel Hload) as H.
    cbn zeta in H. rewrite Hup in H. cbn [default from_option id] in H.
    rewrite Hnames in H.
    destruct (update_product_ok pid f (Some [a]) existing_images w r0 l
                Hsel Hload Hnan) as [w' Hrun].
    { rewrite Hup. exact Ho. }
    rewrite Hrun in H. rewrite Hrun. cbn [fst].
    destruct H as (_ & _ & _ & _ & ->).
    eexists. split; [apply select_update_where; exact Hsel|].
    split; [reflexivity | exact Hin].
Qed.

End OwnNames.

(** ** Writing a product and reading it back *)

Section ReadBack.

Context {codec : JsonCodec} {host : Host}.

(** The laws of the [json] module, as before, and that [dumps] never
    writes the empty text. *)
Variable json_wf : json -> bool.
Hypothesis json_wf_str : forall s, json_wf (JStr s) = true.
Hypothesis json_wf_arr : forall l, json_wf (JArr l) = List.forallb json_wf l.
Hypothesis json_loads_wf : forall s v, json_loads s = Some v -> json_wf v = true.
Hypothesis json_loads_dumps :
  forall v, json_wf v = true -> json_loads (json_dumps v) = Some v.
Hypothesis json_dumps_text : forall v, json_wf v = true -> json_dumps v <> "".

Lemma decoded_decode_column (column : option string) (v : json) :
  decoded column v -> decode_column column = Ok v.
Proof.
  unfold decoded, decode_column.
  destruct column as [[|c text]|]; cbn; now intros ->.
Qed.

Lemma decode_column_dumps (v : json) :
  json_wf v = true -> decode_column (Some (json_dumps v)) = Ok v.
Proof.
  intros Hwf. unfold decode_column.
  pose proof (json_dumps_text v Hwf) as Hne. pose proof (json_loads_dumps v Hwf) as Hl.
  destruct (json_dumps v) as [|c text]; [contradiction|]. cbn. now rewrite Hl.
Qed.

Lemma json_wf_strings (l : list json) (names : list string) :
  json_wf (JArr l) = true ->
  json_wf (JArr (l ++ List.map (fun n => JStr (public_path n)) names)) = true.
Proof.
  rewrite !json_wf_arr, List.forallb_app. intros ->. cbn [andb].
  induction names as [|n names IH]; [reflexivity|]. cbn.
  now rewrite json_wf_str, IH.
Qed.

(** X19: a product that create has inserted reads back: get of the
    identifier it returned answers with the fields of the form (the price
    as a [REAL] column keeps it), [sizes] and [colors] deserialized, the
    public paths of the files written by position as [images], the clock
    of the insertion as [created_at] and the next [AUTOINCREMENT] value as
    [id]. *)
Theorem create_then_get (f : form) (imgs : list UploadFile) (now : nat)
    (w w' : world) (r : reply) (vs vc : json) :
  create_product f imgs now w = (w', Ok r) ->
  decoded (Some (f_sizes f)) vs ->
  decoded (Some (f_colors f)) vc ->
  let pid := generate_product_id (db w) in
  r = [("message", "Product created successfully"); ("product_id", pid)]
  /\ get_product pid w'
     = Ok {| p_id := S (seq (db w)); p_product_id := pid;
             p_name := f_name f; p_type := f_type f;
             p_category := Some (f_category f);
             p_details := Some (f_details f);
             p_price := real_column (f_price f);
             p_sizes := vs; p_colors := vc;
             p_images := JArr (List.map (fun n => JStr (public_path n))
                                        (numbered pid imgs));
             p_created_at := now |}.
Proof.
  intros Hrun Hs Hc pid.
  pose proof (create_product_cases f imgs now w) as H. cbn zeta in H.
  fold pid in H. rewrite Hrun in H.
  destruct H as (-> & Hfresh & _ & _ & _ & _ & Hrows). split; [reflexivity|].
  match type of Hrows with _ = _ ++ [?x] => set (new := x) in * end.
  unfold get_product. change pid with (product_id new).
  rewrite (select_appended (db w') (rows (db w)) new Hfresh Hrows).
  unfold to_product.
  cbn [new sizes colors images rowid product_id name type category details price
       created_at].
  rewrite (decoded_decode_column _ _ Hs), (decoded_decode_column _ _ Hc).
  rewrite List.map_map.
  rewrite decode_column_dumps; [reflexivity|].
  apply (json_wf_strings [] (numbered pid imgs)).
  now rewrite json_wf_arr.
Qed.

(** X20: an update that has gone through reads back: when
    [existing_images] is a list, get answers afterwards with the fields
    of the form (the price as a [REAL] column keeps it), the retained list
    followed by the public paths of the new files as [images], and the
    [id], [product_id] and [created_at] the row had. *)
Theorem update_then_get (pid : string) (f : form)
    (imgs : option (list UploadFile)) (existing_images : string) (w w' : world)
    (r : reply) (r0 : row) (l : list json) (vs vc : json) :
  update_product pid f imgs existing_images w = (w', Ok r) ->
  select_by_product_id pid (db w) = Some r0 ->
  json_loads existing_images = Some (JArr l) ->
  decoded (Some (f_sizes f)) vs ->
  decoded (Some (f_colors f)) vc ->
  let names := if has_uploads imgs
               then renumbered pid (List.length l) (default [] imgs) else [] in
  get_product pid w'
  = Ok {| p_id := rowid r0; p_product_id := pid;
          p_name := f_name f; p_type := f_type f;
          p_category := Some (f_category f);
          p_details := Some (f_details f);
          p_price := real_column (f_price f);
          p_sizes := vs; p_colors := vc;
          p_images := JArr (l ++ List.map (fun n => JStr (public_path n)) names);
          p_created_at := created_at r0 |}.
Proof.
  intros Hrun Hsel Hload Hs Hc names.
  pose proof (update_product_list pid f imgs existing_images w r0 l Hsel Hload)
    as H.
  cbn zeta in H. fold names in H. rewrite Hrun in H.
  destruct H as (_ & _ & _ & _ & Hdb). unfold get_product.
  rewrite Hdb, (select_update_where _ _ _ _ _ Hsel). unfold to_product.
  cbn [set_fields sizes colors images rowid product_id name type category
       details price created_at].
  rewrite (decoded_decode_column _ _ Hs), (decoded_decode_column _ _ Hc).
  rewrite decode_column_dumps.
  - destruct (select_some _ _ _ Hsel) as [_ ->]. reflexivity.
  - apply json_wf_strings. eapply json_loads_wf. exact Hload.
Qed.

End ReadBack.

(** ** The further properties on the scenarios *)

Section MoreScenarios.

Lemma py_json_dumps_text (v : json) : PyJson.wf v = true -> PyJson.dumps v <> "".
Proof.
  intros Hwf E. destruct (PyJsonFacts.dumps_starts_value v Hwf) as (c & tail & H & _).
  rewrite E in H. discriminate H.
Qed.

Lemma verify_admin_accepts_exactly_witness :
  verify_admin (settings_of ∅) admin = Ok "rimu_admin"
  /\ verify_admin (settings_of ∅) wrong_admin
     = Raise (HTTPException 401 "Invalid credentials").
Proof.
  split.
  - apply (verify_admin_accepts_exactly (settings_of ∅) admin);
      try reflexivity. split; reflexivity.
  - apply (verify_admin_accepts_exactly (settings_of ∅) wrong_admin);
      try reflexivity. right. discriminate.
Defined.

Lemma admin_routes_reject_unauthorized_witness :
  List.Forall (fun a => fst a = three_products /\ status (snd a) = 401)
    [post_admin_products (settings_of ∅) (Some wrong_admin) tee_without_category
                         400 three_products;
     put_admin_products (settings_of ∅) (Some wrong_admin) "RW0001" plain_update
                        three_products;
     delete_admin_products (settings_of ∅) (Some wrong_admin) "RW0001"
                           three_products].
Proof.
  destruct (admin_routes_reject_unauthorized (settings_of ∅) (Some wrong_admin)
              tee_without_category plain_update "RW0001" 400 three_products)
    as [H1 H2].
  - intros c [= <-]. vm_compute. discriminate.
  - specialize (H2 (fun c E => ltac:(injection E as <-; vm_compute; tauto))).
    rewrite List.Forall_forall in *. intros a Ha. split.
    + apply (H1 a Ha).
    + apply (H2 a Ha).
Defined.

Lemma create_writes_by_position_witness :
  files (fst (create_product boot [front_jpg; blank_part; side_png] 200 one_tee))
  = write_all ["RW0002_0.jpg"; "RW0002_2.png"] [front_jpg; side_png]
              (files one_tee).
Proof.
  destruct (create_writes_by_position boot [front_jpg; blank_part; side_png] 200
              one_tee) as (_ & _ & H).
  apply H. vm_compute. repeat constructor.
Defined.

Lemma update_writes_renumbered_witness :
  let w' := fst (update_product "RW0001" tee (Some [side_png; blank_part; back_png])
                                keep_first one_tee) in
  renumbered "RW0001" 1 [side_png; blank_part; back_png]
  = ["RW0001_1.png"; "RW0001_4.png"]
  /\ files w' = write_all ["RW0001_1.png"; "RW0001_4.png"] [side_png; back_png]
                          (files one_tee).
Proof.
  intros w'. split; [vm_compute; reflexivity|].
  edestruct (update_writes_renumbered "RW0001" tee [side_png; blank_part; back_png]
               keep_first one_tee) as (Hfiles & _).
  - vm_compute. reflexivity.
  - vm_compute. reflexivity.
  - reflexivity.
  - vm_compute. repeat constructor.
  - exact Hfiles.
Defined.

Lemma writes_stay_under_product_prefix_witness :
  files (fst (create_product boot [front_jpg] 200 one_tee))
    !! "static/uploads/RW0001_0.jpg"
  = files one_tee !! "static/uploads/RW0001_0.jpg"
  /\ files (fst (update_product "RW0001" tee (Some [side_png]) "{}" one_tee))
       !! "templates/index.html"
     = files one_tee !! "templates/index.html".
Proof.
  split.
  - apply (writes_stay_under_product_prefix boot [front_jpg] 200 "RW0001" None ""
             one_tee "static/uploads/RW0001_0.jpg").
    vm_compute. reflexivity.
  - apply (writes_stay_under_product_prefix tee [] 0 "RW0001" (Some [side_png]) "{}"
             one_tee "templates/index.html").
    vm_compute. reflexivity.
Defined.

Lemma delete_removes_what_is_listed_witness :
  files one_tee !! "static/uploads/RW0001_0.jpg" = Some (content front_jpg)
  /\ files (fst (delete_product "RW0001" one_tee)) !! "static/uploads/RW0001_0.jpg"
     = None.
Proof.
  split; [vm_compute; reflexivity|].
  apply (delete_removes_what_is_listed "RW0001" one_tee tee_row keep_first
           (JArr [JStr "/static/uploads/RW0001_0.jpg"])
           "static/uploads/RW0001_0.jpg").
  - vm_compute. reflexivity.
  - reflexivity.
  - vm_compute. reflexivity.
  - reflexivity.
  - exists "/static/uploads/RW0001_0.jpg", "static/uploads/RW0001_0.jpg".
    split; [now left|]. split; [|vm_compute; reflexivity].
    split; [now exists 1 | reflexivity].
Defined.

Lemma extension_after_last_dot_witness :
  extension "photo.tar.gz" = "gz" /\ extension "photo" = "photo"
  /\ exists stem, "photo.tar.gz" = stem +:+ "." +:+ extension "photo.tar.gz".
Proof.
  split; [reflexivity|]. split.
  - apply (extension_after_last_dot "photo"). reflexivity.
  - apply (extension_after_last_dot "photo.tar.gz"). reflexivity.
Defined.

Lemma delete_then_gone_witness :
  let w' := fst (delete_product "RW0002" three_products) in
  get_product "RW0002" w' = Raise (HTTPException 404 "Product not found")
  /\ delete_product "RW0002" w'
     = (w', Ok [("message", "Product deleted successfully")]).
Proof.
  intros w'.
  destruct (delete_then_gone "RW0002" three_products w'
              [("message", "Product deleted successfully")])
    as (Hget & _ & Hdel).
  - vm_compute. reflexivity.
  - split; [exact Hget | exact Hdel].
Defined.

Lemma create_after_delete_witness :
  (let w' := fst (delete_product "RW0001" three_products) in
   (exists e, snd (create_product tee [] 400 w') = Raise e
              /\ (all_open (numbered (generate_product_id (db w')) []) ->
                  e = IntegrityError))
   /\ db (fst (create_product tee [] 400 w')) = db w')
  /\ (let w' := fst (delete_product "RW0003" three_products) in
      snd (create_product tee [] 400 w')
      = Ok [("message", "Product created successfully");
            ("product_id", "RW0003")]).
Proof.
  split; intros w'.
  - destruct (create_after_delete three_products w' 3 0
                [("message", "Product deleted successfully")] tee [] 400)
      as [H _].
    + vm_compute. reflexivity.
    + lia.
    + vm_compute. reflexivity.
    + apply H. lia.
  - destruct (create_after_delete three_products w' 3 2
                [("message", "Product deleted successfully")] tee [] 400)
      as [_ H].
    + vm_compute. reflexivity.
    + lia.
    + vm_compute. reflexivity.
    + apply H; [lia | vm_compute; reflexivity | constructor].
Defined.

Lemma update_failure_keeps_table_witness :
  let w' := fst (update_product "RW0001" tee (Some [side_png]) "{}" one_tee) in
  snd (update_product "RW0001" tee (Some [side_png]) "{}" one_tee)
  = Raise AttributeError
  /\ db w' = db one_tee
  /\ files w' !! "static/uploads/RW0001_0.png" = Some (content side_png).
Proof.
  intros w'. split; [vm_compute; reflexivity|]. split.
  - apply (update_failure_keeps_table "RW0001" tee (Some [side_png]) "{}" one_tee
             w' AttributeError).
    vm_compute. reflexivity.
  - vm_compute. reflexivity.
Defined.

Lemma other_products_untouched_witness :
  get_product "RW0003"
    (fst (serve (Update "RW0002" tee (Some [side_png]) "[]") three_products))
  = get_product "RW0003" three_products
  /\ get_product "RW0003" (fst (serve (Delete "RW0002") three_products))
     = get_product "RW0003" three_products
  /\ get_product "RW0003" (fst (serve (Create tee [side_png] 400) three_products))
     = get_product "RW0003" three_products.
Proof.
  split; [|split].
  - apply (other_products_untouched (Update "RW0002" tee (Some [side_png]) "[]")
             three_products "RW0003"). discriminate.
  - apply (other_products_untouched (Delete "RW0002") three_products "RW0003").
    split; [discriminate | vm_compute; discriminate].
  - apply (other_products_untouched (Create tee [side_png] 400) three_products
             "RW0003"). vm_compute. discriminate.
Defined.

Lemma create_keeps_every_upload_witness :
  Forall2
    (fun name u =>
       files (fst (create_product boot [front_jpg; blank_part; side_png] 200
                                  one_tee)) !! filepath name
       = Some (content u))
    ["RW0002_0.jpg"; "RW0002_2.png"] [front_jpg; side_png].
Proof.
  destruct (create_keeps_every_upload boot [front_jpg; blank_part; side_png] 200
              one_tee) as (_ & H).
  apply H. vm_compute. repeat constructor.
Defined.

Lemma update_keeps_every_upload_witness :
  Forall2
    (fun name u =>
       files (fst (update_product "RW0001" tee (Some [side_png; back_png])
                                  keep_first one_tee)) !! filepath name
       = Some (content u))
    ["RW0001_1.png"; "RW0001_3.png"] [side_png; back_png].
Proof.
  edestruct (update_keeps_every_upload "RW0001" tee [side_png; back_png]
               keep_first one_tee) as (_ & H).
  - vm_compute. reflexivity.
  - vm_compute. reflexivity.
  - reflexivity.
  - vm_compute. repeat constructor.
  - exact H.
Defined.

Lemma update_can_overwrite_retained_witness :
  files two_images !! "static/uploads/RW0001_1.png" = Some (content side_png)
  /\ files (fst (update_product "RW0001" tee (Some [back_png]) keep_second
                                two_images))
       !! "static/uploads/RW0001_1.png"
     = Some (content back_png).
Proof.
  split; [vm_compute; reflexivity|].
  edestruct (update_can_overwrite_retained "RW0001" tee back_png keep_second
               two_images) as (H & _).
  - vm_compute. reflexivity.
  - vm_compute. reflexivity.
  - reflexivity.
  - vm_compute. left. reflexivity.
  - vm_compute. reflexivity.
  - exact H.
Defined.

Lemma create_then_get_witness :
  get_product "RW0002"
    (fst (create_product boot [front_jpg; blank_part; side_png] 200 one_tee))
  = Ok {| p_id := 2; p_product_id := "RW0002";
          p_name := "Boot"; p_type := "shoes";
          p_category := Some "winter";
          p_details := Some "Leather boot";
          p_price := 89.5%float;
          p_sizes := JArr []; p_colors := JArr [];
          p_images := JArr [JStr "/static/uploads/RW0002_0.jpg";
                            JStr "/static/uploads/RW0002_2.png"];
          p_created_at := 200 |}.
Proof.
  apply (@create_then_get py_json posix PyJson.wf (fun s => eq_refl)
           (fun l => eq_refl) PyJsonFacts.loads_dumps py_json_dumps_text
           boot [front_jpg; blank_part; side_png] 200 one_tee
           (fst (create_product boot [front_jpg; blank_part; side_png] 200 one_tee))
           [("message", "Product created successfully"); ("product_id", "RW0002")]
           (JArr []) (JArr [])).
  - vm_compute. reflexivity.
  - vm_compute. reflexivity.
  - vm_compute. reflexivity.
Defined.

Lemma update_then_get_witness :
  get_product "RW0001"
    (fst (update_product "RW0001" boot (Some [side_png]) keep_first one_tee))
  = Ok {| p_id := 1; p_product_id := "RW0001";
          p_name := "Boot"; p_type := "shoes";
          p_category := Some "winter";
          p_details := Some "Leather boot";
          p_price := 89.5%float;
          p_sizes := JArr []; p_colors := JArr [];
          p_images := JArr [JStr "/static/uploads/RW0001_0.jpg";
                            JStr "/static/uploads/RW0001_1.png"];
          p_created_at := 100 |}.
Proof.
  apply (@update_then_get py_json posix PyJson.wf (fun s => eq_refl)
           (fun l => eq_refl) PyJsonFacts.loads_wf PyJsonFacts.loads_dumps
           py_json_dumps_text "RW0001" boot (Some [side_png]) keep_first one_tee
           (fst (update_product "RW0001" boot (Some [side_png]) keep_first one_tee))
           [("message", "Product updated successfully"); ("product_id", "RW0001")]
           tee_row [JStr "/static/uploads/RW0001_0.jpg"] (JArr []) (JArr [])).
  - vm_compute. reflexivity.
  - vm_compute. reflexivity.
  - vm_compute. reflexivity.
  - vm_compute. reflexivity.
  - vm_compute. reflexivity.
Defined.

End MoreScenarios.
